(** * challenge1-app: request instrumentation and telemetry lifecycle

    A shallow embedding of the Go packages [telemetry] (configuration,
    provider set-up, instrument registration, shutdown, recording),
    [middleware] (response capture and the tracing middleware) and of the
    wiring and the health/readiness handlers of [main], followed by the
    properties the specification states about them.

    Conventions of the embedding:
    - Go's [int], [int64] and [time.Duration] are [Z]; the one place where
      the code does arithmetic on a fixed-width integer
      ([rw.written += int64(n)]) has its two's-complement wrap written out.
    - [[]byte] and [string] are [string].
    - [error] is [option string]: [None] is [nil], [Some msg] an error whose
      [Error()] text is [msg].
    - A nil pointer or nil interface is [None]; calling a method on it
      panics, as it does in Go.
    - The OpenTelemetry SDK objects are outside the repository.  Every call
      the code makes on them is appended to a log ([calls]), and whatever
      they decide on their own (fresh trace identifiers, whether an exporter
      can be built, whether a provider shuts down cleanly) is read from
      fields of the state. *)

From Stdlib Require Import Ascii String ZArith Lia.
From stdpp Require Import base option list strings gmap.

Local Open Scope Z_scope.
Local Open Scope string_scope.

(** ** Control flow: calls that may panic, and [defer] *)

Module Go.

(** How a call ends: it returns a value, or it panics with [v]. *)
Inductive Result (A : Type) : Type :=
| Ok (a : A)
| Panic (v : string).
Arguments Ok {A} a.
Arguments Panic {A} v.

(** A Go function acting on a mutable state of type [S]. *)
Definition M (S A : Type) : Type := S → Result A * S.

Definition ret {S A} (a : A) : M S A := λ s, (Ok a, s).

Definition bind {S A B} (m : M S A) (k : A → M S B) : M S B :=
  λ s, match m s with
       | (Ok a, s') => k a s'
       | (Panic v, s') => (Panic v, s')
       end.

Arguments bind {S A B} & m k.

Definition panic {S A} (v : string) : M S A := λ s, (Panic v, s).
Definition get {S} : M S S := λ s, (Ok s, s).
Definition gets {S A} (f : S → A) : M S A := λ s, (Ok (f s), s).
Definition modify {S} (f : S → S) : M S unit := λ s, (Ok tt, f s).

(** [defer d body]: [d] runs when [body] is left, whether by return or by
    panic.  A panic of [d] itself replaces the outcome of [body]. *)
Definition defer {S A} (d : M S unit) (body : M S A) : M S A :=
  λ s, match body s with
       | (r, s') => match d s' with
                    | (Ok _, s'') => (r, s'')
                    | (Panic v, s'') => (Panic v, s'')
                    end
       end.

(** Run a function written against the second component of a pair. *)
Definition on_snd {W S A} (m : M S A) : M (W * S) A :=
  λ ws, match m ws.2 with (r, s') => (r, (ws.1, s')) end.

(** Run a function written against the first component of a pair. *)
Definition on_fst {W S A} (m : M W A) : M (W * S) A :=
  λ ws, match m ws.1 with (r, w') => (r, (w', ws.2)) end.

(** Run [m], written against a wrapper [V] built around the current [W],
    and put the wrapped value back afterwards. *)
Definition via {W V S A} (into : W → V) (back : V → W) (m : M (V * S) A)
  : M (W * S) A :=
  λ ws, match m (into ws.1, ws.2) with (r, vs) => (r, (back vs.1, vs.2)) end.

End Go.

Import Go.

Declare Scope go_scope.
Delimit Scope go_scope with go.
Notation "x ← y ; z" := (Go.bind y (λ x, z))
  (at level 20, y at level 100, z at level 200, only parsing) : go_scope.
Notation "' x ← y ; z" := (Go.bind y (λ x, z))
  (at level 20, x pattern, y at level 100, z at level 200, only parsing) : go_scope.
Notation "x ;; z" := (Go.bind x (λ _, z))
  (at level 100, z at level 200, only parsing, right associativity) : go_scope.
Local Open Scope go_scope.

Definition error : Type := option string.

(** [err != nil]. *)
Definition failed (err : error) : bool :=
  match err with Some _ => true | None => false end.

(** ** Values of the standard library and of the OpenTelemetry API *)

(** [float64] values are kept symbolic.  The code builds them in two ways
    only: by converting an [int64], and by [time.Duration.Seconds]. *)
Inductive float64 : Type :=
| float64_of_int64 (i : Z)
| Duration_Seconds (d : Z).

Global Instance float64_eq_dec : EqDecision float64.
Proof. solve_decision. Defined.

Module time.

(** [time.Duration]: a count of nanoseconds. *)
Definition Duration : Type := Z.

(** [Duration.Milliseconds]: integer division, truncated toward zero. *)
Definition Milliseconds (d : Duration) : Z := d `quot` 1000000.

Definition Seconds (d : Duration) : float64 := Duration_Seconds d.

End time.

Module attribute.

Inductive Value : Type :=
| STRING (s : string)
| INT64 (i : Z)
| FLOAT64 (f : float64)
| BOOL (b : bool).

Record KeyValue : Type := mkKeyValue { Key : string; Val : Value }.

Definition String (k v : string) : KeyValue := mkKeyValue k (STRING v).
(** [attribute.Int] stores its argument as an [int64] value. *)
Definition Int (k : string) (v : Z) : KeyValue := mkKeyValue k (INT64 v).
Definition Int64 (k : string) (v : Z) : KeyValue := mkKeyValue k (INT64 v).
Definition Float64 (k : string) (v : float64) : KeyValue := mkKeyValue k (FLOAT64 v).
Definition Bool (k : string) (v : bool) : KeyValue := mkKeyValue k (BOOL v).

Global Instance Value_eq_dec : EqDecision Value.
Proof. solve_decision. Defined.
Global Instance KeyValue_eq_dec : EqDecision KeyValue.
Proof. solve_decision. Defined.

(** The value stored under key [k] in an attribute list, if any. *)
Fixpoint lookup (k : string) (attrs : list KeyValue) : option Value :=
  match attrs with
  | [] => None
  | kv :: rest => if decide (Key kv = k) then Some (Val kv) else lookup k rest
  end.

End attribute.

Module trace.

(** A span context: the 128-bit trace identifier and the 64-bit span
    identifier. *)
Record SpanContext : Type := mkSpanContext { TraceID : N; SpanID : N }.

(** A span is either the no-op span ([trace.SpanFromContext] on a context
    that carries none) or a recording span of the SDK.  [handle] is the
    identity of the span object. *)
Inductive Span : Type :=
| noopSpan
| recordingSpan (handle : nat) (sc : SpanContext).

Definition SpanContext_of (s : Span) : SpanContext :=
  match s with
  | noopSpan => mkSpanContext 0 0
  | recordingSpan _ sc => sc
  end.

Inductive SpanKind : Type := SpanKindInternal | SpanKindServer.

Inductive Code : Type := Unset | Error | OkCode.

Global Instance SpanContext_eq_dec : EqDecision SpanContext.
Proof. solve_decision. Defined.
Global Instance Span_eq_dec : EqDecision Span.
Proof. solve_decision. Defined.
Global Instance SpanKind_eq_dec : EqDecision SpanKind.
Proof. solve_decision. Defined.
Global Instance Code_eq_dec : EqDecision Code.
Proof. solve_decision. Defined.

Definition hex_digit (d : N) : ascii :=
  match d with
  | 0 => "0" | 1 => "1" | 2 => "2" | 3 => "3" | 4 => "4" | 5 => "5"
  | 6 => "6" | 7 => "7" | 8 => "8" | 9 => "9" | 10 => "a" | 11 => "b"
  | 12 => "c" | 13 => "d" | 14 => "e" | _ => "f"
  end%N%char.

(** The [digits] low hexadecimal digits of [n], most significant first. *)
Fixpoint hex (digits : nat) (n : N) : string :=
  match digits with
  | O => ""
  | S d => hex d (n `div` 16)%N +:+ String (hex_digit (n `mod` 16)%N) ""
  end.

(** [TraceID.String]: the 16 bytes in lower-case hexadecimal. *)
Definition TraceID_String (t : N) : string := hex 32 t.

(** A [context.Context], as far as this program looks into it: the span
    it carries. *)
Definition Context : Type := option Span.

Definition SpanFromContext (ctx : Context) : Span := default noopSpan ctx.
Definition ContextWithSpan (s : Span) : Context := Some s.

End trace.

Module metric.

Inductive Kind : Type :=
| Int64Counter | Float64Histogram | Int64UpDownCounter | Int64Histogram.

(** A registered instrument.  Bucket boundaries are kept as the decimal
    literals of the source. *)
Record Instrument : Type := mkInstrument {
  kind : Kind;
  name : string;
  description : string;
  unit_ : string;
  boundaries : list string
}.

Global Instance Kind_eq_dec : EqDecision Kind.
Proof. solve_decision. Defined.
Global Instance Instrument_eq_dec : EqDecision Instrument.
Proof. solve_decision. Defined.

End metric.

(** ** The OpenTelemetry SDK, seen from its callers *)

Module sdk.
Import attribute trace.

Record Resource : Type := mkResource {
  SchemaURL : string;
  Attributes : list KeyValue
}.

(** An OTLP/HTTP exporter as configured by its options. *)
Record Exporter : Type := mkExporter { Endpoint : string; WithInsecure : bool }.

Record TracerProvider : Type := mkTracerProvider {
  tp_exporter : Exporter;
  tp_BatchTimeout : time.Duration;
  tp_MaxExportBatchSize : Z;
  tp_resource : option Resource
}.

Record MeterProvider : Type := mkMeterProvider {
  mp_exporter : Exporter;
  mp_Interval : time.Duration;
  mp_resource : option Resource
}.

(** A tracer and a meter, by their instrumentation scope. *)
Record Tracer : Type := mkTracer { tracer_name : string }.
Record Meter : Type := mkMeter { meter_name : string }.

(** The calls the program makes on SDK objects. *)
Inductive Call : Type :=
| Counter_Add (inst : metric.Instrument) (incr : Z) (attrs : list KeyValue)
| UpDownCounter_Add (inst : metric.Instrument) (incr : Z) (attrs : list KeyValue)
| Float64Histogram_Record (inst : metric.Instrument) (v : float64) (attrs : list KeyValue)
| Int64Histogram_Record (inst : metric.Instrument) (v : Z) (attrs : list KeyValue)
| Tracer_Start (t : Tracer) (parent : Context) (spanName : string)
               (kind : SpanKind) (attrs : list KeyValue) (s : Span)
| Span_SetAttributes (s : Span) (attrs : list KeyValue)
| Span_SetStatus (s : Span) (code : Code) (description : string)
| Span_RecordError (s : Span) (err : string)
| Span_End (s : Span)
| TracerProvider_Shutdown (tp : TracerProvider)
| MeterProvider_Shutdown (mp : MeterProvider).

(** The process-wide providers and propagator of package [otel]. *)
Record Globals : Type := mkGlobals {
  GetTracerProvider : option TracerProvider;
  GetMeterProvider : option MeterProvider;
  GetTextMapPropagator : list string
}.

(** What the SDK and the collector decide on their own. *)
Record Outside : Type := mkOutside {
  idgen : nat → SpanContext;              (* identifiers of the n-th span *)
  resource_Merge_err : error;
  otlptracehttp_New_err : Exporter → error;
  otlpmetrichttp_New_err : Exporter → error;
  instrument_err : string → error;        (* by instrument name *)
  tp_Shutdown_err : TracerProvider → error;
  mp_Shutdown_err : MeterProvider → error
}.

Record World : Type := mkWorld {
  clock : Z;                (* monotonic clock reading, in nanoseconds *)
  calls : list Call;        (* calls received so far, oldest first *)
  next_span : nat;          (* number of spans started so far *)
  globals : Globals;
  outside : Outside
}.

Definition with_clock (c : Z) (σ : World) : World :=
  mkWorld c (calls σ) (next_span σ) (globals σ) (outside σ).
Definition with_calls (l : list Call) (σ : World) : World :=
  mkWorld (clock σ) l (next_span σ) (globals σ) (outside σ).
Definition with_next_span (n : nat) (σ : World) : World :=
  mkWorld (clock σ) (calls σ) n (globals σ) (outside σ).
Definition with_globals (g : Globals) (σ : World) : World :=
  mkWorld (clock σ) (calls σ) (next_span σ) g (outside σ).

Definition log (c : Call) : M World unit :=
  modify (λ σ, with_calls (calls σ ++ [c]) σ).

(** A method call through a nil pointer or a nil interface. *)
Definition nil_dereference : string :=
  "runtime error: invalid memory address or nil pointer dereference".

Definition Now : M World Z := gets clock.
Definition Since (start : Z) : M World time.Duration := gets (λ σ, clock σ - start).
(** Time passing while a handler works. *)
Definition elapse (d : N) : M World unit :=
  modify (λ σ, with_clock (clock σ + Z.of_N d) σ).

(** [Tracer.Start]: a new recording span, child of the span of [ctx] when
    there is one (it then shares its trace identifier). *)
Definition Start (t : option Tracer) (ctx : Context) (spanName : string)
    (kind : SpanKind) (attrs : list KeyValue) : M World (Context * Span) :=
  match t with
  | None => panic nil_dereference
  | Some tr =>
      σ ← get;
      let fresh := idgen (outside σ) (next_span σ) in
      let sc := match SpanFromContext ctx with
                | noopSpan => fresh
                | recordingSpan _ parent => mkSpanContext (TraceID parent) (SpanID fresh)
                end in
      let span := recordingSpan (next_span σ) sc in
      modify (with_next_span (S (next_span σ)));;
      log (Tracer_Start tr ctx spanName kind attrs span);;
      ret (ContextWithSpan span, span)
  end.

(** Methods of a span; the no-op span ignores them. *)
Definition on_span (s : Span) (c : Call) : M World unit :=
  match s with
  | noopSpan => ret tt
  | recordingSpan _ _ => log c
  end.
Definition SetAttributes (s : Span) (attrs : list KeyValue) : M World unit :=
  on_span s (Span_SetAttributes s attrs).
Definition SetStatus (s : Span) (code : Code) (description : string) : M World unit :=
  on_span s (Span_SetStatus s code description).
Definition RecordError (s : Span) (err : string) : M World unit :=
  on_span s (Span_RecordError s err).
Definition End (s : Span) : M World unit :=
  on_span s (Span_End s).

(** Methods of instruments; a nil instrument panics. *)
Definition on_instrument (i : option metric.Instrument)
    (c : metric.Instrument → Call) : M World unit :=
  match i with
  | None => panic nil_dereference
  | Some inst => log (c inst)
  end.
(** [Int64Counter.Add] and [Int64UpDownCounter.Add]. *)
Definition CounterAdd (i : option metric.Instrument) (incr : Z)
    (attrs : list KeyValue) : M World unit :=
  on_instrument i (λ inst, Counter_Add inst incr attrs).
Definition UpDownCounterAdd (i : option metric.Instrument) (incr : Z)
    (attrs : list KeyValue) : M World unit :=
  on_instrument i (λ inst, UpDownCounter_Add inst incr attrs).
Definition RecordFloat64 (i : option metric.Instrument) (v : float64)
    (attrs : list KeyValue) : M World unit :=
  on_instrument i (λ inst, Float64Histogram_Record inst v attrs).
Definition RecordInt64 (i : option metric.Instrument) (v : Z)
    (attrs : list KeyValue) : M World unit :=
  on_instrument i (λ inst, Int64Histogram_Record inst v attrs).

(** Instrument constructors of a [Meter]: the instrument and an error. *)
Definition NewInstrument (m : option Meter) (k : metric.Kind)
    (name description unit_ : string) (boundaries : list string)
  : M World (option metric.Instrument * error) :=
  match m with
  | None => panic nil_dereference
  | Some _ =>
      σ ← get;
      match instrument_err (outside σ) name with
      | Some e => ret (None, Some e)
      | None => ret (Some (metric.mkInstrument k name description unit_ boundaries), None)
      end
  end.

(** [tp.Tracer(name)] and [mp.Meter(name)]. *)
Definition TracerOf (tp : option TracerProvider) (name : string) : M World Tracer :=
  match tp with
  | None => panic nil_dereference
  | Some _ => ret (mkTracer name)
  end.
Definition MeterOf (mp : option MeterProvider) (name : string) : M World Meter :=
  match mp with
  | None => panic nil_dereference
  | Some _ => ret (mkMeter name)
  end.

Definition ShutdownTracerProvider (tp : TracerProvider) : M World error :=
  log (TracerProvider_Shutdown tp);;
  gets (λ σ, tp_Shutdown_err (outside σ) tp).
Definition ShutdownMeterProvider (mp : MeterProvider) : M World error :=
  log (MeterProvider_Shutdown mp);;
  gets (λ σ, mp_Shutdown_err (outside σ) mp).

Definition SetTracerProvider (tp : option TracerProvider) : M World unit :=
  modify (λ σ, with_globals
    (mkGlobals tp (GetMeterProvider (globals σ)) (GetTextMapPropagator (globals σ))) σ).
Definition SetMeterProvider (mp : option MeterProvider) : M World unit :=
  modify (λ σ, with_globals
    (mkGlobals (GetTracerProvider (globals σ)) mp (GetTextMapPropagator (globals σ))) σ).
Definition SetTextMapPropagator (p : list string) : M World unit :=
  modify (λ σ, with_globals
    (mkGlobals (GetTracerProvider (globals σ)) (GetMeterProvider (globals σ)) p) σ).

End sdk.

(** ** Package [telemetry] *)

Module telemetry.
Import attribute trace.

(** The process environment; [os.Getenv] yields the empty string for a
    variable that is not set. *)
Definition Getenv (environ : gmap string string) (key : string) : string :=
  default "" (environ !! key).

Record Config : Type := mkConfig {
  ServiceName : string;
  ServiceVersion : string;
  Environment : string;
  OTLPEndpoint : string;
  Insecure : bool
}.

Record Telemetry : Type := mkTelemetry {
  TracerProvider : option sdk.TracerProvider;
  MeterProvider : option sdk.MeterProvider;
  Tracer : option sdk.Tracer;
  Meter : option sdk.Meter;
  RequestCounter : option metric.Instrument;
  RequestDuration : option metric.Instrument;
  ActiveRequests : option metric.Instrument;
  ErrorCounter : option metric.Instrument;
  MessageLength : option metric.Instrument
}.

Definition NewConfig (environ : gmap string string) : Config :=
  let endpoint := Getenv environ "OTEL_EXPORTER_OTLP_ENDPOINT" in
  let endpoint := if decide (endpoint = "") then "localhost:4318" else endpoint in
  let serviceName := Getenv environ "OTEL_SERVICE_NAME" in
  let serviceName := if decide (serviceName = "") then "sample-web-app" else serviceName in
  let serviceVersion := Getenv environ "OTEL_SERVICE_VERSION" in
  let serviceVersion := if decide (serviceVersion = "") then "1.0.0" else serviceVersion in
  let env := Getenv environ "ENV" in
  let env := if decide (env = "") then "development" else env in
  let insecure := bool_decide (Getenv environ "OTEL_INSECURE" ≠ "false") in
  mkConfig serviceName serviceVersion env endpoint insecure.

(** [resource.Merge(resource.Default(), resource.NewWithAttributes(...))];
    of the merged resource only the attributes given here are kept. *)
Definition newResource (cfg : Config) : M sdk.World (option sdk.Resource * error) :=
  σ ← get;
  match sdk.resource_Merge_err (sdk.outside σ) with
  | Some e => ret (None, Some e)
  | None =>
      ret (Some (sdk.mkResource "https://opentelemetry.io/schemas/1.21.0"
                   [ String "service.name" (ServiceName cfg);
                     String "service.version" (ServiceVersion cfg);
                     String "environment" (Environment cfg);
                     String "telemetry.sdk.language" "go" ]), None)
  end.

Definition second : time.Duration := 1000000000.

Definition initTracerProvider (cfg : Config) (res : option sdk.Resource)
  : M sdk.World (option sdk.TracerProvider * error) :=
  let exporter := sdk.mkExporter (OTLPEndpoint cfg) (Insecure cfg) in
  σ ← get;
  match sdk.otlptracehttp_New_err (sdk.outside σ) exporter with
  | Some err => ret (None, Some err)
  | None => ret (Some (sdk.mkTracerProvider exporter (5 * second) 512 res), None)
  end.

Definition initMeterProvider (cfg : Config) (res : option sdk.Resource)
  : M sdk.World (option sdk.MeterProvider * error) :=
  let exporter := sdk.mkExporter (OTLPEndpoint cfg) (Insecure cfg) in
  σ ← get;
  match sdk.otlpmetrichttp_New_err (sdk.outside σ) exporter with
  | Some err => ret (None, Some err)
  | None => ret (Some (sdk.mkMeterProvider exporter (15 * second) res), None)
  end.

Definition set_RequestCounter (i : option metric.Instrument) (t : Telemetry) :=
  mkTelemetry (TracerProvider t) (MeterProvider t) (Tracer t) (Meter t)
    i (RequestDuration t) (ActiveRequests t) (ErrorCounter t) (MessageLength t).
Definition set_RequestDuration (i : option metric.Instrument) (t : Telemetry) :=
  mkTelemetry (TracerProvider t) (MeterProvider t) (Tracer t) (Meter t)
    (RequestCounter t) i (ActiveRequests t) (ErrorCounter t) (MessageLength t).
Definition set_ActiveRequests (i : option metric.Instrument) (t : Telemetry) :=
  mkTelemetry (TracerProvider t) (MeterProvider t) (Tracer t) (Meter t)
    (RequestCounter t) (RequestDuration t) i (ErrorCounter t) (MessageLength t).
Definition set_ErrorCounter (i : option metric.Instrument) (t : Telemetry) :=
  mkTelemetry (TracerProvider t) (MeterProvider t) (Tracer t) (Meter t)
    (RequestCounter t) (RequestDuration t) (ActiveRequests t) i (MessageLength t).
Definition set_MessageLength (i : option metric.Instrument) (t : Telemetry) :=
  mkTelemetry (TracerProvider t) (MeterProvider t) (Tracer t) (Meter t)
    (RequestCounter t) (RequestDuration t) (ActiveRequests t) (ErrorCounter t) i.

(** [initMetrics] fills the instrument fields of [t] one after the other
    and stops at the first error; it yields the handle as it then is. *)
Definition initMetrics (t : Telemetry) : M sdk.World (Telemetry * error) :=
  r ← sdk.NewInstrument (Meter t) metric.Int64Counter
        "http_requests_total" "Total number of HTTP requests" "{request}" [];
  let t := set_RequestCounter r.1 t in
  if failed r.2 then ret (t, r.2) else
  r ← sdk.NewInstrument (Meter t) metric.Float64Histogram
        "http_request_duration_seconds" "HTTP request duration in seconds" "s"
        ["0.001"; "0.005"; "0.01"; "0.025"; "0.05"; "0.1"; "0.25"; "0.5"; "1"; "2.5"; "5"; "10"];
  let t := set_RequestDuration r.1 t in
  if failed r.2 then ret (t, r.2) else
  r ← sdk.NewInstrument (Meter t) metric.Int64UpDownCounter
        "http_requests_active" "Number of active HTTP requests" "{request}" [];
  let t := set_ActiveRequests r.1 t in
  if failed r.2 then ret (t, r.2) else
  r ← sdk.NewInstrument (Meter t) metric.Int64Counter
        "http_errors_total" "Total number of HTTP errors" "{error}" [];
  let t := set_ErrorCounter r.1 t in
  if failed r.2 then ret (t, r.2) else
  r ← sdk.NewInstrument (Meter t) metric.Int64Histogram
        "echo_message_length" "Length of echo messages" "{character}"
        ["0"; "10"; "50"; "100"; "500"; "1000"; "5000"];
  let t := set_MessageLength r.1 t in
  if failed r.2 then ret (t, r.2) else
  ret (t, None).

(** [fmt.Errorf("<prefix>: %w", err)]. *)
Definition wrap_error (prefix err : string) : string := prefix +:+ ": " +:+ err.

Definition Errorf_w (prefix : string) (err : error) : error :=
  Some (wrap_error prefix (default "<nil>" err)).

Definition Initialize (cfg : Config) : M sdk.World (option Telemetry * error) :=
  r ← newResource cfg;
  if failed r.2
  then ret (None, Errorf_w "failed to create resource" r.2) else
  let res := r.1 in
  r ← initTracerProvider cfg res;
  if failed r.2
  then ret (None, Errorf_w "failed to initialize tracer provider" r.2) else
  let tp := r.1 in
  r ← initMeterProvider cfg res;
  if failed r.2
  then ret (None, Errorf_w "failed to initialize meter provider" r.2) else
  let mp := r.1 in
  sdk.SetTracerProvider tp;;
  sdk.SetMeterProvider mp;;
  sdk.SetTextMapPropagator ["tracecontext"; "baggage"];;
  tracer ← sdk.TracerOf tp (ServiceName cfg);
  meter ← sdk.MeterOf mp (ServiceName cfg);
  let tel := mkTelemetry tp mp (Some tracer) (Some meter) None None None None None in
  r ← initMetrics tel;
  if failed r.2
  then ret (None, Errorf_w "failed to initialize metrics" r.2) else
  ret (Some r.1, None).

(** [fmt.Sprintf("%v", errs)] for a slice of errors. *)
Definition format_errors (errs : list string) : string :=
  "[" +:+ String.concat " " errs +:+ "]".

Definition Shutdown (t : Telemetry) : M sdk.World error :=
  let errs : list string := [] in
  errs ← match TracerProvider t with
         | Some tp =>
             err ← sdk.ShutdownTracerProvider tp;
             match err with
             | Some e => ret (errs ++ [wrap_error "tracer provider shutdown" e])%list
             | None => ret errs
             end
         | None => ret errs
         end;
  errs ← match MeterProvider t with
         | Some mp =>
             err ← sdk.ShutdownMeterProvider mp;
             match err with
             | Some e => ret (errs ++ [wrap_error "meter provider shutdown" e])%list
             | None => ret errs
             end
         | None => ret errs
         end;
  if decide (0 < length errs)%nat
  then ret (Some ("shutdown errors: " +:+ format_errors errs))
  else ret None.

Definition RecordRequest (t : Telemetry) (ctx : Context) (method path : string)
    (statusCode : Z) (duration : time.Duration) : M sdk.World unit :=
  let attrs := [ String "http.method" method;
                 String "http.route" path;
                 Int "http.status_code" statusCode ] in
  sdk.CounterAdd (RequestCounter t) 1 attrs;;
  sdk.RecordFloat64 (RequestDuration t) (time.Seconds duration) attrs;;
  if decide (statusCode >= 400)
  then sdk.CounterAdd (ErrorCounter t) 1 attrs
  else ret tt.

Definition StartRequest (t : Telemetry) (ctx : Context) : M sdk.World unit :=
  sdk.UpDownCounterAdd (ActiveRequests t) 1 [].

Definition EndRequest (t : Telemetry) (ctx : Context) : M sdk.World unit :=
  sdk.UpDownCounterAdd (ActiveRequests t) (-1) [].

Definition RecordMessageLength (t : Telemetry) (ctx : Context) (length : Z)
  : M sdk.World unit :=
  sdk.RecordInt64 (MessageLength t) length [].

End telemetry.

(** ** Package [net/http], as far as the program uses it *)

Module http.
Import trace.

Definition is_lower (c : ascii) : bool :=
  (97 <=? nat_of_ascii c)%nat && (nat_of_ascii c <=? 122)%nat.
Definition is_upper (c : ascii) : bool :=
  (65 <=? nat_of_ascii c)%nat && (nat_of_ascii c <=? 90)%nat.
Definition is_digit (c : ascii) : bool :=
  (48 <=? nat_of_ascii c)%nat && (nat_of_ascii c <=? 57)%nat.
Definition to_upper (c : ascii) : ascii := ascii_of_nat (nat_of_ascii c - 32).
Definition to_lower (c : ascii) : ascii := ascii_of_nat (nat_of_ascii c + 32).

Fixpoint string_forallb (f : ascii → bool) (s : string) : bool :=
  match s with
  | EmptyString => true
  | String c rest => f c && string_forallb f rest
  end.

Fixpoint string_existsb (f : ascii → bool) (s : string) : bool :=
  match s with
  | EmptyString => false
  | String c rest => f c || string_existsb f rest
  end.

(** The bytes allowed in a header field name. *)
Definition validHeaderFieldByte (c : ascii) : bool :=
  is_lower c || is_upper c || is_digit c
  || string_existsb (Ascii.eqb c) "!#$%&'*+-.^_`|~".

Fixpoint canonicalize (upper : bool) (s : string) : string :=
  match s with
  | EmptyString => EmptyString
  | String c rest =>
      let c' := if upper && is_lower c then to_upper c
                else if negb upper && is_upper c then to_lower c
                else c in
      String c' (canonicalize (Ascii.eqb c' "-") rest)
  end.

(** [textproto.CanonicalMIMEHeaderKey]: first letter and letters after a
    hyphen in upper case, the others in lower case; a key with a byte that
    is not allowed in a field name is left as it is. *)
Definition CanonicalMIMEHeaderKey (s : string) : string :=
  if string_forallb validHeaderFieldByte s then canonicalize true s else s.

(** [http.Header]. *)
Definition Header_Set (key value : string) (h : gmap string (list string))
  : gmap string (list string) :=
  <[CanonicalMIMEHeaderKey key := [value]]> h.
Definition Header_Del (key : string) (h : gmap string (list string))
  : gmap string (list string) :=
  delete (CanonicalMIMEHeaderKey key) h.
Definition Header_Get (key : string) (h : gmap string (list string)) : string :=
  match h !! CanonicalMIMEHeaderKey key with
  | Some (v :: _) => v
  | _ => ""
  end.

(** The interface [http.ResponseWriter].  [Header] is the map the method
    [Header()] returns, and [StoreHeader] a store through that map. *)
Class ResponseWriter (W : Type) : Type := {
  Header : W → gmap string (list string);
  StoreHeader : gmap string (list string) → W → W;
  WriteHeader : Z → M W unit;
  Write : string → M W (Z * error)
}.

(** The response of the standard server, as a handler sees it through
    [WriteHeader] and [Write]: the status and a copy of the header map are
    fixed by the first [WriteHeader] (or the first [Write], which implies
    [WriteHeader(200)]), later calls of [WriteHeader] are ignored, and a
    status outside 100..999 panics.  The server buffers what is written, so
    [Write] answers for the buffer and not for the connection: [body] is
    what [Write] has accepted so far, and [room] the number of bytes it
    still accepts before a flush fails ([None]: no flush fails); once one
    has failed, every later [Write] fails.  [isHEAD] says that the request is
    a HEAD request: its writes are all accepted and thrown away, so that
    [body] is then sent to nobody. *)
Record response : Type := mkResponse {
  handlerHeader : gmap string (list string);
  wroteHeader : bool;
  status : Z;
  sentHeader : gmap string (list string);
  body : string;
  room : option nat;
  isHEAD : bool
}.

Definition bodyAllowedForStatus (status : Z) : bool :=
  negb ((100 <=? status)%Z && (status <=? 199)%Z || (status =? 204)%Z || (status =? 304)%Z).

Definition response_WriteHeader (code : Z) : M response unit :=
  λ w,
    if wroteHeader w then (Ok tt, w)
    else if (code <? 100)%Z || (999 <? code)%Z
    then (Panic "invalid WriteHeader code", w)
    else if (code <=? 199)%Z && negb (code =? 101)%Z then (Ok tt, w)
    else (Ok tt, mkResponse (handlerHeader w) true code (handlerHeader w) (body w) (room w)
                   (isHEAD w)).

(** The buffered writer behind [Write]. *)
Definition response_send (b : string) : M response (Z * error) :=
  λ w,
    let len := String.length b in
    match (if isHEAD w then None else room w) with
    | None =>
        (Ok (Z.of_nat len, None),
         mkResponse (handlerHeader w) (wroteHeader w) (status w) (sentHeader w)
           (body w +:+ b) (room w) (isHEAD w))
    | Some c =>
        if (len <=? c)%nat
        then (Ok (Z.of_nat len, None),
              mkResponse (handlerHeader w) (wroteHeader w) (status w) (sentHeader w)
                (body w +:+ b) (Some (c - len)%nat) (isHEAD w))
        else (Ok (Z.of_nat c, Some "write: broken pipe"),
              mkResponse (handlerHeader w) (wroteHeader w) (status w) (sentHeader w)
                (body w +:+ String.substring 0 c b) (Some 0%nat) (isHEAD w))
    end.

Definition response_Write (b : string) : M response (Z * error) :=
  w ← get;
  (if wroteHeader w then ret tt else response_WriteHeader 200);;
  w ← get;
  if decide (String.length b = 0%nat) then ret (0, None)
  else if negb (bodyAllowedForStatus (status w))
  then ret (0, Some "http: request method or response status code does not allow body")
  else response_send b.

Global Instance response_ResponseWriter : ResponseWriter response := {
  Header := handlerHeader;
  StoreHeader h w :=
    mkResponse h (wroteHeader w) (status w) (sentHeader w) (body w) (room w) (isHEAD w);
  WriteHeader := response_WriteHeader;
  Write := response_Write
}.

Record Request : Type := mkRequest {
  Method : string;
  URL_Path : string;
  URL_String : string;
  Host : string;
  RemoteAddr : string;
  TLS : bool;                         (* [r.TLS != nil] *)
  ReqHeader : gmap string (list string);
  Context : trace.Context
}.

Definition UserAgent (r : Request) : string := Header_Get "User-Agent" (ReqHeader r).

Definition WithContext (r : Request) (ctx : trace.Context) : Request :=
  mkRequest (Method r) (URL_Path r) (URL_String r) (Host r) (RemoteAddr r)
    (TLS r) (ReqHeader r) ctx.

(** [http.Handler]: a function that works with every response writer. *)
Definition Handler : Type :=
  ∀ W : Type, ResponseWriter W → Request → M (W * sdk.World) unit.

Inductive SpanMethod : Type :=
| SetAttributes (attrs : list attribute.KeyValue)
| SetStatus (code : Code) (description : string)
| RecordError (err : string)
| End.

(** What a handler does, step by step: it works on the response writer it
    was given (and may look at what [Write] returned), lets time pass,
    uses the tracer and spans, records the echo metric, and returns or
    panics. *)
Inductive Script : Type :=
| Return
| DoPanic (v : string)
| SetHeader (key value : string) (k : Script)
| DelHeader (key : string) (k : Script)
| DoWriteHeader (code : Z) (k : Script)
| DoWrite (b : string) (k : Z → error → Script)
| Work (d : N) (k : Script)
| StartSpan (t : option sdk.Tracer) (ctx : trace.Context) (spanName : string)
            (attrs : list attribute.KeyValue) (k : trace.Context → Span → Script)
| OnSpan (s : Span) (m : SpanMethod) (k : Script)
| RecordMessageLength (t : telemetry.Telemetry) (ctx : trace.Context) (length : Z)
                      (k : Script).

Definition span_call (s : Span) (m : SpanMethod) : M sdk.World unit :=
  match m with
  | SetAttributes attrs => sdk.SetAttributes s attrs
  | SetStatus code description => sdk.SetStatus s code description
  | RecordError err => sdk.RecordError s err
  | End => sdk.End s
  end.

Fixpoint exec {W : Type} `{ResponseWriter W} (h : Script) : M (W * sdk.World) unit :=
  match h with
  | Return => ret tt
  | DoPanic v => panic v
  | SetHeader key value k =>
      on_fst (modify (λ w, StoreHeader (Header_Set key value (Header w)) w));;
      exec k
  | DelHeader key k =>
      on_fst (modify (λ w, StoreHeader (Header_Del key (Header w)) w));;
      exec k
  | DoWriteHeader code k => on_fst (WriteHeader code);; exec k
  | DoWrite b k => r ← on_fst (Write b); exec (k r.1 r.2)
  | Work d k => on_snd (sdk.elapse d);; exec k
  | StartSpan t ctx spanName attrs k =>
      r ← on_snd (sdk.Start t ctx spanName SpanKindInternal attrs);
      exec (k r.1 r.2)
  | OnSpan s m k => on_snd (span_call s m);; exec k
  | RecordMessageLength t ctx length k =>
      on_snd (telemetry.RecordMessageLength t ctx length);; exec k
  end.

(** The handler that runs the script chosen for the request. *)
Definition HandlerFunc (f : Request → Script) : Handler :=
  λ W _ r, exec (f r).

End http.

(** ** Package [middleware] *)

Module middleware.
Import trace http.

(** [responseWriter] wraps an [http.ResponseWriter] to capture the status
    code and the number of bytes written. *)
Record responseWriter (W : Type) : Type := mkResponseWriter {
  inner : W;                (* the embedded [http.ResponseWriter] *)
  statusCode : Z;
  written : Z
}.
Arguments mkResponseWriter {W} inner statusCode written.
Arguments inner {W} r.
Arguments statusCode {W} r.
Arguments written {W} r.

Definition StatusOK : Z := 200.

Definition newResponseWriter {W} (w : W) : responseWriter W :=
  mkResponseWriter w StatusOK 0.

(** Addition on [int64] wraps around. *)
Definition int64_wrap (z : Z) : Z := (z + 2 ^ 63) `mod` 2 ^ 64 - 2 ^ 63.

(** A method of the embedded writer, called through the wrapper. *)
Definition on_inner {W A} (m : M W A) : M (responseWriter W) A :=
  λ rw, match m (inner rw) with
        | (r, w') => (r, mkResponseWriter w' (statusCode rw) (written rw))
        end.

Definition rw_WriteHeader {W} `{ResponseWriter W} (code : Z)
  : M (responseWriter W) unit :=
  modify (λ rw, mkResponseWriter (inner rw) code (written rw));;
  on_inner (WriteHeader code).

Definition rw_Write {W} `{ResponseWriter W} (b : string)
  : M (responseWriter W) (Z * error) :=
  r ← on_inner (Write b);
  modify (λ rw, mkResponseWriter (inner rw) (statusCode rw)
                  (int64_wrap (written rw + r.1)));;
  ret r.

(** [Header] is promoted from the embedded writer. *)
Global Instance responseWriter_ResponseWriter {W} `{ResponseWriter W}
  : ResponseWriter (responseWriter W) := {
  Header rw := Header (inner rw);
  StoreHeader h rw :=
    mkResponseWriter (StoreHeader h (inner rw)) (statusCode rw) (written rw);
  WriteHeader := rw_WriteHeader;
  Write := rw_Write
}.

(** [getScheme] returns the request scheme (http or https). *)
Definition getScheme (r : Request) : string :=
  if TLS r then "https"
  else
    let scheme := Header_Get "X-Forwarded-Proto" (ReqHeader r) in
    if decide (scheme ≠ "") then scheme else "http".

(** [TracingMiddleware] adds tracing and metrics to HTTP handlers. *)
Definition TracingMiddleware (tel : telemetry.Telemetry) (next : Handler) : Handler :=
  λ W _ r,
    start ← on_snd sdk.Now;
    on_snd (telemetry.StartRequest tel (Context r));;
    defer (on_snd (telemetry.EndRequest tel (Context r))) (
      cs ← on_snd (sdk.Start (telemetry.Tracer tel) (Context r) (URL_Path r)
                     SpanKindServer
                     [ attribute.String "http.method" (Method r);
                       attribute.String "http.url" (URL_String r);
                       attribute.String "http.host" (Host r);
                       attribute.String "http.user_agent" (UserAgent r);
                       attribute.String "http.remote_addr" (RemoteAddr r);
                       attribute.String "http.scheme" (getScheme r) ]);
      let ctx := cs.1 in
      let span := cs.2 in
      defer (on_snd (sdk.End span)) (
        via newResponseWriter inner (
          let traceID := TraceID_String (TraceID (SpanContext_of span)) in
          on_fst (modify (λ rw, StoreHeader (Header_Set "X-Trace-ID" traceID (Header rw)) rw));;
          next (responseWriter W) _ (WithContext r ctx);;
          duration ← on_snd (sdk.Since start);
          rw ← gets fst;
          on_snd (sdk.SetAttributes span
                    [ attribute.Int "http.status_code" (statusCode rw);
                      attribute.Int64 "http.response_size" (written rw);
                      attribute.Float64 "http.duration_ms"
                        (float64_of_int64 (time.Milliseconds duration)) ]);;
          (if decide (statusCode rw >= 400)
           then on_snd (sdk.SetAttributes span [attribute.Bool "error" true])
           else ret tt);;
          on_snd (telemetry.RecordRequest tel ctx (Method r) (URL_Path r)
                    (statusCode rw) duration)))).

End middleware.

(** ** Package [main] *)

Module main.
Import trace http.

(** The JSON bodies of the source are written here with an apostrophe
    where the source has a double quote. *)
Fixpoint json (s : string) : string :=
  match s with
  | EmptyString => EmptyString
  | String.String c rest =>
      String.String (if Ascii.eqb c "'" then "034"%char else c) (json rest)
  end.

(** [strings.Contains]. *)
Fixpoint Contains (s sub : string) : bool :=
  String.prefix sub s ||
  match s with
  | EmptyString => false
  | String.String _ rest => Contains rest sub
  end.

Section Process.
(** The package-level variables [templates] and [tel]. *)
Variable templates : option (list string).
Variable tel : option telemetry.Telemetry.
(** The handlers that render templates are business logic; any handler
    may stand in their place. *)
Variables homeHandler echoHandler : Handler.

Definition healthHandler (r : Request) : Script :=
  SetHeader "Content-Type" "application/json" (
  DoWriteHeader 200 (
  DoWrite (json "{'status':'healthy','service':'sample-web-app'}") (λ _ _,
  Return))).

(** The local variable [checks] of [readinessHandler]. *)
Definition readiness_checks : gmap string string :=
  let checks : gmap string string := {[ "templates" := "ok" ]} in
  let checks := if decide (templates = None)
                then <["templates" := "not loaded"]> checks else checks in
  if decide (tel ≠ None)
  then <["telemetry" := "ok"]> checks
  else <["telemetry" := "disabled"]> checks.

Definition readinessHandler (r : Request) : Script :=
  let ctx := Context r in
  let ready := bool_decide (templates ≠ None) in
  let checks := readiness_checks in
  let respond :=
    SetHeader "Content-Type" "application/json" (
    if ready
    then DoWriteHeader 200 (
         DoWrite (json "{'status':'ready','checks':{'templates':'ok'}}") (λ _ _,
         Return))
    else DoWriteHeader 503 (
         DoWrite (json "{'status':'not ready','checks':{'templates':'failed'}}") (λ _ _,
         Return))) in
  if decide (tel ≠ None)
  then OnSpan (SpanFromContext ctx)
         (SetAttributes [attribute.Bool "readiness.ready" ready]) respond
  else respond.

(** The router built in [main]: the pattern "/" takes every path that no
    other pattern takes. *)
Definition mux : Handler :=
  λ W _ r,
    if decide (URL_Path r = "/echo") then echoHandler W _ r
    else if decide (URL_Path r = "/health") then HandlerFunc healthHandler W _ r
    else if decide (URL_Path r = "/ready") then HandlerFunc readinessHandler W _ r
    else homeHandler W _ r.

(** The handler given to the server. *)
Definition handler : Handler :=
  match tel with
  | Some t => middleware.TracingMiddleware t mux
  | None => mux
  end.

End Process.

Definition port (environ : gmap string string) : string :=
  let port := telemetry.Getenv environ "PORT" in
  if decide (port = "") then "8080" else port.

(** What [main] has done when the server starts to listen: the value of
    the variable [tel], the handler of the server and its address. *)
Record Server : Type := mkServer {
  tel_var : option telemetry.Telemetry;
  Handler_ : Handler;
  Addr : string
}.

Definition start (environ : gmap string string) (templates : option (list string))
    (homeHandler echoHandler : Handler) : M sdk.World Server :=
  let cfg := telemetry.NewConfig environ in
  r ← telemetry.Initialize cfg;
  let tel := r.1 in
  let handler := handler templates tel homeHandler echoHandler in
  ret (mkServer tel handler (":" +:+ port environ)).

(** One request served by the standard server on a new connection: the
    handler runs; when it returns without having written the header, the
    server sends it with status 200; when it panics, the server recovers
    and closes the connection.  The result is how the handler ended and
    the response it has built.  [newConnection] is the response to a
    request that is not a HEAD request, [connection] the response to [r]. *)
Definition newConnection (room : option nat) : response :=
  mkResponse ∅ false 0 ∅ "" room false.

Definition connection (r : Request) (room : option nat) : response :=
  mkResponse ∅ false 0 ∅ "" room (bool_decide (Method r = "HEAD")).

Definition serve_on (w : response) (h : Handler) (r : Request)
  : sdk.World → (Result unit * response) * sdk.World :=
  λ σ,
    match h response _ r (w, σ) with
    | (Ok _, (w', σ')) =>
        match (if wroteHeader w' then ret tt else response_WriteHeader 200) w' with
        | (_, w'') => ((Ok tt, w''), σ')
        end
    | (Panic v, (w', σ')) => ((Panic v, w'), σ')
    end.

Definition serve (h : Handler) (room : option nat) (r : Request)
  : sdk.World → (Result unit * response) * sdk.World :=
  serve_on (connection r room) h r.

End main.

(** ** Vocabulary of the properties *)

Module observed.
Import trace http.

(** The calls made between two states of the world. *)
Definition new_calls (σ σ' : sdk.World) : list sdk.Call :=
  drop (length (sdk.calls σ)) (sdk.calls σ').

Definition is_start (c : sdk.Call) : bool :=
  match c with sdk.Tracer_Start _ _ _ _ _ _ => true | _ => false end.
Definition is_end (c : sdk.Call) : bool :=
  match c with sdk.Span_End _ => true | _ => false end.
Definition is_updown (c : sdk.Call) : bool :=
  match c with sdk.UpDownCounter_Add _ _ _ => true | _ => false end.

(** Number of spans opened and of spans closed in a list of calls. *)
Definition opened (l : list sdk.Call) : nat := length (List.filter is_start l).
Definition closed (l : list sdk.Call) : nat := length (List.filter is_end l).

(** Sum of the deltas given to the up-down counter [inst]. *)
Fixpoint gauge (inst : metric.Instrument) (l : list sdk.Call) : Z :=
  match l with
  | [] => 0
  | sdk.UpDownCounter_Add i incr _ :: rest =>
      (if decide (i = inst) then incr else 0) + gauge inst rest
  | _ :: rest => gauge inst rest
  end.

(** The attributes the middleware gives to the span of a request. *)
Definition request_attributes (r : Request) : list attribute.KeyValue :=
  [ attribute.String "http.method" (Method r);
    attribute.String "http.url" (URL_String r);
    attribute.String "http.host" (Host r);
    attribute.String "http.user_agent" (UserAgent r);
    attribute.String "http.remote_addr" (RemoteAddr r);
    attribute.String "http.scheme" (middleware.getScheme r) ].

(** The span the tracer creates for request [r] in world [σ]. *)
Definition request_span (r : Request) (σ : sdk.World) : Span :=
  let fresh := sdk.idgen (sdk.outside σ) (sdk.next_span σ) in
  recordingSpan (sdk.next_span σ)
    match SpanFromContext (Context r) with
    | noopSpan => fresh
    | recordingSpan _ parent => mkSpanContext (TraceID parent) (SpanID fresh)
    end.

(** The value of the trace header of request [r] in world [σ]. *)
Definition request_trace_id (r : Request) (σ : sdk.World) : string :=
  TraceID_String (TraceID (SpanContext_of (request_span r σ))).

(** The calls with which the middleware opens a request ... *)
Definition opening (active : metric.Instrument) (tracer : sdk.Tracer)
    (r : Request) (σ : sdk.World) : list sdk.Call :=
  [ sdk.UpDownCounter_Add active 1 [];
    sdk.Tracer_Start tracer (Context r) (URL_Path r) SpanKindServer
      (request_attributes r) (request_span r σ) ].

(** ... and those with which it leaves it. *)
Definition closing (active : metric.Instrument) (r : Request) (σ : sdk.World)
  : list sdk.Call :=
  [ sdk.Span_End (request_span r σ); sdk.UpDownCounter_Add active (-1) [] ].

(** What the wrapped handler is given: the request with the context of
    the new span, the wrapper around [w] with the trace header set, and
    the world after the opening calls. *)
Definition handler_request (r : Request) (σ : sdk.World) : Request :=
  WithContext r (ContextWithSpan (request_span r σ)).
Definition handler_writer {W} `{ResponseWriter W} (w : W) (r : Request) (σ : sdk.World)
  : middleware.responseWriter W :=
  middleware.newResponseWriter
    (StoreHeader (Header_Set "X-Trace-ID" (request_trace_id r σ) (Header w)) w).
Definition handler_world (active : metric.Instrument) (tracer : sdk.Tracer)
    (r : Request) (σ : sdk.World) : sdk.World :=
  sdk.with_calls (sdk.calls σ ++ opening active tracer r σ)
    (sdk.with_next_span (S (sdk.next_span σ)) σ).

(** The run of the wrapped handler inside the middleware. *)
Definition handler_run {W} `{ResponseWriter W} (active : metric.Instrument)
    (tracer : sdk.Tracer) (next : Request → Script) (w : W) (r : Request)
    (σ : sdk.World) : Result unit * (middleware.responseWriter W * sdk.World) :=
  exec (next (handler_request r σ))
    (handler_writer w r σ, handler_world active tracer r σ).

(** The calls the wrapped handler makes itself. *)
Definition handler_calls {W} `{ResponseWriter W} (active : metric.Instrument)
    (tracer : sdk.Tracer) (next : Request → Script) (w : W) (r : Request)
    (σ : sdk.World) : list sdk.Call :=
  new_calls (handler_world active tracer r σ)
    (handler_run active tracer next w r σ).2.2.

(** The calls of [RecordRequest]. *)
Definition request_metrics (requests duration errors : metric.Instrument)
    (method path : string) (statusCode : Z) (d : time.Duration) : list sdk.Call :=
  let attrs := [ attribute.String "http.method" method;
                 attribute.String "http.route" path;
                 attribute.Int "http.status_code" statusCode ] in
  [ sdk.Counter_Add requests 1 attrs;
    sdk.Float64Histogram_Record duration (Duration_Seconds d) attrs ]
  ++ (if decide (statusCode >= 400) then [sdk.Counter_Add errors 1 attrs] else []).

(** The calls that finish a request whose captured status is
    [statusCode], whose captured size is [written] and which took [d]. *)
Definition finishing (requests duration errors : metric.Instrument)
    (span : Span) (method path : string) (statusCode written : Z)
    (d : time.Duration) : list sdk.Call :=
  [ sdk.Span_SetAttributes span
      [ attribute.Int "http.status_code" statusCode;
        attribute.Int64 "http.response_size" written;
        attribute.Float64 "http.duration_ms" (float64_of_int64 (time.Milliseconds d)) ] ]
  ++ (if decide (statusCode >= 400)
      then [sdk.Span_SetAttributes span [attribute.Bool "error" true]] else [])
  ++ request_metrics requests duration errors method path statusCode d.

(** The calls a script makes on the writer it is given, in order, with
    what [Write] answered ([None] when the call panicked). *)
Inductive WriterCall : Type :=
| CallWriteHeader (code : Z)
| CallWrite (b : string) (answer : option (Z * error)).

Fixpoint writer_calls {W} `{ResponseWriter W} (h : Script) (w : W) (σ : sdk.World)
  : list WriterCall :=
  match h with
  | Return => []
  | DoPanic _ => []
  | SetHeader key value k =>
      writer_calls k (StoreHeader (Header_Set key value (Header w)) w) σ
  | DelHeader key k =>
      writer_calls k (StoreHeader (Header_Del key (Header w)) w) σ
  | DoWriteHeader code k =>
      CallWriteHeader code ::
      match WriteHeader code w with
      | (Ok _, w') => writer_calls k w' σ
      | (Panic _, _) => []
      end
  | DoWrite b k =>
      match Write b w with
      | (Ok r, w') => CallWrite b (Some r) :: writer_calls (k r.1 r.2) w' σ
      | (Panic _, _) => [CallWrite b None]
      end
  | Work d k =>
      match sdk.elapse d σ with (_, σ') => writer_calls k w σ' end
  | StartSpan t ctx spanName attrs k =>
      match sdk.Start t ctx spanName SpanKindInternal attrs σ with
      | (Ok r, σ') => writer_calls (k r.1 r.2) w σ'
      | (Panic _, _) => []
      end
  | OnSpan s m k =>
      match span_call s m σ with
      | (Ok _, σ') => writer_calls k w σ'
      | (Panic _, _) => []
      end
  | RecordMessageLength t ctx length k =>
      match telemetry.RecordMessageLength t ctx length σ with
      | (Ok _, σ') => writer_calls k w σ'
      | (Panic _, _) => []
      end
  end.

(** The status of the latest [WriteHeader] among the calls, [d] when
    there is none. *)
Fixpoint latest_status (d : Z) (l : list WriterCall) : Z :=
  match l with
  | [] => d
  | CallWriteHeader code :: rest => latest_status code rest
  | CallWrite _ _ :: rest => latest_status d rest
  end.

(** The sum of the byte counts [Write] answered. *)
Fixpoint bytes_written (l : list WriterCall) : Z :=
  match l with
  | [] => 0
  | CallWrite _ (Some r) :: rest => r.1 + bytes_written rest
  | _ :: rest => bytes_written rest
  end.

(** A script that never stores to header [key]. *)
Fixpoint leaves_header (key : string) (h : Script) : Prop :=
  match h with
  | Return | DoPanic _ => True
  | SetHeader k' _ k =>
      CanonicalMIMEHeaderKey k' ≠ CanonicalMIMEHeaderKey key ∧ leaves_header key k
  | DelHeader k' k =>
      CanonicalMIMEHeaderKey k' ≠ CanonicalMIMEHeaderKey key ∧ leaves_header key k
  | DoWriteHeader _ k | Work _ k | OnSpan _ _ k | RecordMessageLength _ _ _ k =>
      leaves_header key k
  | DoWrite _ k => ∀ n err, leaves_header key (k n err)
  | StartSpan _ _ _ _ k => ∀ ctx span, leaves_header key (k ctx span)
  end.

(** What a state of the world keeps of an earlier one: the outside, the
    globals and the calls made so far; the calls added adjust no up-down
    counter. *)
Definition follows (σ σ' : sdk.World) : Prop :=
  sdk.outside σ' = sdk.outside σ ∧
  sdk.globals σ' = sdk.globals σ ∧
  ∃ l, sdk.calls σ' = (sdk.calls σ ++ l)%list ∧ Forall (λ c, is_updown c = false) l.

(** The part of the middleware that follows the call of the wrapped
    handler, for the request [r] that arrived in world [σ]. *)
Definition after_handler {W} (tel : telemetry.Telemetry) (r : Request) (σ : sdk.World)
  : M (middleware.responseWriter W * sdk.World) unit :=
  let span := request_span r σ in
  duration ← on_snd (sdk.Since (sdk.clock σ));
  rw ← gets fst;
  on_snd (sdk.SetAttributes span
            [ attribute.Int "http.status_code" (middleware.statusCode rw);
              attribute.Int64 "http.response_size" (middleware.written rw);
              attribute.Float64 "http.duration_ms"
                (float64_of_int64 (time.Milliseconds duration)) ]);;
  (if decide (middleware.statusCode rw >= 400)
   then on_snd (sdk.SetAttributes span [attribute.Bool "error" true])
   else ret tt);;
  on_snd (telemetry.RecordRequest tel (ContextWithSpan span) (Method r) (URL_Path r)
            (middleware.statusCode rw) duration).

(** The instruments and the tracer of a handle, by name. *)
Record Registered : Type := mkRegistered {
  requests : metric.Instrument;
  durations : metric.Instrument;
  active : metric.Instrument;
  errors : metric.Instrument;
  tracer : sdk.Tracer
}.

(** [registered tel g]: the handle [tel] has the tracer and the four
    request instruments [g], as every handle that [Initialize] returns
    has. *)
Definition registered (tel : telemetry.Telemetry) (g : Registered) : Prop :=
  telemetry.RequestCounter tel = Some (requests g) ∧
  telemetry.RequestDuration tel = Some (durations g) ∧
  telemetry.ActiveRequests tel = Some (active g) ∧
  telemetry.ErrorCounter tel = Some (errors g) ∧
  telemetry.Tracer tel = Some (tracer g).

Definition is_set_attributes (c : sdk.Call) : bool :=
  match c with sdk.Span_SetAttributes _ _ => true | _ => false end.
Definition is_metric (c : sdk.Call) : bool :=
  match c with
  | sdk.Counter_Add _ _ _ | sdk.Float64Histogram_Record _ _ _ => true
  | _ => false
  end.

(** The request is finished: after the calls of the handler come the
    span attributes and the request metrics, with the status and the size
    the wrapper holds when the handler is left and the time taken until
    then. *)
Definition finished {W} `{ResponseWriter W} (tel : telemetry.Telemetry)
    (g : Registered) (next : Request → Script) (w : W) (r : Request)
    (σ : sdk.World) : Prop :=
  let out := middleware.TracingMiddleware tel (HandlerFunc next) W _ r (w, σ) in
  let run := handler_run (active g) (tracer g) next w r σ in
  new_calls σ out.2.2 =
  (opening (active g) (tracer g) r σ
   ++ handler_calls (active g) (tracer g) next w r σ
   ++ finishing (requests g) (durations g) (errors g) (request_span r σ)
        (Method r) (URL_Path r) (middleware.statusCode run.2.1)
        (middleware.written run.2.1) (sdk.clock run.2.2 - sdk.clock σ)
   ++ closing (active g) r σ)%list.

(** An outside in which nothing fails; the n-th span gets the
    identifiers [1000 + n] and [n]. *)
Definition calm : sdk.Outside :=
  sdk.mkOutside (λ n, mkSpanContext (1000 + N.of_nat n) (N.of_nat n))
    None (λ _, None) (λ _, None) (λ _, None) (λ _, None) (λ _, None).

(** The world of a process that has just started. *)
Definition fresh (o : sdk.Outside) : sdk.World :=
  sdk.mkWorld 0 [] 0 (sdk.mkGlobals None None []) o.

(** The handle [Initialize] returns for [cfg] when nothing fails, and the
    globals it then leaves. *)
Definition handle (cfg : telemetry.Config) : telemetry.Telemetry :=
  match telemetry.Initialize cfg (fresh calm) with
  | (Ok (Some t, _), _) => t
  | _ => telemetry.mkTelemetry None None None None None None None None None
  end.
Definition installed (cfg : telemetry.Config) : sdk.Globals :=
  sdk.globals (telemetry.Initialize cfg (fresh calm)).2.

(** The exporter both providers are given. *)
Definition exporter (cfg : telemetry.Config) : sdk.Exporter :=
  sdk.mkExporter (telemetry.OTLPEndpoint cfg) (telemetry.Insecure cfg).

(** The error of the first instrument that cannot be registered. *)
Definition registration_error (o : sdk.Outside) : error :=
  head (omap (sdk.instrument_err o)
          [ "http_requests_total"; "http_request_duration_seconds";
            "http_requests_active"; "http_errors_total"; "echo_message_length" ]).

(** [keeps k w w']: from [w] to [w'] nothing was stored under key [k] of
    the header map, and the header that was sent, or is sent in between,
    has under [k] what the map had. *)
Definition keeps (k : string) (w w' : response) : Prop :=
  handlerHeader w' !! k = handlerHeader w !! k
  ∧ (wroteHeader w = true →
     wroteHeader w' = true ∧ sentHeader w' !! k = sentHeader w !! k)
  ∧ (wroteHeader w = false → wroteHeader w' = true →
     sentHeader w' !! k = handlerHeader w !! k).

(** A call that opens no span, closes none and adjusts no up-down
    counter. *)
Definition plain (c : sdk.Call) : Prop :=
  is_start c = false ∧ is_end c = false ∧ is_updown c = false.

End observed.

(** ** Sample data *)

Module sample.
Import trace http observed.

Definition calm : sdk.Outside := observed.calm.
Definition world (o : sdk.Outside) : sdk.World := observed.fresh o.

(** An outside in which the trace exporter cannot be built. *)
Definition stormy : sdk.Outside :=
  sdk.mkOutside (sdk.idgen observed.calm)
    None (λ _, Some "invalid URL") (λ _, None) (λ _, None) (λ _, None) (λ _, None).

(** An outside in which the error counter cannot be registered. *)
Definition picky : sdk.Outside :=
  sdk.mkOutside (sdk.idgen observed.calm)
    None (λ _, None) (λ _, None)
    (λ name, if decide (name = "http_errors_total") then Some "invalid instrument name"
             else None)
    (λ _, None) (λ _, None).

(** An outside in which no provider shuts down in time. *)
Definition stuck : sdk.Outside :=
  sdk.mkOutside (sdk.idgen observed.calm)
    None (λ _, None) (λ _, None) (λ _, None)
    (λ _, Some "context deadline exceeded") (λ _, Some "context deadline exceeded").

(** The handle [Initialize] builds from an empty environment. *)
Definition tel : telemetry.Telemetry := handle (telemetry.NewConfig ∅).

Definition reg : Registered :=
  let none := metric.mkInstrument metric.Int64Counter "" "" "" [] in
  mkRegistered
    (default none (telemetry.RequestCounter tel))
    (default none (telemetry.RequestDuration tel))
    (default none (telemetry.ActiveRequests tel))
    (default none (telemetry.ErrorCounter tel))
    (default (sdk.mkTracer "") (telemetry.Tracer tel)).

Definition get (path : string) : Request :=
  mkRequest "GET" path path "localhost:8080" "127.0.0.1:50000" false
    {[ "User-Agent" := ["curl/8.0"] ]} None.

(** A handler that answers 404 without a body, as [http.NotFound] would
    before it writes its text. *)
Definition notFound (r : Request) : Script :=
  DoWriteHeader 404 Return.

(** A handler that sets a failure status, works for 3 ms and panics. *)
Definition crash (r : Request) : Script :=
  DoWriteHeader 500 (Work 3000000 (DoPanic "boom")).

(** A handler that writes its body in two pieces and stops at the first
    error. *)
Definition twice (r : Request) : Script :=
  DoWrite "hello, " (λ _ err,
    match err with
    | Some _ => Return
    | None => DoWrite "world" (λ _ _, Return)
    end).

(** A handler that removes the trace header before it answers, and one
    that puts a value of its own there. *)
Definition strip (r : Request) : Script :=
  DelHeader "X-Trace-ID" (DoWriteHeader 200 Return).
Definition forge (r : Request) : Script :=
  SetHeader "X-Trace-ID" "deadbeef" (DoWriteHeader 200 Return).

(** A handler with a child span, as the rendering handlers have. *)
Definition render (r : Request) : Script :=
  StartSpan (telemetry.Tracer tel) (Context r) "render-home-template"
    [attribute.String "template.name" "index.html"] (λ ctx span,
  Work 1500000 (
  DoWrite "<html></html>" (λ _ _,
  OnSpan span End Return))).

End sample.

(** ** The rendering handlers of [main] *)

Module pages.
Import trace http.

(** The functions of the standard library the rendering handlers call.
    They are not part of the repository and are taken as they come: each
    may write to the response and may panic; none can reach the SDK.
    [ParseForm] yields its error and the form it leaves in the request;
    [ParseMultipartForm] yields the form [FormValue] builds when the
    request has not been parsed yet. *)
Record Library : Type := mkLibrary {
  http_NotFound : ∀ W : Type, ResponseWriter W → Request → M W unit;
  http_Error : ∀ W : Type, ResponseWriter W → string → Z → M W unit;
  http_Redirect : ∀ W : Type, ResponseWriter W → Request → string → Z → M W unit;
  ExecuteTemplate : ∀ W : Type, ResponseWriter W → string → option string → M W error;
  ParseForm : Request → error * gmap string (list string);
  ParseMultipartForm : Request → gmap string (list string)
}.

(** [url.Values.Get]: the first value of the key, or the empty string. *)
Definition Values_Get (form : gmap string (list string)) (key : string) : string :=
  match form !! key with
  | Some (v :: _) => v
  | _ => ""
  end.

Definition StatusSeeOther : Z := 303.
Definition StatusBadRequest : Z := 400.
Definition StatusInternalServerError : Z := 500.
Definition MethodPost : string := "POST".

Section Handlers.
Variable lib : Library.
(** The package-level variables [templates] and [tel]. *)
Variable templates : option (list string).
Variable tel : option telemetry.Telemetry.

(** [templates.ExecuteTemplate(w, name, data)]; a nil [templates] panics. *)
Definition execute {W : Type} `{ResponseWriter W} (name : string) (data : option string)
  : M (W * sdk.World) error :=
  match templates with
  | None => panic sdk.nil_dereference
  | Some _ => on_fst (ExecuteTemplate lib W _ name data)
  end.

(** [r.FormValue(key)], for a request whose form is [form] ([None]: not
    parsed yet). *)
Definition FormValue (r : Request) (form : option (gmap string (list string)))
    (key : string) : string :=
  Values_Get (match form with
              | Some values => values
              | None => ParseMultipartForm lib r
              end) key.

Definition homeHandler : Handler :=
  λ W _ r,
    let ctx := Context r in
    let rest (ctx : trace.Context) : M (W * sdk.World) unit :=
      if decide (URL_Path r ≠ "/")
      then
        (match tel with
         | Some _ =>
             let span := SpanFromContext ctx in
             on_snd (sdk.SetStatus span Error "not found");;
             on_snd (sdk.SetAttributes span [attribute.String "error.type" "not_found"])
         | None => ret tt
         end);;
        on_fst (http_NotFound lib W _ r)
      else
        err ← execute "index.html" None;
        match err with
        | Some e =>
            (match tel with
             | Some _ =>
                 let span := SpanFromContext ctx in
                 on_snd (sdk.RecordError span e);;
                 on_snd (sdk.SetStatus span Error "template execution failed")
             | None => ret tt
             end);;
            on_fst (http_Error lib W _ "Internal Server Error" StatusInternalServerError)
        | None => ret tt
        end in
    (* Create child span for template rendering *)
    match tel with
    | Some t =>
        cs ← on_snd (sdk.Start (telemetry.Tracer t) ctx "render-home-template"
                       SpanKindInternal
                       [attribute.String "template.name" "index.html"]);
        defer (on_snd (sdk.End cs.2)) (rest cs.1)
    | None => rest ctx
    end.

Definition echoHandler : Handler :=
  λ W _ r,
    let ctx := Context r in
    if decide (Method r ≠ MethodPost)
    then
      (match tel with
       | Some _ =>
           let span := SpanFromContext ctx in
           on_snd (sdk.SetAttributes span
                     [ attribute.String "redirect.reason" "method_not_allowed";
                       attribute.String "http.method" (Method r) ])
       | None => ret tt
       end);;
      on_fst (http_Redirect lib W _ r "/" StatusSeeOther)
    else
      (* Parse form with tracing; [None] when the handler has returned,
         otherwise the form of the request *)
      parsed ← match tel with
               | Some t =>
                   cs ← on_snd (sdk.Start (telemetry.Tracer t) ctx "parse-form"
                                  SpanKindInternal []);
                   let parseSpan := cs.2 in
                   let pf := ParseForm lib r in
                   match pf.1 with
                   | Some err =>
                       on_snd (sdk.RecordError parseSpan err);;
                       on_snd (sdk.SetStatus parseSpan Error "form parse failed");;
                       on_snd (sdk.End parseSpan);;
                       on_fst (http_Error lib W _ "Bad Request" StatusBadRequest);;
                       ret None
                   | None =>
                       on_snd (sdk.End parseSpan);;
                       ret (Some (Some pf.2))
                   end
               | None => ret (Some None)
               end;
      match parsed with
      | None => ret tt
      | Some form =>
          let message := FormValue r form "message" in
          let messageLen := Z.of_nat (String.length message) in
          (* Record span attributes and the message length metric *)
          (match tel with
           | Some t =>
               let span := SpanFromContext ctx in
               on_snd (sdk.SetAttributes span
                         [ attribute.Int "echo.message_length" messageLen;
                           attribute.Bool "echo.message_empty" (messageLen =? 0)%Z ]);;
               on_snd (telemetry.RecordMessageLength t ctx messageLen)
           | None => ret tt
           end);;
          let rest (ctx : trace.Context) : M (W * sdk.World) unit :=
            err ← execute "echo.html" (Some message);
            match err with
            | Some e =>
                (match tel with
                 | Some _ =>
                     let span := SpanFromContext ctx in
                     on_snd (sdk.RecordError span e);;
                     on_snd (sdk.SetStatus span Error "template execution failed")
                 | None => ret tt
                 end);;
                on_fst (http_Error lib W _ "Internal Server Error" StatusInternalServerError)
            | None => ret tt
            end in
          (* Create child span for template rendering *)
          match tel with
          | Some t =>
              cs ← on_snd (sdk.Start (telemetry.Tracer t) ctx "render-echo-template"
                             SpanKindInternal
                             [ attribute.String "template.name" "echo.html";
                               attribute.Int "data.message_length" messageLen ]);
              defer (on_snd (sdk.End cs.2)) (rest cs.1)
          | None => rest ctx
          end
      end.

(** The handler [main] gives to the server, with the rendering handlers of
    the package. *)
Definition handler : Handler :=
  main.handler templates tel homeHandler echoHandler.

End Handlers.

End pages.

(** ** The program without telemetry ([package main] of the second file) *)

Module plain.
Import trace http.

Section Plain.
Variable lib : pages.Library.
Variable templates : option (list string).

Definition homeHandler : Handler :=
  λ W _ r,
    if decide (URL_Path r ≠ "/")
    then on_fst (pages.http_NotFound lib W _ r)
    else pages.execute lib templates "index.html" None;; ret tt.

Definition echoHandler : Handler :=
  λ W _ r,
    if decide (Method r ≠ pages.MethodPost)
    then on_fst (pages.http_Redirect lib W _ r "/" pages.StatusSeeOther)
    else
      let message := pages.FormValue lib r None "message" in
      pages.execute lib templates "echo.html" (Some message);; ret tt.

Definition healthHandler (r : Request) : Script :=
  SetHeader "Content-Type" "application/json" (
  DoWriteHeader 200 (
  DoWrite (main.json "{'status':'healthy'}") (λ _ _,
  Return))).

(** The default router with its three patterns. *)
Definition mux : Handler :=
  λ W _ r,
    if decide (URL_Path r = "/echo") then echoHandler W _ r
    else if decide (URL_Path r = "/health") then HandlerFunc healthHandler W _ r
    else homeHandler W _ r.

End Plain.

End plain.

(** ** Vocabulary of the further properties *)

Module further.
Import trace http observed.

(** Calls to [StartRequest] and [EndRequest], in some order. *)
Inductive Mark : Type := Started | Ended.

Fixpoint marks (t : telemetry.Telemetry) (l : list Mark) : M sdk.World unit :=
  match l with
  | [] => ret tt
  | Started :: rest => telemetry.StartRequest t None;; marks t rest
  | Ended :: rest => telemetry.EndRequest t None;; marks t rest
  end.

Fixpoint in_flight (l : list Mark) : Z :=
  match l with
  | [] => 0
  | Started :: rest => 1 + in_flight rest
  | Ended :: rest => in_flight rest - 1
  end.

(** The instruments of a handle, in the order [initMetrics] registers them,
    and their names. *)
Definition instruments (t : telemetry.Telemetry) : list (option metric.Instrument) :=
  [ telemetry.RequestCounter t; telemetry.RequestDuration t; telemetry.ActiveRequests t;
    telemetry.ErrorCounter t; telemetry.MessageLength t ].
Definition instrument_names : list string :=
  [ "http_requests_total"; "http_request_duration_seconds"; "http_requests_active";
    "http_errors_total"; "echo_message_length" ].

(** How many of the names can be registered before the first one fails. *)
Fixpoint leading (o : sdk.Outside) (l : list string) : nat :=
  match l with
  | [] => 0
  | n :: rest =>
      match sdk.instrument_err o n with
      | None => S (leading o rest)
      | Some _ => 0
      end
  end.

(** The span that the [k]-th next call of [Tracer.Start] creates from the
    context [ctx], counting from 0 in world [σ]. *)
Definition child (ctx : trace.Context) (σ : sdk.World) (k : nat) : Span :=
  let fresh := sdk.idgen (sdk.outside σ) (k + sdk.next_span σ) in
  recordingSpan (k + sdk.next_span σ)
    match SpanFromContext ctx with
    | noopSpan => fresh
    | recordingSpan _ parent => mkSpanContext (TraceID parent) (SpanID fresh)
    end.

(** The world [σ] after [k] more spans were started and the calls [l]
    were made. *)
Definition after (k : nat) (l : list sdk.Call) (σ : sdk.World) : sdk.World :=
  sdk.with_calls (sdk.calls σ ++ l) (sdk.with_next_span (k + sdk.next_span σ) σ).

(** The call a method makes on a span; the no-op span makes none. *)
Definition on_span (s : Span) (c : sdk.Call) : list sdk.Call :=
  match s with
  | noopSpan => []
  | recordingSpan _ _ => [c]
  end.

(** A script that only works on the response. *)
Fixpoint quiet (h : Script) : Prop :=
  match h with
  | Return | DoPanic _ => True
  | SetHeader _ _ k | DelHeader _ k | DoWriteHeader _ k => quiet k
  | DoWrite _ k => ∀ n err, quiet (k n err)
  | Work _ _ | StartSpan _ _ _ _ _ | OnSpan _ _ _ | RecordMessageLength _ _ _ _ => False
  end.

Definition is_WriteHeader (c : WriterCall) : bool :=
  match c with CallWriteHeader _ => true | CallWrite _ _ => false end.

(** A handler sets the status the usual way: [WriteHeader] at most once,
    before any [Write], with a final status (200 to 999). *)
Definition orderly (l : list WriterCall) : Prop :=
  match l with
  | [] => True
  | CallWriteHeader code :: rest =>
      200 <= code <= 999 ∧ forallb (λ c, negb (is_WriteHeader c)) rest = true
  | CallWrite _ _ :: rest => forallb (λ c, negb (is_WriteHeader c)) rest = true
  end.

(** Calls that neither adjust an up-down counter nor leave a span open:
    what they open they close. *)
Definition tidy (l : list sdk.Call) : Prop :=
  Forall (λ c, is_updown c = false) l ∧ opened l = closed l.

(** [h] only adds tidy calls, on every writer and however it ends. *)
Definition well_kept (h : Handler) : Prop :=
  ∀ (W : Type) (RW : ResponseWriter W) (r : Request) (w : W) (σ : sdk.World),
    ∃ l, sdk.calls (h W RW r (w, σ)).2.2 = (sdk.calls σ ++ l)%list ∧ tidy l.

End further.

(** ** Sample library *)

Module demo.
Import trace http.

(** [http.Error], by its documentation. *)
Definition Error (W : Type) (RW : ResponseWriter W) (msg : string) (code : Z) : M W unit :=
  modify (λ w, StoreHeader (Header_Del "Content-Length" (Header w)) w);;
  modify (λ w, StoreHeader (Header_Set "Content-Type" "text/plain; charset=utf-8" (Header w)) w);;
  modify (λ w, StoreHeader (Header_Set "X-Content-Type-Options" "nosniff" (Header w)) w);;
  WriteHeader code;;
  Write (msg +:+ String "010"%char "");;
  ret tt.

Definition NotFound (W : Type) (RW : ResponseWriter W) (r : Request) : M W unit :=
  Error W RW "404 page not found" 404.

(** [http.Redirect] without its body text. *)
Definition Redirect (W : Type) (RW : ResponseWriter W) (r : Request) (url : string)
    (code : Z) : M W unit :=
  modify (λ w, StoreHeader (Header_Set "Location" url (Header w)) w);;
  WriteHeader code.

(** Templates that render the message between tags; any other name is an
    error. *)
Definition Execute (W : Type) (RW : ResponseWriter W) (name : string)
    (data : option string) : M W error :=
  if decide (name = "index.html") then Write "<h1>home</h1>";; ret None
  else if decide (name = "echo.html")
       then Write ("<p>" +:+ default "" data +:+ "</p>");; ret None
       else ret (Some ("html/template: " +:+ name +:+ " is undefined")).

(** The form is read from the header [Form-Message]; a request with the
    header [Form-Broken] does not parse. *)
Definition form (r : Request) : gmap string (list string) :=
  {[ "message" := [Header_Get "Form-Message" (ReqHeader r)] ]}.
Definition Parse (r : Request) : error * gmap string (list string) :=
  if decide (Header_Get "Form-Broken" (ReqHeader r) = "") then (None, form r)
  else (Some "invalid URL escape", form r).

Definition lib : pages.Library :=
  pages.mkLibrary NotFound Error Redirect Execute Parse form.

Definition post (message : string) (broken : bool) : Request :=
  mkRequest "POST" "/echo" "/echo" "localhost:8080" "127.0.0.1:50000" false
    (if broken
     then {[ "Form-Message" := [message]; "Form-Broken" := ["1"] ]}
     else {[ "Form-Message" := [message] ]}) None.

End demo.

(** * Properties *)

Import Go trace http observed.

#[global] Arguments trace.TraceID_String : simpl never.
#[global] Arguments http.Header_Set : simpl never.
#[global] Arguments http.Header_Del : simpl never.
#[global] Arguments http.Header_Get : simpl never.
#[global] Arguments http.UserAgent : simpl never.
#[global] Arguments middleware.getScheme : simpl never.
#[global] Arguments time.Milliseconds : simpl never.
#[global] Arguments middleware.int64_wrap : simpl never.

Ltac go_unfold :=
  unfold Go.bind, Go.ret, Go.on_fst, Go.on_snd, Go.modify, Go.get, Go.gets,
    Go.panic, Go.defer, Go.via in *.

(** Unfold the calls on the SDK and the control flow, and put the resulting
    lists of calls in one shape. *)
Ltac run_sdk :=
  cbv beta iota zeta delta
    [ sdk.with_calls sdk.with_next_span sdk.with_clock sdk.with_globals
      sdk.UpDownCounterAdd sdk.CounterAdd sdk.RecordFloat64 sdk.RecordInt64
      sdk.on_instrument sdk.log sdk.Start sdk.End sdk.on_span sdk.SetAttributes
      sdk.SetStatus sdk.RecordError sdk.Now sdk.Since sdk.elapse
      sdk.ShutdownTracerProvider sdk.ShutdownMeterProvider
      time.Seconds ContextWithSpan
      Go.bind Go.ret Go.on_fst Go.on_snd Go.modify Go.get Go.gets Go.panic
      Go.defer Go.via ];
  cbn [sdk.calls sdk.clock sdk.next_span sdk.globals sdk.outside fst snd];
  rewrite <- ?app_assoc; cbn [app].

(** ** Calls only accumulate *)

Section Scripts.
Context {W : Type} `{ResponseWriter W}.

Lemma follows_refl σ : follows σ σ.
Proof.
  repeat split. exists []. split; [by rewrite app_nil_r | constructor].
Qed.

Lemma follows_trans σ1 σ2 σ3 : follows σ1 σ2 → follows σ2 σ3 → follows σ1 σ3.
Proof.
  intros (Ho & Hg & l & Hl & Hf) (Ho' & Hg' & l' & Hl' & Hf').
  repeat split; [congruence | congruence |].
  exists (l ++ l')%list. split.
  - rewrite Hl', Hl. by rewrite app_assoc.
  - by apply Forall_app.
Qed.

Lemma follows_log c σ : is_updown c = false → follows σ (sdk.log c σ).2.
Proof.
  intros Hc. repeat split. exists [c]. split; [done | by constructor].
Qed.

Lemma follows_span_call s m σ : follows σ (span_call s m σ).2.
Proof.
  destruct m, s; simpl; try apply follows_refl; by apply follows_log.
Qed.

Lemma follows_Start t ctx spanName kind attrs σ :
  follows σ (sdk.Start t ctx spanName kind attrs σ).2.
Proof.
  destruct t; simpl; [| apply follows_refl].
  repeat split. eexists. split; [reflexivity | by constructor].
Qed.

Lemma follows_exec (h : Script) (w : W) σ : follows σ (exec h (w, σ)).2.2.
Proof.
  revert w σ. induction h as [| v | key value k IH | key k IH | code k IH
    | b k IH | d k IH | t ctx spanName attrs k IH | s m k IH | t ctx len k IH];
    intros w σ; simpl.
  - apply follows_refl.
  - apply follows_refl.
  - apply IH.
  - apply IH.
  - go_unfold; simpl. destruct (WriteHeader code w) as [[[]|v] w']; simpl.
    + apply IH.
    + apply follows_refl.
  - go_unfold; simpl. destruct (Write b w) as [[[n err]|v] w']; simpl.
    + apply IH.
    + apply follows_refl.
  - eapply follows_trans; [| apply IH]. repeat split.
    exists []. split; [by rewrite app_nil_r | constructor].
  - pose proof (follows_Start t ctx spanName SpanKindInternal attrs σ) as HS.
    go_unfold; simpl.
    destruct (sdk.Start t ctx spanName SpanKindInternal attrs σ) as [[[c s]|v] σ'];
      simpl in *; [| done].
    eapply follows_trans; [exact HS | apply IH].
  - pose proof (follows_span_call s m σ) as HS.
    go_unfold; simpl. destruct (span_call s m σ) as [[[]|v] σ']; simpl in *; [| done].
    eapply follows_trans; [exact HS | apply IH].
  - go_unfold; simpl. unfold telemetry.RecordMessageLength, sdk.RecordInt64, sdk.on_instrument.
    destruct (telemetry.MessageLength t); simpl.
    + eapply follows_trans; [| apply IH]. by apply follows_log.
    + apply follows_refl.
Qed.

End Scripts.

(** ** The shape of a run of the middleware *)

Section Middleware.
Context {W : Type} `{ResponseWriter W}.
Variables (tel : telemetry.Telemetry) (active : metric.Instrument) (tracer : sdk.Tracer).
Hypothesis Hactive : telemetry.ActiveRequests tel = Some active.
Hypothesis Htracer : telemetry.Tracer tel = Some tracer.

(** The middleware opens the request, runs the handler and what follows
    it, and closes the request whatever the outcome. *)
Lemma TracingMiddleware_run (next : Request → Script) (w : W) (r : Request) σ :
  middleware.TracingMiddleware tel (HandlerFunc next) W _ r (w, σ) =
  match (exec (next (handler_request r σ));; after_handler tel r σ)
          (handler_writer w r σ, handler_world active tracer r σ) with
  | (res, (rw, σ2)) =>
      (res, (middleware.inner rw,
             sdk.with_calls (sdk.calls σ2 ++ closing active r σ) σ2))
  end.
Proof.
  unfold middleware.TracingMiddleware, telemetry.StartRequest, telemetry.EndRequest.
  rewrite Hactive, Htracer.
  cbv beta iota zeta delta
    [ after_handler HandlerFunc handler_writer handler_world handler_request
      opening closing request_trace_id request_span request_attributes
      sdk.with_calls sdk.with_next_span sdk.UpDownCounterAdd sdk.on_instrument
      sdk.log sdk.Start sdk.End sdk.on_span sdk.SetAttributes sdk.Now sdk.Since
      sdk.calls sdk.clock sdk.next_span sdk.globals sdk.outside
      middleware.newResponseWriter middleware.inner middleware.statusCode
      middleware.written middleware.responseWriter_ResponseWriter
      StoreHeader Header ContextWithSpan fst snd
      Go.bind Go.ret Go.on_fst Go.on_snd Go.modify Go.get Go.gets Go.panic
      Go.defer Go.via ].
  rewrite <- !app_assoc. cbn [app].
  match goal with
  | |- context [exec ?h ?s] => destruct (exec h s) as [[[]|v] [[w' st wr] [c l n g o]]]
  end.
  - destruct (decide (st >= 400));
    match goal with
    | |- context [telemetry.RecordRequest ?a ?b ?c ?d ?e ?f ?g] =>
        destruct (telemetry.RecordRequest a b c d e f g) as [[[]|v] [c' l' n' g' o']]
    end; by rewrite <- !app_assoc.
  - by rewrite <- !app_assoc.
Qed.

End Middleware.

(** ** Recording and finishing *)

Lemma new_calls_app σ σ' l :
  sdk.calls σ' = (sdk.calls σ ++ l)%list → new_calls σ σ' = l.
Proof. intros E. unfold new_calls. rewrite E. apply drop_app_length. Qed.

Lemma follows_calls σ σ' :
  follows σ σ' → sdk.calls σ' = (sdk.calls σ ++ new_calls σ σ')%list.
Proof.
  intros (_ & _ & l & E & _). by rewrite (new_calls_app _ _ _ E).
Qed.

Lemma follows_new_calls σ σ' :
  follows σ σ' → Forall (λ c, is_updown c = false) (new_calls σ σ').
Proof.
  intros (_ & _ & l & E & F). by rewrite (new_calls_app _ _ _ E).
Qed.

Lemma RecordRequest_run t rc rd ec ctx method path statusCode d σ :
  telemetry.RequestCounter t = Some rc →
  telemetry.RequestDuration t = Some rd →
  telemetry.ErrorCounter t = Some ec →
  telemetry.RecordRequest t ctx method path statusCode d σ =
  (Ok tt, sdk.with_calls
            (sdk.calls σ ++ request_metrics rc rd ec method path statusCode d) σ).
Proof.
  intros Hrc Hrd Hec.
  unfold telemetry.RecordRequest, request_metrics. rewrite Hrc, Hrd, Hec.
  destruct σ as [c l n g o].
  destruct (decide (statusCode >= 400)); run_sdk; reflexivity.
Qed.

(** Whatever is registered, [RecordRequest] only adds plain calls. *)
Lemma RecordRequest_plain t ctx method path statusCode d σ :
  ∃ l, sdk.calls (telemetry.RecordRequest t ctx method path statusCode d σ).2
       = (sdk.calls σ ++ l)%list ∧ Forall plain l.
Proof.
  unfold telemetry.RecordRequest. destruct σ as [c l n g o].
  destruct (telemetry.RequestCounter t) as [rc|],
    (telemetry.RequestDuration t) as [rd|],
    (telemetry.ErrorCounter t) as [ec|],
    (decide (statusCode >= 400)); run_sdk; cbn;
    first [ eexists; split; [reflexivity | by repeat constructor]
          | exists []; split; [by rewrite app_nil_r | constructor] ].
Qed.

Section Finishing.
Context {W : Type}.

Lemma after_handler_plain tel r σ (rw : middleware.responseWriter W) σ2 :
  (after_handler tel r σ (rw, σ2)).2.1 = rw ∧
  ∃ l, sdk.calls (after_handler tel r σ (rw, σ2)).2.2 = (sdk.calls σ2 ++ l)%list
       ∧ Forall plain l.
Proof.
  unfold after_handler, request_span. destruct σ2 as [c l n g o]. run_sdk.
  destruct (decide (middleware.statusCode rw >= 400)); run_sdk;
    match goal with
    | |- context [telemetry.RecordRequest ?a ?b ?c ?d ?e ?f ?g] =>
        destruct (RecordRequest_plain a b c d e f g) as (l' & E & F);
        destruct (telemetry.RecordRequest a b c d e f g) as [[[]|v] σ3]
    end; cbn [fst snd sdk.calls] in *; (split; [done |]); rewrite E;
    rewrite <- ?app_assoc; eexists; (split; [reflexivity |]); cbn [app];
    by repeat constructor.
Qed.

Lemma after_handler_run tel g r σ (rw : middleware.responseWriter W) σ2 :
  registered tel g →
  after_handler tel r σ (rw, σ2) =
  (Ok tt, (rw, sdk.with_calls
                 (sdk.calls σ2 ++
                  finishing (requests g) (durations g) (errors g) (request_span r σ)
                    (Method r) (URL_Path r) (middleware.statusCode rw)
                    (middleware.written rw) (sdk.clock σ2 - sdk.clock σ)) σ2)).
Proof.
  intros (Hrc & Hrd & _ & Hec & _).
  unfold after_handler, finishing, request_span. destruct σ2 as [c l n g' o]. run_sdk.
  destruct (decide (middleware.statusCode rw >= 400)); run_sdk;
    rewrite (RecordRequest_run _ _ _ _ _ _ _ _ _ _ Hrc Hrd Hec); run_sdk;
    reflexivity.
Qed.

End Finishing.

(** ** The calls of a run of the middleware *)

Section MiddlewareCalls.
Context {W : Type} `{ResponseWriter W}.
Variables (tel : telemetry.Telemetry) (act : metric.Instrument) (tr : sdk.Tracer).
Hypothesis Hactive : telemetry.ActiveRequests tel = Some act.
Hypothesis Htracer : telemetry.Tracer tel = Some tr.

Lemma handler_run_calls (next : Request → Script) (w : W) r σ :
  sdk.calls (handler_run act tr next w r σ).2.2 =
  (sdk.calls σ ++ opening act tr r σ ++ handler_calls act tr next w r σ)%list
  ∧ Forall (λ c, is_updown c = false) (handler_calls act tr next w r σ).
Proof.
  unfold handler_calls, handler_run.
  pose proof (follows_exec (next (handler_request r σ)) (handler_writer w r σ)
                (handler_world act tr r σ)) as F.
  split; [| by apply follows_new_calls].
  rewrite (follows_calls _ _ F). cbn. by rewrite <- app_assoc.
Qed.

(** Between the opening and the closing calls come the calls of the
    handler and then plain calls only; the outcome is a panic whenever the
    handler panicked. *)
Lemma TracingMiddleware_calls (next : Request → Script) (w : W) r σ :
  let out := middleware.TracingMiddleware tel (HandlerFunc next) W _ r (w, σ) in
  (∃ rest,
     sdk.calls out.2.2 =
     (sdk.calls σ ++ opening act tr r σ ++ handler_calls act tr next w r σ ++ rest
        ++ closing act r σ)%list
     ∧ Forall plain rest)
  ∧ (∀ v, (handler_run act tr next w r σ).1 = Panic v → out.1 = Panic v).
Proof.
  intros out. subst out.
  rewrite (TracingMiddleware_run tel act tr Hactive Htracer).
  destruct (handler_run_calls next w r σ) as [E _].
  unfold Go.bind. fold (handler_run act tr next w r σ).
  destruct (handler_run act tr next w r σ) as [[[]|v] [rw σ2]] eqn:Hrun;
    cbn [fst snd] in *.
  - destruct (after_handler_plain tel r σ rw σ2) as (_ & rest & E' & F').
    destruct (after_handler tel r σ (rw, σ2)) as [res [rw' σ3]].
    cbn [fst snd] in *. split; [| intros v' Hv; discriminate].
    exists rest. split; [| done].
    cbn. rewrite E', E. by rewrite <- !app_assoc.
  - split; [| intros v' Hv; by inversion Hv].
    exists []. split; [| constructor].
    cbn. rewrite E. by rewrite <- !app_assoc.
Qed.

End MiddlewareCalls.

Lemma opened_app l1 l2 : opened (l1 ++ l2) = (opened l1 + opened l2)%nat.
Proof. unfold opened. by rewrite List.filter_app, length_app. Qed.

Lemma closed_app l1 l2 : closed (l1 ++ l2) = (closed l1 + closed l2)%nat.
Proof. unfold closed. by rewrite List.filter_app, length_app. Qed.

Lemma plain_opened l : Forall plain l → opened l = 0%nat.
Proof.
  induction 1 as [| c l (Hs & _ & _) _ IH]; [done |].
  unfold opened in *. cbn. by rewrite Hs.
Qed.

Lemma plain_closed l : Forall plain l → closed l = 0%nat.
Proof.
  induction 1 as [| c l (_ & He & _) _ IH]; [done |].
  unfold closed in *. cbn. by rewrite He.
Qed.

Lemma gauge_app inst l1 l2 : gauge inst (l1 ++ l2) = gauge inst l1 + gauge inst l2.
Proof.
  induction l1 as [| c l1 IH]; [done |].
  destruct c; cbn; rewrite IH; lia.
Qed.

Lemma gauge_quiet inst l : Forall (λ c, is_updown c = false) l → gauge inst l = 0.
Proof.
  induction 1 as [| c l Hc _ IH]; [done |].
  destruct c; cbn in *; try done.
Qed.

(** ** The wrapper is transparent *)

Lemma int64_wrap_small z : - 2 ^ 63 <= z < 2 ^ 63 → middleware.int64_wrap z = z.
Proof.
  intros Hz. unfold middleware.int64_wrap. rewrite Z.mod_small; lia.
Qed.

Lemma int64_wrap_range z : - 2 ^ 63 <= middleware.int64_wrap z < 2 ^ 63.
Proof.
  unfold middleware.int64_wrap.
  pose proof (Z.mod_pos_bound (z + 2 ^ 63) (2 ^ 64) ltac:(lia)). lia.
Qed.

Lemma int64_wrap_add a b :
  middleware.int64_wrap (middleware.int64_wrap a + b) = middleware.int64_wrap (a + b).
Proof.
  unfold middleware.int64_wrap. f_equal.
  replace ((a + 2 ^ 63) `mod` 2 ^ 64 - 2 ^ 63 + b + 2 ^ 63)
    with ((a + 2 ^ 63) `mod` 2 ^ 64 + b) by lia.
  rewrite Z.add_mod_idemp_l by lia. f_equal. lia.
Qed.

Section Wrapper.
Context {W : Type} `{ResponseWriter W}.

(** Running a script on the wrapper is running it on the wrapped writer,
    with the status of the latest [WriteHeader] and the sum of the byte
    counts kept aside. *)
Lemma exec_through_wrapper (h : Script) (rw : middleware.responseWriter W) σ :
  middleware.int64_wrap (middleware.written rw) = middleware.written rw →
  exec h (rw, σ) =
  (let out := exec h (middleware.inner rw, σ) in
   let l := writer_calls h (middleware.inner rw) σ in
   (out.1,
    (middleware.mkResponseWriter out.2.1
       (latest_status (middleware.statusCode rw) l)
       (middleware.int64_wrap (middleware.written rw + bytes_written l)),
     out.2.2))).
Proof.
  revert rw σ. induction h as [| v | key value k IH | key k IH | code k IH
    | b k IH | d k IH | t ctx spanName attrs k IH | s m k IH | t ctx len k IH];
    intros [w st wr] σ Hwr; cbn [middleware.inner middleware.statusCode middleware.written] in *;
    cbn [exec writer_calls latest_status bytes_written].
  - cbn. by rewrite Z.add_0_r, Hwr.
  - cbn. by rewrite Z.add_0_r, Hwr.
  - unfold Go.bind, Go.on_fst, Go.modify. cbn. by rewrite IH.
  - unfold Go.bind, Go.on_fst, Go.modify. cbn. by rewrite IH.
  - unfold Go.bind, Go.on_fst. cbn.
    unfold middleware.rw_WriteHeader, middleware.on_inner, Go.bind, Go.modify. cbn.
    destruct (WriteHeader code w) as [[[]|v] w']; cbn.
    + by rewrite IH.
    + by rewrite Z.add_0_r, Hwr.
  - unfold Go.bind, Go.on_fst. cbn.
    unfold middleware.rw_Write, middleware.on_inner, Go.bind, Go.modify, Go.ret. cbn.
    destruct (Write b w) as [[[n err]|v] w']; cbn.
    + rewrite IH; cbn.
      * by rewrite int64_wrap_add, Z.add_assoc.
      * rewrite int64_wrap_small; [done | apply int64_wrap_range].
    + by rewrite Z.add_0_r, Hwr.
  - unfold Go.bind, Go.on_snd. cbn. by rewrite IH.
  - unfold Go.bind, Go.on_snd. cbn.
    destruct (sdk.Start t ctx spanName SpanKindInternal attrs σ) as [[r|v] σ']; cbn.
    + by rewrite IH.
    + by rewrite Z.add_0_r, Hwr.
  - unfold Go.bind, Go.on_snd. cbn.
    destruct (span_call s m σ) as [[[]|v] σ']; cbn.
    + by rewrite IH.
    + by rewrite Z.add_0_r, Hwr.
  - unfold Go.bind, Go.on_snd. cbn.
    destruct (telemetry.RecordMessageLength t ctx len σ) as [[[]|v] σ']; cbn.
    + by rewrite IH.
    + by rewrite Z.add_0_r, Hwr.
Qed.

End Wrapper.

(** ** Spans and the active-request gauge *)

(** C1.  Whatever the wrapped handler does, the middleware itself opens the
    span of the request once, right after [StartRequest], and closes that
    span once, right before [EndRequest]: the calls of a request are the
    opening calls, the calls of the handler, calls that open and close no
    span, and the closing calls.  This holds when the handler returns and
    when it panics, and the panic is passed on. *)
Theorem span_opened_and_closed_once {W : Type} `{ResponseWriter W}
    (tel : telemetry.Telemetry) (act : metric.Instrument) (tr : sdk.Tracer)
    (next : Request → Script) (w : W) (r : Request) (σ : sdk.World) :
  telemetry.ActiveRequests tel = Some act →
  telemetry.Tracer tel = Some tr →
  let out := middleware.TracingMiddleware tel (HandlerFunc next) W _ r (w, σ) in
  let made := new_calls σ out.2.2 in
  let own := handler_calls act tr next w r σ in
  (∃ rest,
     made =
       ([ sdk.UpDownCounter_Add act 1 [];
          sdk.Tracer_Start tr (Context r) (URL_Path r) SpanKindServer
            (request_attributes r) (request_span r σ) ]
        ++ own ++ rest
        ++ [ sdk.Span_End (request_span r σ); sdk.UpDownCounter_Add act (-1) [] ])%list
     ∧ opened rest = 0%nat ∧ closed rest = 0%nat)
  ∧ opened made = S (opened own)
  ∧ closed made = S (closed own)
  ∧ (∀ v, (handler_run act tr next w r σ).1 = Panic v → out.1 = Panic v).
Proof.
  intros Hact Htr out made own.
  destruct (TracingMiddleware_calls tel act tr Hact Htr next w r σ)
    as ((rest & E & F) & HP).
  fold out in E, HP. fold own in E.
  assert (Hmade : made = (opening act tr r σ ++ own ++ rest ++ closing act r σ)%list)
    by (by apply new_calls_app).
  split; [| split; [| split]].
  - exists rest. split; [exact Hmade |]. split; [by apply plain_opened | by apply plain_closed].
  - rewrite Hmade, !opened_app, (plain_opened rest F). cbn. lia.
  - rewrite Hmade, !closed_app, (plain_closed rest F). cbn. lia.
  - exact HP.
Qed.

Lemma span_opened_and_closed_once_witness :
  telemetry.ActiveRequests sample.tel = Some (active sample.reg) ∧
  telemetry.Tracer sample.tel = Some (tracer sample.reg) ∧
  let σ := sample.world sample.calm in
  let out := middleware.TracingMiddleware sample.tel (HandlerFunc sample.crash)
               response _ (sample.get "/") (main.newConnection None, σ) in
  out.1 = Panic "boom" ∧
  opened (new_calls σ out.2.2) = 1%nat ∧ closed (new_calls σ out.2.2) = 1%nat.
Proof.
  split; [reflexivity |]. split; [reflexivity |].
  destruct (span_opened_and_closed_once sample.tel (active sample.reg)
              (tracer sample.reg) sample.crash (main.newConnection None)
              (sample.get "/") (sample.world sample.calm) eq_refl eq_refl)
    as (_ & Ho & Hc & HP).
  split; [apply HP; reflexivity |].
  split; [rewrite Ho | rewrite Hc]; reflexivity.
Defined.

(** C2.  [StartRequest] is the first call of a request, before any call of
    the wrapped handler, and [EndRequest] the last one, whether the handler
    returns or panics; no call in between touches an up-down counter, so the
    sum of the deltas of the active-request gauge is after the request what
    it was before. *)
Theorem active_requests_balanced {W : Type} `{ResponseWriter W}
    (tel : telemetry.Telemetry) (act : metric.Instrument) (tr : sdk.Tracer)
    (next : Request → Script) (w : W) (r : Request) (σ : sdk.World) :
  telemetry.ActiveRequests tel = Some act →
  telemetry.Tracer tel = Some tr →
  let out := middleware.TracingMiddleware tel (HandlerFunc next) W _ r (w, σ) in
  (∃ start rest,
     new_calls σ out.2.2 =
       (sdk.UpDownCounter_Add act 1 []
        :: (start :: handler_calls act tr next w r σ ++ rest)
        ++ [sdk.UpDownCounter_Add act (-1) []])%list
     ∧ Forall (λ c, is_updown c = false)
         (start :: handler_calls act tr next w r σ ++ rest))
  ∧ gauge act (sdk.calls out.2.2) = gauge act (sdk.calls σ).
Proof.
  intros Hact Htr out.
  destruct (TracingMiddleware_calls tel act tr Hact Htr next w r σ)
    as ((rest & E & F) & _).
  destruct (handler_run_calls act tr next w r σ) as [_ Hown].
  fold out in E.
  assert (Hrest : Forall (λ c, is_updown c = false) rest).
  { eapply Forall_impl; [exact F |]. by intros c (_ & _ & Hc). }
  split.
  - eexists _, (rest ++ [sdk.Span_End (request_span r σ)])%list. split.
    + apply new_calls_app. rewrite E. unfold opening, closing. cbn.
      by rewrite <- !app_assoc.
    + constructor; [done |]. apply Forall_app. split; [done |].
      apply Forall_app. split; [done | by repeat constructor].
  - rewrite E, !gauge_app, (gauge_quiet act _ Hown), (gauge_quiet act _ Hrest).
    unfold opening, closing. cbn. destruct (decide (act = act)); [lia | done].
Qed.

Lemma active_requests_balanced_witness :
  telemetry.ActiveRequests sample.tel = Some (active sample.reg) ∧
  telemetry.Tracer sample.tel = Some (tracer sample.reg) ∧
  let σ := sample.world sample.calm in
  let out := middleware.TracingMiddleware sample.tel (HandlerFunc sample.crash)
               response _ (sample.get "/") (main.newConnection None, σ) in
  gauge (active sample.reg) (sdk.calls out.2.2) = 0.
Proof.
  split; [reflexivity |]. split; [reflexivity |].
  destruct (active_requests_balanced sample.tel (active sample.reg)
              (tracer sample.reg) sample.crash (main.newConnection None)
              (sample.get "/") (sample.world sample.calm) eq_refl eq_refl)
    as (_ & Hg).
  exact Hg.
Defined.

(** ** Finishing a request *)

(** C3, as the specification states it, fails: a handler that sets status
    500 and panics leaves a request with the opening and the closing calls
    only; no span attribute is set and no request metric is recorded. *)
Lemma finishing_skipped_after_panic :
  let σ := sample.world sample.calm in
  let w := main.newConnection None in
  let out := middleware.TracingMiddleware sample.tel (HandlerFunc sample.crash)
               response _ (sample.get "/") (w, σ) in
  out.1 = Panic "boom"
  ∧ existsb is_set_attributes (new_calls σ out.2.2) = false
  ∧ existsb is_metric (new_calls σ out.2.2) = false
  ∧ ¬ finished sample.tel sample.reg sample.crash w (sample.get "/") σ.
Proof.
  cbv zeta. split; [reflexivity |]. split; [reflexivity |]. split; [reflexivity |].
  unfold finished. intros E. apply (f_equal length) in E. vm_compute in E. discriminate.
Qed.

(** C3, amended.  When the wrapped handler returns, the status and the size
    the wrapper captured are read, the span gets the attributes
    http.status_code, http.response_size and http.duration_ms (and error
    when the status is 400 or more), and [RecordRequest] is called with that
    status and duration, before the span is closed.  When the handler
    panics, the request is left with the closing calls alone. *)
Theorem finished_when_handler_returns {W : Type} `{ResponseWriter W}
    (tel : telemetry.Telemetry) (g : Registered)
    (next : Request → Script) (w : W) (r : Request) (σ : sdk.World) :
  registered tel g →
  let out := middleware.TracingMiddleware tel (HandlerFunc next) W _ r (w, σ) in
  let run := handler_run (active g) (tracer g) next w r σ in
  let asked := writer_calls (next (handler_request r σ))
                 (middleware.inner (handler_writer w r σ))
                 (handler_world (active g) (tracer g) r σ) in
  out.1 = run.1
  ∧ (run.1 = Ok tt → finished tel g next w r σ)
  ∧ (∀ v, run.1 = Panic v →
       new_calls σ out.2.2 =
       (opening (active g) (tracer g) r σ
        ++ handler_calls (active g) (tracer g) next w r σ
        ++ closing (active g) r σ)%list)
  ∧ middleware.statusCode run.2.1 = latest_status 200 asked
  ∧ middleware.written run.2.1 = middleware.int64_wrap (bytes_written asked).
Proof.
  intros Hreg out run asked.
  pose proof Hreg as (_ & _ & Hact & _ & Htr).
  destruct (handler_run_calls (active g) (tracer g) next w r σ) as [E _].
  assert (Hout : out =
    match run with
    | (Ok _, (rw, σ2)) =>
        (Ok tt, (middleware.inner rw,
           sdk.with_calls
             ((sdk.calls σ2 ++
               finishing (requests g) (durations g) (errors g) (request_span r σ)
                 (Method r) (URL_Path r) (middleware.statusCode rw)
                 (middleware.written rw) (sdk.clock σ2 - sdk.clock σ))
              ++ closing (active g) r σ) σ2))
    | (Panic v, (rw, σ2)) =>
        (Panic v, (middleware.inner rw,
           sdk.with_calls (sdk.calls σ2 ++ closing (active g) r σ) σ2))
    end).
  { subst out run. rewrite (TracingMiddleware_run tel _ _ Hact Htr).
    unfold Go.bind. fold (handler_run (active g) (tracer g) next w r σ).
    destruct (handler_run (active g) (tracer g) next w r σ) as [[[]|v] [rw σ2]];
      [| reflexivity].
    by rewrite (after_handler_run tel g r σ rw σ2 Hreg). }
  split; [| split; [| split]].
  - rewrite Hout. by destruct run as [[[]|v] [rw σ2]].
  - intros Hok. unfold finished. fold out run.
    rewrite Hout. fold run in E. destruct run as [[[]|v] [rw σ2]]; [| discriminate].
    cbn [fst snd] in *. apply new_calls_app. unfold sdk.with_calls.
    cbn [fst snd sdk.calls]. rewrite E. by rewrite <- !app_assoc.
  - intros v Hv. rewrite Hout. fold run in E.
    destruct run as [[[]|v'] [rw σ2]]; [discriminate |].
    cbn [fst snd] in *. apply new_calls_app. unfold sdk.with_calls.
    cbn [fst snd sdk.calls]. rewrite E. by rewrite <- !app_assoc.
  - subst run asked. unfold handler_run.
    rewrite exec_through_wrapper; [| by apply int64_wrap_small].
    cbn [fst snd middleware.statusCode middleware.written]. split; [reflexivity |].
    by rewrite Z.add_0_l.
Qed.

Lemma finished_when_handler_returns_witness :
  registered sample.tel sample.reg ∧
  let σ := sample.world sample.calm in
  let out := middleware.TracingMiddleware sample.tel (HandlerFunc sample.notFound)
               response _ (sample.get "/missing") (main.newConnection None, σ) in
  let span := request_span (sample.get "/missing") σ in
  out.1 = Ok tt ∧
  In (sdk.Span_SetAttributes span
        [ attribute.Int "http.status_code" 404;
          attribute.Int64 "http.response_size" 0;
          attribute.Float64 "http.duration_ms" (float64_of_int64 0) ])
     (new_calls σ out.2.2) ∧
  In (sdk.Span_SetAttributes span [attribute.Bool "error" true]) (new_calls σ out.2.2).
Proof.
  split; [by repeat split |].
  destruct (finished_when_handler_returns sample.tel sample.reg sample.notFound
              (main.newConnection None) (sample.get "/missing")
              (sample.world sample.calm) ltac:(by repeat split))
    as (Ho & Hf & _ & _ & _).
  cbv zeta. split; [rewrite Ho; reflexivity |].
  rewrite (Hf eq_refl). split; vm_compute; tauto.
Defined.

(** ** Response capture *)

(** C4.  A handler that works on the wrapper ends as it would on the
    wrapped writer, which gets every call and whose answers reach the
    handler unchanged.  The wrapper holds the status of the latest
    [WriteHeader] (200 when there was none) and the sum of the byte counts
    the wrapped writer answered, as an [int64]; [WriteHeader] records its
    argument and passes it on, and [Write] returns what the wrapped writer
    returns. *)
Theorem response_capture {W : Type} `{ResponseWriter W}
    (h : Script) (w : W) (σ : sdk.World) :
  let asked := writer_calls h w σ in
  let run := exec h (middleware.newResponseWriter w, σ) in
  let rw := run.2.1 in
  (run.1, (middleware.inner rw, run.2.2)) = exec h (w, σ)
  ∧ middleware.statusCode rw = latest_status 200 asked
  ∧ middleware.written rw = middleware.int64_wrap (bytes_written asked)
  ∧ (- 2 ^ 63 <= bytes_written asked < 2 ^ 63 →
     middleware.written rw = bytes_written asked)
  ∧ (∀ code (v : middleware.responseWriter W),
       let after := middleware.rw_WriteHeader code v in
       middleware.statusCode after.2 = code
       ∧ middleware.written after.2 = middleware.written v
       ∧ (after.1, middleware.inner after.2) = WriteHeader code (middleware.inner v))
  ∧ (∀ b (v : middleware.responseWriter W),
       let after := middleware.rw_Write b v in
       (after.1, middleware.inner after.2) = Write b (middleware.inner v)
       ∧ middleware.statusCode after.2 = middleware.statusCode v
       ∧ middleware.written after.2 =
         match after.1 with
         | Ok answer => middleware.int64_wrap (middleware.written v + answer.1)
         | Panic _ => middleware.written v
         end).
Proof.
  intros asked run rw. subst rw run asked.
  rewrite exec_through_wrapper by (by apply int64_wrap_small).
  cbn [fst snd middleware.inner middleware.statusCode middleware.written
       middleware.newResponseWriter].
  rewrite Z.add_0_l.
  split; [by destruct (exec h (w, σ)) as [res [w' σ']] |].
  split; [reflexivity |]. split; [reflexivity |].
  split; [intros Hr; by apply int64_wrap_small |].
  split.
  - intros code [w0 st wr].
    unfold middleware.rw_WriteHeader, middleware.on_inner, Go.bind, Go.modify.
    cbn. by destruct (WriteHeader code w0) as [res w'].
  - intros b [w0 st wr].
    unfold middleware.rw_Write, middleware.on_inner, Go.bind, Go.modify, Go.ret.
    cbn. by destruct (Write b w0) as [[[n err]|v] w'].
Qed.

Lemma response_capture_witness :
  let run := exec (sample.twice (sample.get "/"))
               (middleware.newResponseWriter (main.newConnection None),
                sample.world sample.calm) in
  run.1 = Ok tt
  ∧ body (middleware.inner run.2.1) = "hello, world"
  ∧ middleware.statusCode run.2.1 = 200
  ∧ middleware.written run.2.1 = 12.
Proof.
  destruct (response_capture (sample.twice (sample.get "/")) (main.newConnection None)
              (sample.world sample.calm)) as (_ & Hs & _ & Hw & _).
  cbv zeta in *. split; [reflexivity |]. split; [reflexivity |].
  split; [rewrite Hs; reflexivity |].
  rewrite Hw; [reflexivity | vm_compute; split; congruence].
Defined.

(** ** Request metrics *)

(** C5.  [RecordRequest] adds 1 to the request counter and records one
    value, the duration in seconds, in the duration histogram, both with the
    attributes http.method, http.route and http.status_code; it adds 1 to
    the error counter, with the same attributes, when the status is 400 or
    more, and makes no further call when it is less. *)
Theorem RecordRequest_records (t : telemetry.Telemetry)
    (rc rd ec : metric.Instrument) (ctx : trace.Context) (method path : string)
    (statusCode : Z) (d : time.Duration) (σ : sdk.World) :
  telemetry.RequestCounter t = Some rc →
  telemetry.RequestDuration t = Some rd →
  telemetry.ErrorCounter t = Some ec →
  let attrs := [ attribute.String "http.method" method;
                 attribute.String "http.route" path;
                 attribute.Int "http.status_code" statusCode ] in
  let out := telemetry.RecordRequest t ctx method path statusCode d σ in
  out.1 = Ok tt
  ∧ out.2 = sdk.with_calls (sdk.calls σ ++ new_calls σ out.2) σ
  ∧ (statusCode >= 400 →
     new_calls σ out.2 =
     [ sdk.Counter_Add rc 1 attrs;
       sdk.Float64Histogram_Record rd (time.Seconds d) attrs;
       sdk.Counter_Add ec 1 attrs ])
  ∧ (statusCode < 400 →
     new_calls σ out.2 =
     [ sdk.Counter_Add rc 1 attrs;
       sdk.Float64Histogram_Record rd (time.Seconds d) attrs ]).
Proof.
  intros Hrc Hrd Hec attrs out. subst out.
  rewrite (RecordRequest_run t rc rd ec ctx method path statusCode d σ Hrc Hrd Hec).
  cbn [fst snd].
  assert (Hn : new_calls σ
                 (sdk.with_calls
                    (sdk.calls σ ++ request_metrics rc rd ec method path statusCode d) σ)
               = request_metrics rc rd ec method path statusCode d)
    by (by apply new_calls_app).
  rewrite Hn. split; [done |]. split; [done |].
  unfold request_metrics. destruct (decide (statusCode >= 400)); split; intros Hs;
    first [ reflexivity | lia ].
Qed.

Lemma RecordRequest_records_witness :
  telemetry.RequestCounter sample.tel = Some (requests sample.reg) ∧
  telemetry.RequestDuration sample.tel = Some (durations sample.reg) ∧
  telemetry.ErrorCounter sample.tel = Some (errors sample.reg) ∧
  let σ := sample.world sample.calm in
  let attrs := [ attribute.String "http.method" "GET";
                 attribute.String "http.route" "/missing";
                 attribute.Int "http.status_code" 404 ] in
  new_calls σ (telemetry.RecordRequest sample.tel None "GET" "/missing" 404 2500000 σ).2 =
  [ sdk.Counter_Add (requests sample.reg) 1 attrs;
    sdk.Float64Histogram_Record (durations sample.reg) (Duration_Seconds 2500000) attrs;
    sdk.Counter_Add (errors sample.reg) 1 attrs ].
Proof.
  split; [reflexivity |]. split; [reflexivity |]. split; [reflexivity |].
  destruct (RecordRequest_records sample.tel (requests sample.reg)
              (durations sample.reg) (errors sample.reg) None "GET" "/missing" 404
              2500000 (sample.world sample.calm) eq_refl eq_refl eq_refl)
    as (_ & _ & H400 & _).
  apply H400. lia.
Defined.

(** ** Initialization *)

Lemma registration_error_calm : registration_error calm = None.
Proof. reflexivity. Qed.

Lemma initMetrics_run (t : telemetry.Telemetry) (m : sdk.Meter) (σ : sdk.World) :
  telemetry.Meter t = Some m →
  ∃ t', telemetry.initMetrics t σ = (Ok (t', registration_error (sdk.outside σ)), σ)
        ∧ (registration_error (sdk.outside σ) = None →
           ∀ σ', registration_error (sdk.outside σ') = None →
                 telemetry.initMetrics t σ' = (Ok (t', None), σ')).
Proof.
  destruct t as [tp mp tr me rc rd ar ec ml]. cbn. intros ->.
  unfold telemetry.initMetrics, registration_error, sdk.NewInstrument.
  unfold Go.bind, Go.get, Go.ret. cbn.
  destruct (sdk.instrument_err (sdk.outside σ) "http_requests_total"); cbn;
    [eexists; split; [reflexivity | discriminate] |].
  destruct (sdk.instrument_err (sdk.outside σ) "http_request_duration_seconds"); cbn;
    [eexists; split; [reflexivity | discriminate] |].
  destruct (sdk.instrument_err (sdk.outside σ) "http_requests_active"); cbn;
    [eexists; split; [reflexivity | discriminate] |].
  destruct (sdk.instrument_err (sdk.outside σ) "http_errors_total"); cbn;
    [eexists; split; [reflexivity | discriminate] |].
  destruct (sdk.instrument_err (sdk.outside σ) "echo_message_length"); cbn;
    [eexists; split; [reflexivity | discriminate] |].
  eexists; split; [reflexivity |]. intros _ σ'.
  destruct (sdk.instrument_err (sdk.outside σ') "http_requests_total"); cbn;
    [discriminate |].
  destruct (sdk.instrument_err (sdk.outside σ') "http_request_duration_seconds"); cbn;
    [discriminate |].
  destruct (sdk.instrument_err (sdk.outside σ') "http_requests_active"); cbn;
    [discriminate |].
  destruct (sdk.instrument_err (sdk.outside σ') "http_errors_total"); cbn;
    [discriminate |].
  destruct (sdk.instrument_err (sdk.outside σ') "echo_message_length"); cbn;
    [discriminate |].
  reflexivity.
Qed.

(** What [Initialize] returns and leaves, by what fails. *)
Lemma Initialize_run (cfg : telemetry.Config) (σ : sdk.World) :
  telemetry.Initialize cfg σ =
  match sdk.resource_Merge_err (sdk.outside σ) with
  | Some e => (Ok (None, Some (telemetry.wrap_error "failed to create resource" e)), σ)
  | None =>
  match sdk.otlptracehttp_New_err (sdk.outside σ) (exporter cfg) with
  | Some e =>
      (Ok (None, Some (telemetry.wrap_error "failed to initialize tracer provider" e)), σ)
  | None =>
  match sdk.otlpmetrichttp_New_err (sdk.outside σ) (exporter cfg) with
  | Some e =>
      (Ok (None, Some (telemetry.wrap_error "failed to initialize meter provider" e)), σ)
  | None =>
  match registration_error (sdk.outside σ) with
  | Some e =>
      (Ok (None, Some (telemetry.wrap_error "failed to initialize metrics" e)),
       sdk.with_globals (installed cfg) σ)
  | None => (Ok (Some (handle cfg), None), sdk.with_globals (installed cfg) σ)
  end end end end.
Proof.
  unfold telemetry.Initialize, telemetry.newResource, telemetry.initTracerProvider,
    telemetry.initMeterProvider, exporter, sdk.SetTracerProvider, sdk.SetMeterProvider,
    sdk.SetTextMapPropagator, sdk.TracerOf, sdk.MeterOf, telemetry.Errorf_w.
  unfold Go.bind, Go.get, Go.ret, Go.modify. cbn [fst snd].
  destruct (sdk.resource_Merge_err (sdk.outside σ)) as [e|];
    cbn [fst snd failed default]; [reflexivity |].
  destruct (sdk.otlptracehttp_New_err (sdk.outside σ) _) as [e|];
    cbn [fst snd failed default]; [reflexivity |].
  destruct (sdk.otlpmetrichttp_New_err (sdk.outside σ) _) as [e|];
    cbn [fst snd failed default]; [reflexivity |].
  unfold sdk.with_globals.
  cbn [sdk.clock sdk.calls sdk.next_span sdk.globals sdk.outside
       sdk.GetTracerProvider sdk.GetMeterProvider sdk.GetTextMapPropagator].
  match goal with
  | |- context [telemetry.initMetrics ?t ?s] =>
      destruct (initMetrics_run t (sdk.mkMeter (telemetry.ServiceName cfg)) s eq_refl)
        as (t' & Hrun & Hcalm); cbn [sdk.outside] in Hrun, Hcalm; rewrite Hrun
  end.
  cbn [fst snd].
  destruct (registration_error (sdk.outside σ)) as [e|]; cbn [failed default].
  - reflexivity.
  - specialize (Hcalm eq_refl).
    unfold handle, installed, telemetry.Initialize, telemetry.newResource,
      telemetry.initTracerProvider, telemetry.initMeterProvider,
      sdk.SetTracerProvider, sdk.SetMeterProvider, sdk.SetTextMapPropagator,
      sdk.TracerOf, sdk.MeterOf, Go.bind, Go.get, Go.ret, Go.modify, sdk.with_globals.
    cbn [fst snd failed fresh calm sdk.clock sdk.calls sdk.next_span sdk.globals
         sdk.outside sdk.resource_Merge_err sdk.otlptracehttp_New_err
         sdk.otlpmetrichttp_New_err sdk.GetTracerProvider sdk.GetMeterProvider
         sdk.GetTextMapPropagator].
    rewrite Hcalm by apply registration_error_calm. reflexivity.
Qed.

(** A handle that [Initialize] returns has its tracer and its request
    instruments. *)
Lemma Initialize_registered (cfg : telemetry.Config) (σ : sdk.World)
    (t : telemetry.Telemetry) (err : error) :
  (telemetry.Initialize cfg σ).1 = Ok (Some t, err) → ∃ g, registered t g.
Proof.
  rewrite Initialize_run.
  destruct (sdk.resource_Merge_err _); [discriminate |].
  destruct (sdk.otlptracehttp_New_err _ _); [discriminate |].
  destruct (sdk.otlpmetrichttp_New_err _ _); [discriminate |].
  destruct (registration_error _); [discriminate |].
  cbn. intros [= <- _].
  eexists (mkRegistered _ _ _ _ _). repeat split.
Qed.

(** An error of [Initialize] comes with a nil handle. *)
Lemma Initialize_error_nil (cfg : telemetry.Config) (σ : sdk.World)
    (t : option telemetry.Telemetry) (e : string) :
  (telemetry.Initialize cfg σ).1 = Ok (t, Some e) → t = None.
Proof.
  rewrite Initialize_run.
  destruct (sdk.resource_Merge_err _); [by intros [= <- _] |].
  destruct (sdk.otlptracehttp_New_err _ _); [by intros [= <- _] |].
  destruct (sdk.otlpmetrichttp_New_err _ _); [by intros [= <- _] |].
  destruct (registration_error _); [by intros [= <- _] | discriminate].
Qed.

(** [Initialize] never panics. *)
Lemma Initialize_returns (cfg : telemetry.Config) (σ : sdk.World) :
  ∃ r, (telemetry.Initialize cfg σ).1 = Ok r.
Proof.
  rewrite Initialize_run.
  destruct (sdk.resource_Merge_err _); [by eexists |].
  destruct (sdk.otlptracehttp_New_err _ _); [by eexists |].
  destruct (sdk.otlpmetrichttp_New_err _ _); [by eexists |].
  destruct (registration_error _); by eexists.
Qed.

(** C10.  When the resource and both exporters can be built but an
    instrument cannot be registered, [Initialize] returns a nil handle and
    an error, and yet leaves the global tracer provider, meter provider and
    propagator set to the providers it built: those of the handle it would
    have returned. *)
Theorem Initialize_leaves_globals_set (cfg : telemetry.Config) (σ : sdk.World)
    (e : string) :
  sdk.resource_Merge_err (sdk.outside σ) = None →
  sdk.otlptracehttp_New_err (sdk.outside σ) (exporter cfg) = None →
  sdk.otlpmetrichttp_New_err (sdk.outside σ) (exporter cfg) = None →
  registration_error (sdk.outside σ) = Some e →
  let out := telemetry.Initialize cfg σ in
  out.1 = Ok (None, Some (telemetry.wrap_error "failed to initialize metrics" e))
  ∧ sdk.GetTracerProvider (sdk.globals out.2) = telemetry.TracerProvider (handle cfg)
  ∧ sdk.GetMeterProvider (sdk.globals out.2) = telemetry.MeterProvider (handle cfg)
  ∧ sdk.GetTracerProvider (sdk.globals out.2)
    = Some (sdk.mkTracerProvider (exporter cfg) 5000000000 512
              (Some (sdk.mkResource "https://opentelemetry.io/schemas/1.21.0"
                 [ attribute.String "service.name" (telemetry.ServiceName cfg);
                   attribute.String "service.version" (telemetry.ServiceVersion cfg);
                   attribute.String "environment" (telemetry.Environment cfg);
                   attribute.String "telemetry.sdk.language" "go" ])))
  ∧ is_Some (sdk.GetMeterProvider (sdk.globals out.2))
  ∧ sdk.GetTextMapPropagator (sdk.globals out.2) = ["tracecontext"; "baggage"]
  ∧ out.2 = sdk.with_globals (sdk.globals out.2) σ.
Proof.
  intros H1 H2 H3 H4 out. subst out.
  rewrite Initialize_run, H1, H2, H3, H4.
  cbn [fst snd sdk.globals sdk.with_globals].
  repeat split; by eexists.
Qed.

Lemma Initialize_leaves_globals_set_witness :
  let σ := sample.world sample.picky in
  let out := telemetry.Initialize (telemetry.NewConfig ∅) σ in
  sdk.globals σ = sdk.mkGlobals None None []
  ∧ out.1 = Ok (None, Some "failed to initialize metrics: invalid instrument name")
  ∧ is_Some (sdk.GetTracerProvider (sdk.globals out.2))
  ∧ is_Some (sdk.GetMeterProvider (sdk.globals out.2))
  ∧ sdk.GetTextMapPropagator (sdk.globals out.2) = ["tracecontext"; "baggage"].
Proof.
  destruct (Initialize_leaves_globals_set (telemetry.NewConfig ∅)
              (sample.world sample.picky) "invalid instrument name"
              eq_refl eq_refl eq_refl eq_refl)
    as (Ho & _ & _ & Htp & Hmp & Hp & _).
  cbv zeta. split; [reflexivity |]. split; [exact Ho |].
  split; [rewrite Htp; by eexists |]. split; [exact Hmp | exact Hp].
Defined.

(** ** Shutdown *)

(** C7.  [Shutdown] calls the shutdown of the tracer provider and then that
    of the meter provider, whatever the first one answers; it returns nil
    exactly when both answer nil, and otherwise one error whose text lists
    every failure. *)
Theorem Shutdown_attempts_both (t : telemetry.Telemetry)
    (tp : sdk.TracerProvider) (mp : sdk.MeterProvider) (σ : sdk.World) :
  telemetry.TracerProvider t = Some tp →
  telemetry.MeterProvider t = Some mp →
  let e1 := sdk.tp_Shutdown_err (sdk.outside σ) tp in
  let e2 := sdk.mp_Shutdown_err (sdk.outside σ) mp in
  let out := telemetry.Shutdown t σ in
  new_calls σ out.2 = [sdk.TracerProvider_Shutdown tp; sdk.MeterProvider_Shutdown mp]
  ∧ ∃ err, out.1 = Ok err
    ∧ (err = None ↔ e1 = None ∧ e2 = None)
    ∧ (∀ m1 m2, e1 = Some m1 → e2 = Some m2 →
         err = Some ("shutdown errors: " +:+ telemetry.format_errors
                       [ telemetry.wrap_error "tracer provider shutdown" m1;
                         telemetry.wrap_error "meter provider shutdown" m2 ]))
    ∧ (∀ m1, e1 = Some m1 → e2 = None →
         err = Some ("shutdown errors: " +:+ telemetry.format_errors
                       [ telemetry.wrap_error "tracer provider shutdown" m1 ]))
    ∧ (∀ m2, e1 = None → e2 = Some m2 →
         err = Some ("shutdown errors: " +:+ telemetry.format_errors
                       [ telemetry.wrap_error "meter provider shutdown" m2 ])).
Proof.
  intros Htp Hmp e1 e2 out. subst out e1 e2.
  unfold telemetry.Shutdown. rewrite Htp, Hmp. destruct σ as [c l n g o].
  run_sdk.
  destruct (sdk.tp_Shutdown_err o tp) as [x1|]; run_sdk;
    destruct (sdk.mp_Shutdown_err o mp) as [x2|]; run_sdk;
    (split; [by apply new_calls_app |]);
    eexists; (split; [reflexivity |]);
    repeat split; try done; try (by intros [? ?]); intros; simplify_eq; done.
Qed.

Lemma Shutdown_attempts_both_witness :
  let t := sample.tel in
  let σ := sample.world sample.stuck in
  ∃ tp mp,
    telemetry.TracerProvider t = Some tp ∧ telemetry.MeterProvider t = Some mp
    ∧ new_calls σ (telemetry.Shutdown t σ).2
      = [sdk.TracerProvider_Shutdown tp; sdk.MeterProvider_Shutdown mp]
    ∧ (telemetry.Shutdown t σ).1
      = Ok (Some ("shutdown errors: [tracer provider shutdown: context deadline exceeded"
                  +:+ " meter provider shutdown: context deadline exceeded]")).
Proof.
  cbv zeta. eexists _, _. split; [reflexivity |]. split; [reflexivity |].
  destruct (Shutdown_attempts_both sample.tel _ _ (sample.world sample.stuck)
              eq_refl eq_refl) as (Hc & err & Ho & _ & Hboth & _).
  split; [exact Hc |].
  rewrite Ho. f_equal. apply (Hboth _ _ eq_refl eq_refl).
Defined.

(** ** Configuration *)

(** C9.  A variable that is not set gives its default: service name
    "sample-web-app", service version "1.0.0", environment "development",
    collector endpoint "localhost:4318", port "8080"; and the insecure flag
    is false exactly when OTEL_INSECURE is set to "false". *)
Theorem NewConfig_defaults (environ : gmap string string) :
  let cfg := telemetry.NewConfig environ in
  (environ !! "OTEL_SERVICE_NAME" = None → telemetry.ServiceName cfg = "sample-web-app")
  ∧ (environ !! "OTEL_SERVICE_VERSION" = None → telemetry.ServiceVersion cfg = "1.0.0")
  ∧ (environ !! "ENV" = None → telemetry.Environment cfg = "development")
  ∧ (environ !! "OTEL_EXPORTER_OTLP_ENDPOINT" = None →
     telemetry.OTLPEndpoint cfg = "localhost:4318")
  ∧ (environ !! "PORT" = None → main.port environ = "8080")
  ∧ (telemetry.Insecure cfg = false ↔ environ !! "OTEL_INSECURE" = Some "false")
  ∧ (environ !! "OTEL_INSECURE" ≠ Some "false" → telemetry.Insecure cfg = true).
Proof.
  cbv zeta. unfold telemetry.NewConfig, main.port, telemetry.Getenv.
  cbn [telemetry.ServiceName telemetry.ServiceVersion telemetry.Environment
       telemetry.OTLPEndpoint telemetry.Insecure].
  repeat split; try (intros ->; reflexivity).
  - intros Hb. apply bool_decide_eq_false in Hb.
    destruct (environ !! "OTEL_INSECURE") as [v|]; cbn in *.
    + f_equal. destruct (decide (v = "false")); [done | contradiction].
    + exfalso. apply Hb. discriminate.
  - intros Hne. apply bool_decide_eq_true.
    destruct (environ !! "OTEL_INSECURE") as [v|]; cbn; [congruence | discriminate].
Qed.

Lemma NewConfig_defaults_witness :
  telemetry.NewConfig ∅ =
    telemetry.mkConfig "sample-web-app" "1.0.0" "development" "localhost:4318" true
  ∧ main.port ∅ = "8080"
  ∧ telemetry.Insecure (telemetry.NewConfig {[ "OTEL_INSECURE" := "false" ]}) = false
  ∧ telemetry.Insecure (telemetry.NewConfig {[ "OTEL_INSECURE" := "FALSE" ]}) = true.
Proof.
  destruct (NewConfig_defaults ∅) as (H1 & H2 & H3 & H4 & H5 & _ & H7).
  destruct (NewConfig_defaults {[ "OTEL_INSECURE" := "false" ]}) as (_ & _ & _ & _ & _ & H6 & _).
  destruct (NewConfig_defaults {[ "OTEL_INSECURE" := "FALSE" ]}) as (_ & _ & _ & _ & _ & _ & H8).
  split; [| split; [by apply H5 | split; [by apply H6 | by apply H8]]].
  specialize (H1 eq_refl). specialize (H2 eq_refl). specialize (H3 eq_refl).
  specialize (H4 eq_refl). specialize (H7 ltac:(done)).
  destruct (telemetry.NewConfig ∅) as [a b c d i]. cbn in *. by subst.
Defined.

(** ** Starting without telemetry *)

(** C6, evaluated.  When [Initialize] returns an error, [main] goes on with
    a nil [tel] and gives the server the router itself, without the
    middleware; /health answers 200 with status "healthy".  The local
    variable [checks] of the readiness handler then holds "disabled" for
    telemetry and "ok" for templates, but the body the handler writes is
    fixed text that names the templates only: it holds neither "telemetry"
    nor "disabled". *)
Theorem readiness_body_omits_telemetry (environ : gmap string string)
    (names : list string) (homeHandler echoHandler : Handler) (σ : sdk.World)
    (t : option telemetry.Telemetry) (e : string) :
  (telemetry.Initialize (telemetry.NewConfig environ) σ).1 = Ok (t, Some e) →
  ∃ srv σ',
    main.start environ (Some names) homeHandler echoHandler σ = (Ok srv, σ')
    ∧ main.tel_var srv = None
    ∧ main.Handler_ srv = main.mux (Some names) None homeHandler echoHandler
    ∧ (∀ r τ, URL_Path r = "/health" →
         let out := main.serve (main.Handler_ srv) None r τ in
         out.1.1 = Ok tt ∧ out.2 = τ
         ∧ status out.1.2 = 200
         ∧ body out.1.2 = main.json "{'status':'healthy','service':'sample-web-app'}")
    ∧ (∀ r τ, URL_Path r = "/ready" →
         let out := main.serve (main.Handler_ srv) None r τ in
         out.1.1 = Ok tt ∧ out.2 = τ
         ∧ status out.1.2 = 200
         ∧ body out.1.2 = main.json "{'status':'ready','checks':{'templates':'ok'}}"
         ∧ main.Contains (body out.1.2) "telemetry" = false
         ∧ main.Contains (body out.1.2) "disabled" = false)
    ∧ main.readiness_checks (Some names) None !! "telemetry" = Some "disabled"
    ∧ main.readiness_checks (Some names) None !! "templates" = Some "ok".
Proof.
  intros Hinit. pose proof (Initialize_error_nil _ _ _ _ Hinit) as ->.
  unfold main.start, Go.bind.
  destruct (telemetry.Initialize (telemetry.NewConfig environ) σ) as [res σ'].
  cbn [fst] in Hinit. subst res. cbn [fst snd Go.ret].
  eexists _, σ'. split; [reflexivity |].
  cbn [main.tel_var main.Handler_ main.handler].
  split; [reflexivity |]. split; [reflexivity |].
  split; [| split; [| split; reflexivity]].
  - intros r τ Hp. unfold main.serve, main.serve_on, main.connection, main.mux.
    rewrite Hp. destruct (bool_decide (Method r = "HEAD")); vm_compute; repeat split.
  - intros r τ Hp. unfold main.serve, main.serve_on, main.connection, main.mux.
    rewrite Hp. destruct (bool_decide (Method r = "HEAD")); vm_compute; repeat split.
Qed.

Lemma readiness_body_omits_telemetry_witness :
  let σ := sample.world sample.stormy in
  let h := HandlerFunc sample.render in
  (telemetry.Initialize (telemetry.NewConfig ∅) σ).1
    = Ok (None, Some "failed to initialize tracer provider: invalid URL")
  ∧ ∃ srv σ',
      main.start ∅ (Some ["index.html"; "echo.html"]) h h σ = (Ok srv, σ')
      ∧ main.tel_var srv = None
      ∧ main.Contains
          (body (main.serve (main.Handler_ srv) None (sample.get "/ready") σ').1.2)
          "telemetry" = false.
Proof.
  cbv zeta. split; [reflexivity |].
  destruct (readiness_body_omits_telemetry ∅ ["index.html"; "echo.html"]
              (HandlerFunc sample.render) (HandlerFunc sample.render)
              (sample.world sample.stormy) None
              "failed to initialize tracer provider: invalid URL" eq_refl)
    as (srv & σ' & Hs & Ht & _ & _ & Hr & _).
  exists srv, σ'. split; [exact Hs |]. split; [exact Ht |].
  destruct (Hr (sample.get "/ready") σ' eq_refl) as (_ & _ & _ & _ & Hc & _).
  exact Hc.
Defined.

(** ** The trace header *)

Lemma keeps_refl k w : keeps k w w.
Proof. repeat split; congruence. Qed.

Lemma keeps_trans k w1 w2 w3 : keeps k w1 w2 → keeps k w2 w3 → keeps k w1 w3.
Proof.
  intros (Hh & Hw & Hs) (Hh' & Hw' & Hs'). split; [congruence |]. split.
  - intros H1. destruct (Hw H1) as [H2 E2]. destruct (Hw' H2) as [H3 E3].
    split; congruence.
  - intros H1 H3. destruct (wroteHeader w2) eqn:H2.
    + destruct (Hw' eq_refl) as [_ E3]. rewrite E3. by apply Hs.
    + rewrite (Hs' eq_refl H3). exact Hh.
Qed.

Lemma response_WriteHeader_keeps k code w : keeps k w (response_WriteHeader code w).2.
Proof.
  unfold response_WriteHeader.
  destruct (wroteHeader w) eqn:Hw; cbn; [by apply keeps_refl |].
  destruct ((code <? 100)%Z || (999 <? code)%Z); cbn; [by apply keeps_refl |].
  destruct ((code <=? 199)%Z && negb (code =? 101)%Z); cbn; [by apply keeps_refl |].
  repeat split; cbn; congruence.
Qed.

Lemma response_send_keeps k b w : keeps k w (response_send b w).2.
Proof.
  unfold response_send. destruct (if isHEAD w then None else room w) as [c|]; cbn;
    [destruct (String.length b <=? c)%nat; cbn |]; repeat split; cbn; congruence.
Qed.

Lemma response_Write_keeps k b w : keeps k w (response_Write b w).2.
Proof.
  unfold response_Write, Go.bind, Go.get, Go.ret.
  destruct (wroteHeader w) eqn:Hw; cbv beta iota; rewrite ?Hw; cbv beta iota.
  - destruct (decide _); [apply keeps_refl |].
    destruct (negb _); [apply keeps_refl |]. apply response_send_keeps.
  - pose proof (response_WriteHeader_keeps k 200 w) as H200.
    destruct (response_WriteHeader 200 w) as [[[]|v] w1]; cbn [fst snd] in *; [| done].
    destruct (decide _); [done |].
    destruct (negb _); [done |].
    eapply keeps_trans; [exact H200 | apply response_send_keeps].
Qed.

Lemma exec_keeps (key : string) (h : Script) :
  leaves_header key h →
  ∀ (w : response) σ, keeps (CanonicalMIMEHeaderKey key) w (exec h (w, σ)).2.1.
Proof.
  induction h as [| v | key' value k IH | key' k IH | code k IH
    | b k IH | d k IH | t ctx spanName attrs k IH | s m k IH | t ctx len k IH];
    cbn [leaves_header exec]; intros Hl w σ;
    unfold Go.bind, Go.on_fst, Go.on_snd, Go.modify, Go.ret, Go.panic;
    cbn [fst snd].
  - apply keeps_refl.
  - apply keeps_refl.
  - destruct Hl as [Hne Hl]. eapply keeps_trans; [| by apply IH].
    destruct w as [hh wh st sh bd rm hd]. unfold keeps. cbn.
    split; [| split; [by intros -> | by intros -> ?]].
    unfold Header_Set. by rewrite lookup_insert_ne.
  - destruct Hl as [Hne Hl]. eapply keeps_trans; [| by apply IH].
    destruct w as [hh wh st sh bd rm hd]. unfold keeps. cbn.
    split; [| split; [by intros -> | by intros -> ?]].
    unfold Header_Del. by rewrite lookup_delete_ne.
  - pose proof (response_WriteHeader_keeps (CanonicalMIMEHeaderKey key) code w) as Hk.
    cbn [WriteHeader response_ResponseWriter].
    destruct (response_WriteHeader code w) as [[[]|v] w1]; cbn [fst snd] in *; [| done].
    eapply keeps_trans; [exact Hk | by apply IH].
  - pose proof (response_Write_keeps (CanonicalMIMEHeaderKey key) b w) as Hk.
    cbn [Write response_ResponseWriter].
    destruct (response_Write b w) as [[[n err]|v] w1]; cbn [fst snd] in *; [| done].
    eapply keeps_trans; [exact Hk | by apply IH].
  - by apply IH.
  - destruct (sdk.Start t ctx spanName SpanKindInternal attrs σ) as [[r|v] σ'];
      cbn [fst snd]; [by apply IH | apply keeps_refl].
  - destruct (span_call s m σ) as [[[]|v] σ']; cbn [fst snd];
      [by apply IH | apply keeps_refl].
  - destruct (telemetry.RecordMessageLength t ctx len σ) as [[[]|v] σ']; cbn [fst snd];
      [by apply IH | apply keeps_refl].
Qed.

(** The server's last step keeps the header and leaves the header sent
    after a handler that returned. *)
Lemma finish_keeps k (w : response) :
  keeps k w ((if wroteHeader w then ret tt else response_WriteHeader 200) w).2
  ∧ wroteHeader ((if wroteHeader w then ret tt else response_WriteHeader 200) w).2 = true.
Proof.
  destruct (wroteHeader w) eqn:Hw.
  - split; [apply keeps_refl | exact Hw].
  - split; [apply response_WriteHeader_keeps |].
    unfold response_WriteHeader. by rewrite Hw.
Qed.

(** A request served through the middleware, in terms of the run of the
    wrapped handler on the connection with the trace header set. *)
Lemma serve_TracingMiddleware (tel : telemetry.Telemetry) (g : Registered)
    (next : Request → Script) (room : option nat) (r : Request) (σ : sdk.World) :
  registered tel g →
  let start := middleware.inner (handler_writer (main.connection r room) r σ) in
  let bare := exec (next (handler_request r σ))
                (start, handler_world (active g) (tracer g) r σ) in
  (main.serve (middleware.TracingMiddleware tel (HandlerFunc next)) room r σ).1
  = match bare.1 with
    | Ok _ =>
        (Ok tt, ((if wroteHeader bare.2.1 then ret tt else response_WriteHeader 200)
                   bare.2.1).2)
    | Panic v => (Panic v, bare.2.1)
    end.
Proof.
  intros Hreg start bare.
  pose proof Hreg as (_ & _ & Hact & _ & Htr).
  unfold main.serve, main.serve_on.
  rewrite (TracingMiddleware_run tel _ _ Hact Htr).
  unfold Go.bind. rewrite exec_through_wrapper by (by apply int64_wrap_small).
  fold start. fold bare. cbv zeta.
  destruct bare as [[[]|v] [w' σ2]]; cbn [fst snd].
  - rewrite (after_handler_run tel g r σ _ σ2 Hreg). cbn [middleware.inner].
    by destruct ((if wroteHeader w' then ret tt else response_WriteHeader 200) w').
  - reflexivity.
Qed.

(** C8, as the specification states it, fails: the middleware stores the
    header before the wrapped handler runs and never looks at it again, so
    a handler that deletes the header answers without it, and a handler
    that stores a value of its own answers with that value. *)
Lemma trace_header_not_restored :
  let σ := sample.world sample.calm in
  let r := sample.get "/" in
  let stripped := main.serve (middleware.TracingMiddleware sample.tel
                                (HandlerFunc sample.strip)) None r σ in
  let forged := main.serve (middleware.TracingMiddleware sample.tel
                              (HandlerFunc sample.forge)) None r σ in
  registered sample.tel sample.reg
  ∧ request_trace_id r σ = "000000000000000000000000000003e8"
  ∧ stripped.1.1 = Ok tt ∧ wroteHeader stripped.1.2 = true
  ∧ sentHeader stripped.1.2 !! "X-Trace-Id" = None
  ∧ Header_Get "X-Trace-ID" (sentHeader stripped.1.2) = ""
  ∧ forged.1.1 = Ok tt ∧ wroteHeader forged.1.2 = true
  ∧ Header_Get "X-Trace-ID" (sentHeader forged.1.2) = "deadbeef".
Proof.
  cbv zeta. split; [by repeat split |]. repeat split; reflexivity.
Qed.

(** C8, amended.  The middleware stores the trace identifier of the span it
    started for the request under X-Trace-ID in the header map of the
    response before the wrapped handler runs: the request is answered as the
    handler answers on a response whose header map already has it and on
    which nothing has been sent.  So, with a handler that neither stores to
    that header nor deletes it, the header map has it to the end, every
    header that is sent carries it, and a header is sent whenever the
    handler returns. *)
Theorem trace_header_on_response (tel : telemetry.Telemetry) (g : Registered)
    (next : Request → Script) (room : option nat) (r : Request) (σ : sdk.World) :
  registered tel g →
  let out := main.serve (middleware.TracingMiddleware tel (HandlerFunc next)) room r σ in
  let w := out.1.2 in
  let id := TraceID_String (TraceID (SpanContext_of (request_span r σ))) in
  let start := middleware.inner (handler_writer (main.connection r room) r σ) in
  In (sdk.Tracer_Start (tracer g) (Context r) (URL_Path r) SpanKindServer
        (request_attributes r) (request_span r σ)) (new_calls σ out.2)
  ∧ Header_Get "X-Trace-ID" (handlerHeader start) = id
  ∧ wroteHeader start = false
  ∧ out.1 = (main.serve_on start (HandlerFunc next) (handler_request r σ)
               (handler_world (active g) (tracer g) r σ)).1
  ∧ ((∀ r', leaves_header "X-Trace-ID" (next r')) →
     Header_Get "X-Trace-ID" (handlerHeader w) = id
     ∧ (wroteHeader w = true → Header_Get "X-Trace-ID" (sentHeader w) = id)
     ∧ (out.1.1 = Ok tt → wroteHeader w = true)).
Proof.
  intros Hreg out w id start.
  pose proof Hreg as (_ & _ & Hact & _ & Htr).
  pose proof (serve_TracingMiddleware tel g next room r σ Hreg) as Hserve.
  cbv zeta in Hserve. fold start in Hserve. fold out in Hserve.
  set (bare := exec (next (handler_request r σ))
                 (start, handler_world (active g) (tracer g) r σ)) in *.
  assert (Hstart : handlerHeader start !! "X-Trace-Id" = Some [id]).
  { subst start. cbn. unfold Header_Set.
    change (CanonicalMIMEHeaderKey "X-Trace-ID") with "X-Trace-Id".
    by rewrite lookup_insert_eq. }
  split; [| split; [| split; [| split]]].
  - destruct (TracingMiddleware_calls tel _ _ Hact Htr next (main.connection r room) r σ)
      as ((rest & E & _) & _).
    subst out. unfold main.serve, main.serve_on.
    destruct (middleware.TracingMiddleware _ _ _ _ _ _) as [[[]|v] [w' σ']];
      cbn [fst snd] in *;
      [destruct ((if wroteHeader w' then ret tt else response_WriteHeader 200) w') |];
      cbn [fst snd]; rewrite (new_calls_app _ _ _ E); cbn; tauto.
  - unfold Header_Get. change (CanonicalMIMEHeaderKey "X-Trace-ID") with "X-Trace-Id".
    by rewrite Hstart.
  - reflexivity.
  - rewrite Hserve. unfold main.serve_on, HandlerFunc. fold bare.
    destruct bare as [[[]|v] [w' σ2]]; cbn [fst snd]; [| reflexivity].
    by destruct ((if wroteHeader w' then ret tt else response_WriteHeader 200) w').
  - intros Hleave.
    pose proof (exec_keeps "X-Trace-ID" _ (Hleave (handler_request r σ)) start
                  (handler_world (active g) (tracer g) r σ)) as Hk.
    change (CanonicalMIMEHeaderKey "X-Trace-ID") with "X-Trace-Id" in Hk.
    fold bare in Hk.
    assert (Hkw : keeps "X-Trace-Id" start w ∧ (out.1.1 = Ok tt → wroteHeader w = true)).
    { subst w. rewrite Hserve. destruct bare as [[[]|v] [w' σ2]]; cbn [fst snd] in *.
      - destruct (finish_keeps "X-Trace-Id" w') as [Hf Hw].
        split; [eapply keeps_trans; [exact Hk | exact Hf] | by intros _].
      - split; [exact Hk | discriminate]. }
    destruct Hkw as [(Hh & _ & Hs) Hok].
    unfold Header_Get. change (CanonicalMIMEHeaderKey "X-Trace-ID") with "X-Trace-Id".
    split; [by rewrite Hh, Hstart |]. split; [| exact Hok].
    intros Hw. by rewrite (Hs eq_refl Hw), Hstart.
Qed.

Lemma trace_header_on_response_witness :
  registered sample.tel sample.reg ∧
  (∀ r', leaves_header "X-Trace-ID" (main.healthHandler r')) ∧
  let σ := sample.world sample.calm in
  let out := main.serve (middleware.TracingMiddleware sample.tel
                           (HandlerFunc main.healthHandler))
               (Some 9%nat) (sample.get "/health") σ in
  out.1.1 = Ok tt
  ∧ wroteHeader out.1.2 = true
  ∧ Header_Get "X-Trace-ID" (sentHeader out.1.2) = "000000000000000000000000000003e8".
Proof.
  split; [by repeat split |].
  assert (Hl : ∀ r', leaves_header "X-Trace-ID" (main.healthHandler r')).
  { intros r'. cbn. split; [by vm_compute | done]. }
  split; [exact Hl |].
  destruct (trace_header_on_response sample.tel sample.reg main.healthHandler
              (Some 9%nat) (sample.get "/health") (sample.world sample.calm)
              ltac:(by repeat split))
    as (_ & _ & _ & _ & Hcarry).
  destruct (Hcarry Hl) as (_ & Hsent & Hok).
  cbv zeta. split; [reflexivity |].
  split; [by apply Hok |].
  rewrite Hsent; [reflexivity | by apply Hok].
Defined.

(** * Further properties *)

(** ** Configuration values *)

(** X1.  A variable set to a non-empty value gives that value; a variable
    set to the empty string gives the default, as an unset one does; so no
    field of the configuration and no port is ever empty. *)
Theorem NewConfig_value_or_default (environ : gmap string string) :
  let cfg := telemetry.NewConfig environ in
  (∀ v, environ !! "OTEL_SERVICE_NAME" = Some v → v ≠ "" → telemetry.ServiceName cfg = v)
  ∧ (∀ v, environ !! "OTEL_SERVICE_VERSION" = Some v → v ≠ "" →
       telemetry.ServiceVersion cfg = v)
  ∧ (∀ v, environ !! "ENV" = Some v → v ≠ "" → telemetry.Environment cfg = v)
  ∧ (∀ v, environ !! "OTEL_EXPORTER_OTLP_ENDPOINT" = Some v → v ≠ "" →
       telemetry.OTLPEndpoint cfg = v)
  ∧ (∀ v, environ !! "PORT" = Some v → v ≠ "" → main.port environ = v)
  ∧ (environ !! "OTEL_SERVICE_NAME" = Some "" → telemetry.ServiceName cfg = "sample-web-app")
  ∧ (environ !! "OTEL_SERVICE_VERSION" = Some "" → telemetry.ServiceVersion cfg = "1.0.0")
  ∧ (environ !! "ENV" = Some "" → telemetry.Environment cfg = "development")
  ∧ (environ !! "OTEL_EXPORTER_OTLP_ENDPOINT" = Some "" →
       telemetry.OTLPEndpoint cfg = "localhost:4318")
  ∧ (environ !! "PORT" = Some "" → main.port environ = "8080")
  ∧ telemetry.ServiceName cfg ≠ "" ∧ telemetry.ServiceVersion cfg ≠ ""
  ∧ telemetry.Environment cfg ≠ "" ∧ telemetry.OTLPEndpoint cfg ≠ ""
  ∧ main.port environ ≠ "".
Proof.
  cbv zeta. unfold telemetry.NewConfig, main.port, telemetry.Getenv.
  cbn [telemetry.ServiceName telemetry.ServiceVersion telemetry.Environment
       telemetry.OTLPEndpoint].
  repeat split;
    try (intros v -> Hv; cbn; by destruct (decide (v = "")));
    try (intros ->; reflexivity);
    match goal with
    | |- context [decide (?x = "")] => by destruct (decide (x = ""))
    end.
Qed.

Lemma NewConfig_value_or_default_witness :
  let environ : gmap string string :=
    {[ "OTEL_SERVICE_NAME" := "shop"; "ENV" := ""; "PORT" := "9090" ]} in
  telemetry.ServiceName (telemetry.NewConfig environ) = "shop"
  ∧ telemetry.Environment (telemetry.NewConfig environ) = "development"
  ∧ main.port environ = "9090".
Proof.
  cbv zeta.
  destruct (NewConfig_value_or_default
              {[ "OTEL_SERVICE_NAME" := "shop"; "ENV" := ""; "PORT" := "9090" ]})
    as (Hn & _ & _ & _ & Hp & _ & _ & He & _).
  split; [by apply Hn |]. split; [by apply He | by apply Hp].
Defined.

(** ** Initialization, case by case *)

(** X2.  When the resource, the trace exporter or the metric exporter
    cannot be built (in this order of precedence), [Initialize] returns a
    nil handle and the error under a fixed prefix, and leaves the world as it
    was: the globals are not set. *)
Theorem Initialize_failure_before_globals (cfg : telemetry.Config) (σ : sdk.World) :
  let o := sdk.outside σ in
  (∀ e, sdk.resource_Merge_err o = Some e →
     telemetry.Initialize cfg σ
     = (Ok (None, Some ("failed to create resource: " +:+ e)), σ))
  ∧ (∀ e, sdk.resource_Merge_err o = None →
       sdk.otlptracehttp_New_err o (exporter cfg) = Some e →
       telemetry.Initialize cfg σ
       = (Ok (None, Some ("failed to initialize tracer provider: " +:+ e)), σ))
  ∧ (∀ e, sdk.resource_Merge_err o = None →
       sdk.otlptracehttp_New_err o (exporter cfg) = None →
       sdk.otlpmetrichttp_New_err o (exporter cfg) = Some e →
       telemetry.Initialize cfg σ
       = (Ok (None, Some ("failed to initialize meter provider: " +:+ e)), σ)).
Proof.
  cbv zeta. repeat split.
  - intros e H1. by rewrite Initialize_run, H1.
  - intros e H1 H2. by rewrite Initialize_run, H1, H2.
  - intros e H1 H2 H3. by rewrite Initialize_run, H1, H2, H3.
Qed.

Lemma Initialize_failure_before_globals_witness :
  let σ := sample.world sample.stormy in
  telemetry.Initialize (telemetry.NewConfig ∅) σ
  = (Ok (None, Some "failed to initialize tracer provider: invalid URL"), σ).
Proof.
  cbv zeta.
  destruct (Initialize_failure_before_globals (telemetry.NewConfig ∅)
              (sample.world sample.stormy)) as (_ & H2 & _).
  apply (H2 "invalid URL"); reflexivity.
Defined.

(** X3.  [Initialize] never panics and returns either a handle or an
    error, never both and never neither; it returns a handle exactly when
    the resource, both exporters and all five instruments can be built.  The
    handle then has both providers on the exporter settings of the
    configuration, a tracer and a meter named after the service, and the
    five instruments under their names; and the globals are set to its
    providers. *)
Theorem Initialize_handle_or_error (cfg : telemetry.Config) (σ : sdk.World) :
  let o := sdk.outside σ in
  ∃ t err,
    (telemetry.Initialize cfg σ).1 = Ok (t, err)
    ∧ (t = None ↔ err ≠ None)
    ∧ (err = None ↔
       sdk.resource_Merge_err o = None
       ∧ sdk.otlptracehttp_New_err o (exporter cfg) = None
       ∧ sdk.otlpmetrichttp_New_err o (exporter cfg) = None
       ∧ registration_error o = None)
    ∧ ∀ h, t = Some h →
        (sdk.tp_exporter <$> telemetry.TracerProvider h) = Some (exporter cfg)
        ∧ (sdk.mp_exporter <$> telemetry.MeterProvider h) = Some (exporter cfg)
        ∧ (sdk.tp_resource <$> telemetry.TracerProvider h)
          = (sdk.mp_resource <$> telemetry.MeterProvider h)
        ∧ telemetry.Tracer h = Some (sdk.mkTracer (telemetry.ServiceName cfg))
        ∧ telemetry.Meter h = Some (sdk.mkMeter (telemetry.ServiceName cfg))
        ∧ (metric.name <$> telemetry.RequestCounter h) = Some "http_requests_total"
        ∧ (metric.name <$> telemetry.RequestDuration h)
          = Some "http_request_duration_seconds"
        ∧ (metric.name <$> telemetry.ActiveRequests h) = Some "http_requests_active"
        ∧ (metric.name <$> telemetry.ErrorCounter h) = Some "http_errors_total"
        ∧ (metric.name <$> telemetry.MessageLength h) = Some "echo_message_length"
        ∧ sdk.GetTracerProvider (sdk.globals (telemetry.Initialize cfg σ).2)
          = telemetry.TracerProvider h
        ∧ sdk.GetMeterProvider (sdk.globals (telemetry.Initialize cfg σ).2)
          = telemetry.MeterProvider h.
Proof.
  cbv zeta. rewrite Initialize_run.
  destruct (sdk.resource_Merge_err _) as [e1|];
    [eexists _, _; split; [reflexivity |]; repeat split; try done; by intros (? & _) |].
  destruct (sdk.otlptracehttp_New_err _ _) as [e2|];
    [eexists _, _; split; [reflexivity |]; repeat split; try done; by intros (_ & ? & _) |].
  destruct (sdk.otlpmetrichttp_New_err _ _) as [e3|];
    [eexists _, _; split; [reflexivity |]; repeat split; try done;
     by intros (_ & _ & ? & _) |].
  destruct (registration_error _) as [e4|];
    [eexists _, _; split; [reflexivity |]; repeat split; try done;
     by intros (_ & _ & _ & ?) |].
  eexists _, _. split; [reflexivity |].
  split; [split; [discriminate | done] |]. split; [done |].
  intros h [= <-]. cbn. repeat split.
Qed.

Lemma Initialize_handle_or_error_witness :
  ∃ h, (telemetry.Initialize (telemetry.NewConfig ∅) (sample.world sample.calm)).1
       = Ok (Some h, None)
       ∧ (metric.name <$> telemetry.ActiveRequests h) = Some "http_requests_active".
Proof.
  destruct (Initialize_handle_or_error (telemetry.NewConfig ∅) (sample.world sample.calm))
    as (t & err & Hrun & _ & _ & Hh).
  exists sample.tel. split; [reflexivity |].
  assert (Ht : t = Some sample.tel).
  { assert (E : (telemetry.Initialize (telemetry.NewConfig ∅) (sample.world sample.calm)).1
                = Ok (Some sample.tel, None)) by reflexivity.
    rewrite E in Hrun. by injection Hrun as <- _. }
  destruct (Hh sample.tel Ht) as (_ & _ & _ & _ & _ & _ & _ & Ha & _). exact Ha.
Defined.

(** X4.  [initMetrics] registers the instruments in order and stops at the
    first one that fails: it returns that error as it is, the instruments
    before it are set under their names, and the fields after it are left
    as they were.  It changes nothing else, in the handle or in the world.
    With a nil meter it panics at once. *)
Theorem initMetrics_stops_at_first_error (t : telemetry.Telemetry) (σ : sdk.World) :
  let k := further.leading (sdk.outside σ) further.instrument_names in
  (∀ m, telemetry.Meter t = Some m →
     ∃ t', telemetry.initMetrics t σ = (Ok (t', registration_error (sdk.outside σ)), σ)
       ∧ (registration_error (sdk.outside σ) = None ↔ k = 5%nat)
       ∧ (∀ i, (i < k)%nat →
            ∃ inst, further.instruments t' !! i = Some (Some inst)
                    ∧ further.instrument_names !! i = Some (metric.name inst))
       ∧ (∀ i, (k < i)%nat → further.instruments t' !! i = further.instruments t !! i)
       ∧ telemetry.TracerProvider t' = telemetry.TracerProvider t
       ∧ telemetry.MeterProvider t' = telemetry.MeterProvider t
       ∧ telemetry.Tracer t' = telemetry.Tracer t
       ∧ telemetry.Meter t' = telemetry.Meter t)
  ∧ (telemetry.Meter t = None →
     telemetry.initMetrics t σ = (Panic sdk.nil_dereference, σ)).
Proof.
  cbv zeta. destruct t as [tp mp tr me rc rd ar ec ml]. cbn [telemetry.Meter]. split.
  - intros m ->.
    unfold telemetry.initMetrics, registration_error, sdk.NewInstrument,
      further.instrument_names, further.leading.
    unfold Go.bind, Go.get, Go.ret. cbn.
    destruct (sdk.instrument_err (sdk.outside σ) "http_requests_total"); cbn;
      [| destruct (sdk.instrument_err (sdk.outside σ) "http_request_duration_seconds");
         cbn;
         [| destruct (sdk.instrument_err (sdk.outside σ) "http_requests_active"); cbn;
            [| destruct (sdk.instrument_err (sdk.outside σ) "http_errors_total"); cbn;
               [| destruct (sdk.instrument_err (sdk.outside σ) "echo_message_length");
                  cbn]]]];
      (eexists; split; [reflexivity |]);
      (split; [split; [try done; discriminate | try done; intros; lia] |]);
      (split; [intros i Hi;
               do 5 (destruct i as [|i]; [first [lia | by eexists] |]); lia |]);
      (split; [intros i Hi;
               do 5 (destruct i as [|i]; [first [lia | done] |]); done |]);
      done.
  - intros ->. reflexivity.
Qed.

Lemma initMetrics_stops_at_first_error_witness :
  let t := telemetry.mkTelemetry None None None (Some (sdk.mkMeter "shop"))
             None None None None None in
  ∃ t', telemetry.initMetrics t (sample.world sample.picky)
        = (Ok (t', Some "invalid instrument name"), sample.world sample.picky)
        ∧ (metric.name <$> telemetry.ActiveRequests t') = Some "http_requests_active"
        ∧ telemetry.MessageLength t' = None.
Proof.
  cbv zeta.
  destruct (initMetrics_stops_at_first_error
              (telemetry.mkTelemetry None None None (Some (sdk.mkMeter "shop"))
                 None None None None None) (sample.world sample.picky)) as [H _].
  destruct (H _ eq_refl) as (t' & Hrun & _ & Hbefore & Hafter & _).
  exists t'. split; [exact Hrun |]. split.
  - destruct (Hbefore 2%nat ltac:(vm_compute; lia)) as (inst & Hi & Hn).
    cbn in Hi, Hn. injection Hi as Hi. injection Hn as Hn. rewrite Hi. cbn.
    by rewrite <- Hn.
  - specialize (Hafter 4%nat ltac:(vm_compute; lia)). cbn in Hafter. by injection Hafter.
Defined.

(** ** Shutdown with missing providers *)

(** X5.  [Shutdown] never panics.  It shuts down exactly the providers the
    handle has, the tracer provider first; a nil provider is skipped; and it
    returns nil exactly when no provider it has fails.  Nothing else in the
    world changes. *)
Theorem Shutdown_present_providers (t : telemetry.Telemetry) (σ : sdk.World) :
  let out := telemetry.Shutdown t σ in
  let attempted :=
    (match telemetry.TracerProvider t with
     | Some tp => [sdk.TracerProvider_Shutdown tp]
     | None => []
     end ++
     match telemetry.MeterProvider t with
     | Some mp => [sdk.MeterProvider_Shutdown mp]
     | None => []
     end)%list in
  out.2 = sdk.with_calls (sdk.calls σ ++ attempted) σ
  ∧ ∃ err, out.1 = Ok err
    ∧ (err = None ↔
       (∀ tp, telemetry.TracerProvider t = Some tp →
              sdk.tp_Shutdown_err (sdk.outside σ) tp = None)
       ∧ (∀ mp, telemetry.MeterProvider t = Some mp →
                sdk.mp_Shutdown_err (sdk.outside σ) mp = None)).
Proof.
  cbv zeta. unfold telemetry.Shutdown. destruct σ as [c l n g o].
  destruct (telemetry.TracerProvider t) as [tp|], (telemetry.MeterProvider t) as [mp|];
    run_sdk;
    try destruct (sdk.tp_Shutdown_err o tp) as [x1|] eqn:E1; run_sdk;
    try destruct (sdk.mp_Shutdown_err o mp) as [x2|] eqn:E2; run_sdk;
    rewrite ?app_nil_r;
    (split; [reflexivity |]); eexists; (split; [reflexivity |]);
    (split;
     [ first [ discriminate | intros _; split; intros ? ?; by simplify_eq ]
     | first [ done
             | intros [H1 H2];
               first [ specialize (H1 _ eq_refl); congruence
                     | specialize (H2 _ eq_refl); congruence ] ] ]).
Qed.

(** ** The gauge counts the requests in flight *)

(** X6.  After any sequence of [StartRequest] and [EndRequest] calls the
    sum of the deltas of the active-request gauge has grown by the number of
    requests started and not ended. *)
Theorem gauge_counts_requests_in_flight (t : telemetry.Telemetry)
    (act : metric.Instrument) (l : list further.Mark) (σ : sdk.World) :
  telemetry.ActiveRequests t = Some act →
  let out := further.marks t l σ in
  out.1 = Ok tt
  ∧ gauge act (sdk.calls out.2) = gauge act (sdk.calls σ) + further.in_flight l.
Proof.
  intros Hact. revert σ. induction l as [| m l IH]; intros σ; cbn [further.marks].
  - cbn. split; [done | lia].
  - destruct m; unfold Go.bind, telemetry.StartRequest, telemetry.EndRequest;
      rewrite Hact; cbn [sdk.UpDownCounterAdd sdk.on_instrument];
      unfold sdk.log, Go.modify;
      match goal with
      | |- context [further.marks t l ?s] => destruct (IH s) as [Ho Hg]
      end; cbv zeta in Ho, Hg |- *; (split; [exact Ho |]); rewrite Hg;
      unfold sdk.with_calls; cbn [sdk.calls]; rewrite gauge_app; cbn;
      destruct (decide (act = act)); try done; lia.
Qed.

Lemma gauge_counts_requests_in_flight_witness :
  telemetry.ActiveRequests sample.tel = Some (active sample.reg)
  ∧ gauge (active sample.reg)
      (sdk.calls (further.marks sample.tel
                    [further.Started; further.Started; further.Ended; further.Started]
                    (sample.world sample.calm)).2) = 2.
Proof.
  split; [reflexivity |].
  destruct (gauge_counts_requests_in_flight sample.tel (active sample.reg)
              [further.Started; further.Started; further.Ended; further.Started]
              (sample.world sample.calm) eq_refl) as [_ Hg].
  exact Hg.
Defined.

(** ** The scheme of a request *)

(** X7.  [getScheme] is "https" for every request that came over TLS,
    whatever its headers say; otherwise it is the first value of the header
    X-Forwarded-Proto when that is not empty, and "http" when the header is
    missing or its first value is empty.  It is never empty. *)
Theorem getScheme_cases (r : Request) :
  (TLS r = true → middleware.getScheme r = "https")
  ∧ (∀ v rest, TLS r = false → ReqHeader r !! "X-Forwarded-Proto" = Some (v :: rest) →
       v ≠ "" → middleware.getScheme r = v)
  ∧ (TLS r = false →
     (ReqHeader r !! "X-Forwarded-Proto" = None
      ∨ ReqHeader r !! "X-Forwarded-Proto" = Some []
      ∨ ∃ rest, ReqHeader r !! "X-Forwarded-Proto" = Some ("" :: rest)) →
     middleware.getScheme r = "http")
  ∧ middleware.getScheme r ≠ "".
Proof.
  unfold middleware.getScheme, Header_Get.
  change (CanonicalMIMEHeaderKey "X-Forwarded-Proto") with "X-Forwarded-Proto".
  repeat split.
  - by intros ->.
  - intros v rest -> -> Hv. by destruct (decide (v ≠ "")).
  - intros -> [-> | [-> | [rest ->]]]; reflexivity.
  - destruct (TLS r); [done |].
    destruct (ReqHeader r !! "X-Forwarded-Proto") as [[| v rest]|]; try done.
    destruct (decide (v ≠ "")); done.
Qed.

Lemma getScheme_cases_witness :
  let r := mkRequest "GET" "/" "/" "shop.example" "10.0.0.7:4711" false
             {[ "X-Forwarded-Proto" := ["https"; "http"] ]} None in
  middleware.getScheme r = "https"
  ∧ middleware.getScheme (sample.get "/") = "http".
Proof.
  cbv zeta. split.
  - destruct (getScheme_cases
                (mkRequest "GET" "/" "/" "shop.example" "10.0.0.7:4711" false
                   {[ "X-Forwarded-Proto" := ["https"; "http"] ]} None))
      as (_ & H & _).
    by apply (H "https" ["http"]).
  - destruct (getScheme_cases (sample.get "/")) as (_ & _ & H & _).
    apply H; [reflexivity | by left].
Defined.

(** ** The middleware on a handle that lacks an instrument *)

(** X8.  With a nil gauge the middleware panics before it does anything:
    no call is made, the response is not touched and the wrapped handler
    does not run.  With a gauge and a nil tracer it panics after
    [StartRequest], and the deferred [EndRequest] still runs: the two gauge
    calls are the only ones, the response is not touched and the wrapped
    handler does not run. *)
Theorem TracingMiddleware_without_instruments {W : Type} `{ResponseWriter W}
    (tel : telemetry.Telemetry) (next : Handler) (w : W) (r : Request) (σ : sdk.World) :
  (telemetry.ActiveRequests tel = None →
   middleware.TracingMiddleware tel next W _ r (w, σ)
   = (Panic sdk.nil_dereference, (w, σ)))
  ∧ (∀ act, telemetry.ActiveRequests tel = Some act → telemetry.Tracer tel = None →
     middleware.TracingMiddleware tel next W _ r (w, σ)
     = (Panic sdk.nil_dereference,
        (w, sdk.with_calls
              (sdk.calls σ ++ [ sdk.UpDownCounter_Add act 1 [];
                                sdk.UpDownCounter_Add act (-1) [] ]) σ))).
Proof.
  split.
  - intros Hact. unfold middleware.TracingMiddleware, telemetry.StartRequest.
    rewrite Hact. by destruct σ.
  - intros act Hact Htr.
    unfold middleware.TracingMiddleware, telemetry.StartRequest, telemetry.EndRequest.
    rewrite Hact, Htr. destruct σ as [c l n g o]. run_sdk. reflexivity.
Qed.

Lemma TracingMiddleware_without_instruments_witness :
  let tel := telemetry.mkTelemetry None None None None None None
               (telemetry.ActiveRequests sample.tel) None None in
  let σ := sample.world sample.calm in
  let out := middleware.TracingMiddleware tel (HandlerFunc sample.twice) response _
               (sample.get "/") (main.newConnection None, σ) in
  out.1 = Panic sdk.nil_dereference
  ∧ out.2.1 = main.newConnection None
  ∧ gauge (active sample.reg) (sdk.calls out.2.2) = 0.
Proof.
  cbv zeta.
  destruct (TracingMiddleware_without_instruments
              (telemetry.mkTelemetry None None None None None None
                 (telemetry.ActiveRequests sample.tel) None None)
              (HandlerFunc sample.twice) (main.newConnection None) (sample.get "/")
              (sample.world sample.calm)) as [_ H2].
  rewrite (H2 (active sample.reg) eq_refl eq_refl). repeat split.
Defined.

Lemma Shutdown_present_providers_witness :
  let t := telemetry.mkTelemetry None (telemetry.MeterProvider sample.tel)
             None None None None None None None in
  ∃ mp, telemetry.MeterProvider t = Some mp
        ∧ telemetry.Shutdown t (sample.world sample.calm)
          = (Ok None, sdk.with_calls [sdk.MeterProvider_Shutdown mp]
                        (sample.world sample.calm)).
Proof.
  cbv zeta. eexists. split; [reflexivity |].
  destruct (Shutdown_present_providers
              (telemetry.mkTelemetry None (telemetry.MeterProvider sample.tel)
                 None None None None None None None) (sample.world sample.calm))
    as (Hw & err & He & Hnil).
  destruct (telemetry.Shutdown _ _) as [res σ']. cbn [fst snd] in *.
  rewrite He, Hw. f_equal. f_equal. apply Hnil. split; [discriminate | by intros mp _].
Defined.

(** ** The status the wrapper captures *)

Lemma response_send_status (b : string) (w : response) :
  wroteHeader (response_send b w).2 = wroteHeader w
  ∧ status (response_send b w).2 = status w.
Proof.
  unfold response_send. destruct (if isHEAD w then None else room w) as [c|];
    [destruct (_ <=? _)%nat |]; done.
Qed.

Lemma response_Write_status (b : string) (w : response) :
  (wroteHeader w = true →
   wroteHeader (response_Write b w).2 = true
   ∧ status (response_Write b w).2 = status w)
  ∧ (wroteHeader w = false →
     wroteHeader (response_Write b w).2 = true
     ∧ status (response_Write b w).2 = 200).
Proof.
  unfold response_Write, Go.bind, Go.get, Go.ret.
  split; intros Hw; cbv beta iota; rewrite Hw; cbv beta iota.
  - destruct (decide _); [done |]. destruct (negb _); [done |].
    destruct (response_send_status b w) as [-> ->]. done.
  - unfold response_WriteHeader. rewrite Hw. cbn.
    destruct (decide _); [done |]. cbn.
    match goal with
    | |- context [response_send b ?w1] => destruct (response_send_status b w1) as [-> ->]
    end. done.
Qed.

(** [Write] on the standard response never panics. *)
Lemma response_Write_returns (b : string) (w : response) :
  ∃ n err, (response_Write b w).1 = Ok (n, err).
Proof.
  assert (Hsend : ∀ w1, ∃ n err, (response_send b w1).1 = Ok (n, err)).
  { intros w1. unfold response_send.
    destruct (if isHEAD w1 then None else room w1) as [c |];
      [destruct (String.length b <=? c)%nat |]; by eexists _, _. }
  unfold response_Write, Go.bind, Go.get, Go.ret.
  destruct (wroteHeader w) eqn:Hw; cbv beta iota; rewrite ?Hw; cbv beta iota.
  - destruct (decide _); [by eexists _, _ |].
    destruct (negb _); [by eexists _, _ |]. apply Hsend.
  - unfold response_WriteHeader. rewrite Hw. cbn.
    destruct (decide _); [by eexists _, _ |]. cbn. apply Hsend.
Qed.

(** Once the header is sent, nothing a handler does changes the status. *)
Lemma exec_after_header (h : Script) (w : response) σ :
  wroteHeader w = true →
  wroteHeader (exec h (w, σ)).2.1 = true ∧ status (exec h (w, σ)).2.1 = status w.
Proof.
  revert w σ. induction h as [| v | key value k IH | key k IH | code k IH
    | b k IH | d k IH | t ctx spanName attrs k IH | s m k IH | t ctx len k IH];
    intros w σ Hw; cbn [exec];
    unfold Go.bind, Go.on_fst, Go.on_snd, Go.modify, Go.ret, Go.panic; cbn [fst snd].
  - done.
  - done.
  - match goal with
    | |- context [exec k (?w1, σ)] =>
        destruct (IH w1 σ) as [H1 H2]; [by destruct w |];
        split; [done | rewrite H2; by destruct w]
    end.
  - match goal with
    | |- context [exec k (?w1, σ)] =>
        destruct (IH w1 σ) as [H1 H2]; [by destruct w |];
        split; [done | rewrite H2; by destruct w]
    end.
  - cbn [WriteHeader response_ResponseWriter]. unfold response_WriteHeader.
    rewrite Hw. cbn [fst snd]. by apply IH.
  - cbn [Write response_ResponseWriter].
    destruct (response_Write_status b w) as [Ht _]. destruct (Ht Hw) as [H1 H2].
    destruct (response_Write_returns b w) as (n & err & Hr).
    destruct (response_Write b w) as [res w1]. cbn [fst snd] in *. subst res.
    cbn [fst snd]. destruct (IH n err w1 σ H1) as [H3 H4]. split; [done | congruence].
  - by apply IH.
  - destruct (sdk.Start t ctx spanName SpanKindInternal attrs σ) as [[r|v] σ'];
      cbn [fst snd]; [by apply IH | done].
  - destruct (span_call s m σ) as [[[]|v] σ']; cbn [fst snd]; [by apply IH | done].
  - destruct (telemetry.RecordMessageLength t ctx len σ) as [[[]|v] σ']; cbn [fst snd];
      [by apply IH | done].
Qed.

Lemma latest_status_without_WriteHeader (d : Z) (l : list WriterCall) :
  forallb (λ c, negb (further.is_WriteHeader c)) l = true → latest_status d l = d.
Proof.
  induction l as [| c l IH]; [done |]. cbn. intros Hl.
  apply andb_true_iff in Hl as [Hc Hl]. destruct c; [done | by apply IH].
Qed.

Lemma exec_status (h : Script) (w : response) σ :
  wroteHeader w = false →
  further.orderly (writer_calls h w σ) →
  (wroteHeader (exec h (w, σ)).2.1 = true →
   status (exec h (w, σ)).2.1 = latest_status 200 (writer_calls h w σ))
  ∧ (wroteHeader (exec h (w, σ)).2.1 = false →
     latest_status 200 (writer_calls h w σ) = 200).
Proof.
  revert w σ. induction h as [| v | key value k IH | key k IH | code k IH
    | b k IH | d k IH | t ctx spanName attrs k IH | s m k IH | t ctx len k IH];
    intros w σ Hw; cbn [exec writer_calls];
    unfold Go.bind, Go.on_fst, Go.on_snd, Go.modify, Go.ret, Go.panic; cbn [fst snd].
  - intros _. split; [congruence | done].
  - intros _. split; [congruence | done].
  - apply IH. by destruct w.
  - apply IH. by destruct w.
  - cbn [WriteHeader response_ResponseWriter]. intros Ho.
    cbn [further.orderly] in Ho. destruct Ho as [[Hlo Hhi] Hrest].
    assert (Hwh : response_WriteHeader code w
                  = (Ok tt, mkResponse (handlerHeader w) true code (handlerHeader w)
                              (body w) (room w) (isHEAD w))).
    { unfold response_WriteHeader. rewrite Hw.
      assert (E1 : (code <? 100)%Z || (999 <? code)%Z = false).
      { apply orb_false_iff. split; apply Z.ltb_ge; lia. }
      assert (E2 : (code <=? 199)%Z && negb (code =? 101)%Z = false).
      { apply andb_false_iff. left. apply Z.leb_gt. lia. }
      by rewrite E1, E2. }
    rewrite Hwh in *. cbn [fst snd] in *.
    match goal with
    | |- context [exec k (?w1, σ)] =>
        destruct (exec_after_header k w1 σ eq_refl) as [H1 H2]
    end.
    cbn [status] in H2. cbn [latest_status].
    rewrite (latest_status_without_WriteHeader _ _ Hrest).
    split; [by intros _ | congruence].
  - cbn [Write response_ResponseWriter].
    destruct (response_Write_status b w) as [_ Hf]. destruct (Hf Hw) as [H1 H2].
    destruct (response_Write_returns b w) as (n & err & Hr).
    destruct (response_Write b w) as [res w1]. cbn [fst snd] in *. subst res.
    cbn [fst snd further.orderly latest_status]. intros Hrest.
    destruct (exec_after_header (k n err) w1 σ H1) as [H3 H4].
    rewrite (latest_status_without_WriteHeader _ _ Hrest).
    split; [intros _; congruence | congruence].
  - by apply IH.
  - destruct (sdk.Start t ctx spanName SpanKindInternal attrs σ) as [[r|v] σ'];
      cbn [fst snd]; [by apply IH |]. intros _. split; [congruence | done].
  - destruct (span_call s m σ) as [[[]|v] σ']; cbn [fst snd]; [by apply IH |].
    intros _. split; [congruence | done].
  - destruct (telemetry.RecordMessageLength t ctx len σ) as [[[]|v] σ']; cbn [fst snd];
      [by apply IH |]. intros _. split; [congruence | done].
Qed.

(** X10.  When a handler sets the status the usual way ([WriteHeader] at
    most once, before any [Write], with a status from 200 to 999), the status
    the wrapper has captured is the status the standard response sends: with
    the header the handler caused to be sent, and otherwise with the header
    the server sends when the handler has returned. *)
Theorem captured_status_is_sent_status (h : Script) (room : option nat) (σ : sdk.World) :
  further.orderly (writer_calls h (main.newConnection room) σ) →
  let run := exec h (middleware.newResponseWriter (main.newConnection room), σ) in
  let w := middleware.inner run.2.1 in
  let final := ((if wroteHeader w then ret tt else response_WriteHeader 200) w).2 in
  (wroteHeader w = true → status w = middleware.statusCode run.2.1)
  ∧ (run.1 = Ok tt →
     wroteHeader final = true ∧ status final = middleware.statusCode run.2.1).
Proof.
  intros Ho. cbv zeta.
  rewrite exec_through_wrapper by (by apply int64_wrap_small).
  cbn [fst snd middleware.inner middleware.statusCode middleware.newResponseWriter
       middleware.StatusOK].
  unfold middleware.StatusOK.
  destruct (exec_status h (main.newConnection room) σ eq_refl Ho) as [Hsent Hnone].
  split; [exact Hsent |]. intros _.
  destruct (wroteHeader (exec h (main.newConnection room, σ)).2.1) eqn:Hw.
  - split; [exact Hw | by apply Hsent].
  - unfold response_WriteHeader. rewrite Hw. cbn. by rewrite Hnone.
Qed.

Lemma captured_status_is_sent_status_witness :
  let run := exec (sample.notFound (sample.get "/missing"))
               (middleware.newResponseWriter (main.newConnection None),
                sample.world sample.calm) in
  further.orderly (writer_calls (sample.notFound (sample.get "/missing"))
                     (main.newConnection None) (sample.world sample.calm))
  ∧ status (middleware.inner run.2.1) = 404
  ∧ middleware.statusCode run.2.1 = 404.
Proof.
  cbv zeta.
  assert (Ho : further.orderly (writer_calls (sample.notFound (sample.get "/missing"))
                                  (main.newConnection None) (sample.world sample.calm))).
  { vm_compute. repeat split; congruence. }
  split; [exact Ho |].
  destruct (captured_status_is_sent_status (sample.notFound (sample.get "/missing")) None
              (sample.world sample.calm) Ho) as [Hs _].
  split; [| reflexivity]. rewrite Hs; reflexivity.
Defined.

(** ** The middleware around any handler *)

Section MiddlewareAny.
Context {W : Type} `{ResponseWriter W}.
Variables (tel : telemetry.Telemetry) (act : metric.Instrument) (tr : sdk.Tracer).
Hypothesis Hactive : telemetry.ActiveRequests tel = Some act.
Hypothesis Htracer : telemetry.Tracer tel = Some tr.

Lemma TracingMiddleware_run_any (next : Handler) (w : W) (r : Request) σ :
  middleware.TracingMiddleware tel next W _ r (w, σ) =
  match (next (middleware.responseWriter W) _ (handler_request r σ);;
         after_handler tel r σ)
          (handler_writer w r σ, handler_world act tr r σ) with
  | (res, (rw, σ2)) =>
      (res, (middleware.inner rw,
             sdk.with_calls (sdk.calls σ2 ++ closing act r σ) σ2))
  end.
Proof.
  unfold middleware.TracingMiddleware, telemetry.StartRequest, telemetry.EndRequest.
  rewrite Hactive, Htracer.
  cbv beta iota zeta delta
    [ after_handler handler_writer handler_world handler_request
      opening closing request_trace_id request_span request_attributes
      sdk.with_calls sdk.with_next_span sdk.UpDownCounterAdd sdk.on_instrument
      sdk.log sdk.Start sdk.End sdk.on_span sdk.SetAttributes sdk.Now sdk.Since
      sdk.calls sdk.clock sdk.next_span sdk.globals sdk.outside
      middleware.newResponseWriter middleware.inner middleware.statusCode
      middleware.written middleware.responseWriter_ResponseWriter
      StoreHeader Header ContextWithSpan fst snd
      Go.bind Go.ret Go.on_fst Go.on_snd Go.modify Go.get Go.gets Go.panic
      Go.defer Go.via ].
  rewrite <- !app_assoc. cbn [app].
  match goal with
  | |- context [next ?a ?b ?c ?d] =>
      destruct (next a b c d) as [[[]|v] [[w' st wr] [c' l n g o]]]
  end.
  - destruct (decide (st >= 400));
    match goal with
    | |- context [telemetry.RecordRequest ?a ?b ?c ?d ?e ?f ?g] =>
        destruct (telemetry.RecordRequest a b c d e f g) as [[[]|v] [c'' l' n' g' o']]
    end; by rewrite <- !app_assoc.
  - by rewrite <- !app_assoc.
Qed.

End MiddlewareAny.

(** A request whose handler returns, call by call. *)
Lemma TracingMiddleware_returns {W : Type} `{ResponseWriter W}
    (tel : telemetry.Telemetry) (g : Registered) (next : Handler) (w : W)
    (r : Request) (σ : sdk.World) (rw : middleware.responseWriter W) (σ2 : sdk.World) :
  registered tel g →
  next (middleware.responseWriter W) _ (handler_request r σ)
    (handler_writer w r σ, handler_world (active g) (tracer g) r σ) = (Ok tt, (rw, σ2)) →
  middleware.TracingMiddleware tel next W _ r (w, σ)
  = (Ok tt,
     (middleware.inner rw,
      sdk.with_calls
        (sdk.calls σ2
         ++ finishing (requests g) (durations g) (errors g) (request_span r σ)
              (Method r) (URL_Path r) (middleware.statusCode rw) (middleware.written rw)
              (sdk.clock σ2 - sdk.clock σ)
         ++ closing (active g) r σ) σ2)).
Proof.
  intros Hreg Hnext. pose proof Hreg as (_ & _ & Hact & _ & Htr).
  rewrite (TracingMiddleware_run_any tel _ _ Hact Htr). unfold Go.bind.
  rewrite Hnext. rewrite (after_handler_run tel g r σ rw σ2 Hreg).
  unfold sdk.with_calls. cbn [sdk.calls sdk.clock sdk.next_span sdk.globals sdk.outside].
  by rewrite <- app_assoc.
Qed.

(** ** Durations *)

Lemma exec_clock {W : Type} `{ResponseWriter W} (h : Script) (w : W) σ :
  sdk.clock σ <= sdk.clock (exec h (w, σ)).2.2.
Proof.
  revert w σ. induction h as [| v | key value k IH | key k IH | code k IH
    | b k IH | d k IH | t ctx spanName attrs k IH | s m k IH | t ctx len k IH];
    intros w σ; cbn [exec];
    unfold Go.bind, Go.on_fst, Go.on_snd, Go.modify, Go.ret, Go.panic; cbn [fst snd].
  - lia.
  - lia.
  - apply IH.
  - apply IH.
  - destruct (WriteHeader code w) as [[[]|v] w1]; cbn [fst snd]; [apply IH | lia].
  - destruct (Write b w) as [[[n err]|v] w1]; cbn [fst snd]; [apply IH | lia].
  - etransitivity; [| apply IH]. cbn. lia.
  - destruct t as [t|]; cbn; [| lia]. etransitivity; [| apply IH]. cbn. lia.
  - destruct s as [| hd sc]; destruct m; cbn; try (etransitivity; [| apply IH]; cbn; lia).
  - unfold telemetry.RecordMessageLength, sdk.RecordInt64, sdk.on_instrument.
    destruct (telemetry.MessageLength t); cbn; [| lia].
    etransitivity; [| apply IH]. cbn. lia.
Qed.

(** X11.  The duration of a request is the time that passed between the
    entry into the middleware and the return of the wrapped handler; it is
    never negative.  The histogram gets it in full, while the span attribute
    http.duration_ms gets its whole milliseconds only, so a request shorter
    than one millisecond has the attribute 0. *)
Theorem duration_recorded {W : Type} `{ResponseWriter W}
    (tel : telemetry.Telemetry) (g : Registered)
    (next : Request → Script) (w : W) (r : Request) (σ : sdk.World) :
  registered tel g →
  let out := middleware.TracingMiddleware tel (HandlerFunc next) W _ r (w, σ) in
  let run := handler_run (active g) (tracer g) next w r σ in
  let d := sdk.clock run.2.2 - sdk.clock σ in
  let ms := time.Milliseconds d in
  0 <= d
  ∧ ms * 1000000 <= d < (ms + 1) * 1000000
  ∧ (d < 1000000 → ms = 0)
  ∧ (run.1 = Ok tt →
     In (sdk.Span_SetAttributes (request_span r σ)
           [ attribute.Int "http.status_code" (middleware.statusCode run.2.1);
             attribute.Int64 "http.response_size" (middleware.written run.2.1);
             attribute.Float64 "http.duration_ms" (float64_of_int64 ms) ])
        (new_calls σ out.2.2)
     ∧ In (sdk.Float64Histogram_Record (durations g) (Duration_Seconds d)
             [ attribute.String "http.method" (Method r);
               attribute.String "http.route" (URL_Path r);
               attribute.Int "http.status_code" (middleware.statusCode run.2.1) ])
          (new_calls σ out.2.2)).
Proof.
  intros Hreg out run d ms.
  assert (Hd : 0 <= d).
  { subst d run. unfold handler_run.
    pose proof (exec_clock (next (handler_request r σ)) (handler_writer w r σ)
                  (handler_world (active g) (tracer g) r σ)) as Hc.
    change (sdk.clock (handler_world (active g) (tracer g) r σ))
      with (sdk.clock σ) in Hc.
    lia. }
  assert (Hms : ms * 1000000 <= d < (ms + 1) * 1000000).
  { subst ms. unfold time.Milliseconds.
    pose proof (Z.quot_rem' d 1000000) as Hq.
    pose proof (Z.rem_bound_pos d 1000000 Hd ltac:(lia)) as Hr. lia. }
  split; [exact Hd |]. split; [exact Hms |]. split; [intros Hlt; lia |].
  intros Hok. subst out.
  destruct (handler_run_calls (active g) (tracer g) next w r σ) as [E _].
  fold run in E. unfold handler_run in run.
  destruct run as [res [rw σ2]] eqn:Hrun. cbn [fst snd] in *. subst res.
  rewrite (TracingMiddleware_returns tel g (HandlerFunc next) w r σ rw σ2 Hreg Hrun).
  cbn [fst snd]. unfold sdk.with_calls. cbn [sdk.calls]. rewrite E.
  rewrite <- !app_assoc. unfold new_calls. cbn [sdk.calls]. rewrite drop_app_length.
  unfold finishing, request_metrics. fold d. fold ms.
  split; rewrite !in_app_iff; cbn [In]; tauto.
Qed.

Lemma duration_recorded_witness :
  registered sample.tel sample.reg ∧
  let σ := sample.world sample.calm in
  let out := middleware.TracingMiddleware sample.tel (HandlerFunc sample.render)
               response _ (sample.get "/") (main.newConnection None, σ) in
  In (sdk.Float64Histogram_Record (durations sample.reg) (Duration_Seconds 1500000)
        [ attribute.String "http.method" "GET";
          attribute.String "http.route" "/";
          attribute.Int "http.status_code" 200 ])
     (new_calls σ out.2.2).
Proof.
  split; [by repeat split |]. cbv zeta.
  destruct (duration_recorded sample.tel sample.reg sample.render
              (main.newConnection None) (sample.get "/") (sample.world sample.calm)
              ltac:(by repeat split)) as (_ & _ & _ & Hin).
  destruct (Hin eq_refl) as [_ Hh]. exact Hh.
Defined.

(** ** Health and readiness *)

Lemma response_WriteHeader_sends (code : Z) (w : response) :
  wroteHeader w = false → (200 <= code <= 999)%Z →
  WriteHeader code w
  = (Ok tt, mkResponse (handlerHeader w) true code (handlerHeader w) (body w) (room w)
              (isHEAD w)).
Proof.
  intros Hw Hc. cbn [WriteHeader response_ResponseWriter].
  unfold response_WriteHeader. rewrite Hw.
  destruct (code <? 100)%Z eqn:E1; [lia |].
  destruct (999 <? code)%Z eqn:E2; [lia |]. cbn [orb].
  destruct (code <=? 199)%Z eqn:E3; [lia |]. done.
Qed.

Lemma exec_quiet {W : Type} `{ResponseWriter W} (h : Script) :
  further.quiet h →
  ∀ (w : W) σ σ0,
    exec h (w, σ) = ((exec h (w, σ0)).1, ((exec h (w, σ0)).2.1, σ)).
Proof.
  induction h as [| v | key value k IH | key k IH | code k IH
    | b k IH | d k IH | t ctx spanName attrs k IH | s m k IH | t ctx len k IH];
    cbn [further.quiet exec]; intros Hq w σ σ0; try done;
    unfold Go.bind, Go.on_fst, Go.on_snd, Go.modify, Go.ret, Go.panic; cbn [fst snd].
  - by apply IH.
  - by apply IH.
  - destruct (WriteHeader code w) as [[[]|v] w1]; cbn [fst snd]; [by apply IH | done].
  - destruct (Write b w) as [[[n err]|v] w1]; cbn [fst snd]; [by apply IH | done].
Qed.

(** X12.  The readiness handler answers the same with and without
    telemetry: the same calls on the response with the same outcome.
    Telemetry only adds the attribute readiness.ready to the span of the
    request's context, when there is one.  On the standard response the
    status is 200 when the templates are loaded and 503 when they are
    not. *)
Theorem readiness_ignores_telemetry {W : Type} `{ResponseWriter W}
    (templates : option (list string)) (tel : option telemetry.Telemetry)
    (r : Request) (w : W) (σ : sdk.World) :
  let out := exec (main.readinessHandler templates tel r) (w, σ) in
  let bare := exec (main.readinessHandler templates None r) (w, σ) in
  out.1 = bare.1 ∧ out.2.1 = bare.2.1 ∧ bare.2.2 = σ
  ∧ out.2.2
    = sdk.with_calls
        (sdk.calls σ ++
         match tel, SpanFromContext (Context r) with
         | Some _, recordingSpan handle sc =>
             [sdk.Span_SetAttributes (recordingSpan handle sc)
                [attribute.Bool "readiness.ready" (bool_decide (templates ≠ None))]]
         | _, _ => []
         end) σ
  ∧ ∀ room,
      let sent := (exec (main.readinessHandler templates tel r)
                     (main.newConnection room, σ)).2.1 in
      wroteHeader sent = true ∧ (status sent = 200 ↔ templates ≠ None)
      ∧ (status sent = 503 ↔ templates = None).
Proof.
  cbv zeta.
  set (respond := SetHeader "Content-Type" "application/json"
                    (if bool_decide (templates ≠ None)
                     then DoWriteHeader 200
                            (DoWrite (main.json "{'status':'ready','checks':{'templates':'ok'}}")
                               (λ _ _, Return))
                     else DoWriteHeader 503
                            (DoWrite (main.json "{'status':'not ready','checks':{'templates':'failed'}}")
                               (λ _ _, Return)))).
  assert (Hq : further.quiet respond).
  { subst respond. cbn. by destruct (bool_decide _). }
  assert (Hnil : main.readinessHandler templates None r = respond).
  { unfold main.readinessHandler. by destruct (decide (None ≠ None)). }
  assert (Hsent : ∀ room τ,
    wroteHeader (exec respond (main.newConnection room, τ)).2.1 = true
    ∧ (status (exec respond (main.newConnection room, τ)).2.1 = 200 ↔ templates ≠ None)
    ∧ (status (exec respond (main.newConnection room, τ)).2.1 = 503 ↔ templates = None)).
  { intros room τ. subst respond. destruct templates as [names|].
    - rewrite bool_decide_true by done.
      cbn [exec]. unfold Go.bind, Go.on_fst, Go.modify. cbn [fst snd].
      rewrite response_WriteHeader_sends by (done || lia). cbn [fst snd].
      match goal with
      | |- context [Write ?b ?w1] =>
          destruct (response_Write_status b w1) as [Hw _];
          destruct (Hw eq_refl) as [Hh Hs];
          change (Write b w1) with (response_Write b w1);
          destruct (response_Write b w1) as [[[n err]|v] w2]
      end; cbn [exec fst snd] in *; unfold Go.ret, Go.panic; cbn [fst snd];
        rewrite Hh, Hs; cbn [status]; repeat split; done.
    - rewrite bool_decide_false by (intros ?; done).
      cbn [exec]. unfold Go.bind, Go.on_fst, Go.modify. cbn [fst snd].
      rewrite response_WriteHeader_sends by (done || lia). cbn [fst snd].
      match goal with
      | |- context [Write ?b ?w1] =>
          destruct (response_Write_status b w1) as [Hw _];
          destruct (Hw eq_refl) as [Hh Hs];
          change (Write b w1) with (response_Write b w1);
          destruct (response_Write b w1) as [[[n err]|v] w2]
      end; cbn [exec fst snd] in *; unfold Go.ret, Go.panic; cbn [fst snd];
        rewrite Hh, Hs; cbn [status]; repeat split; done. }
  rewrite Hnil.
  assert (Hbare : (exec respond (w, σ)).2.2 = σ).
  { by rewrite (exec_quiet respond Hq w σ σ). }
  destruct tel as [t|].
  - assert (Htel : main.readinessHandler templates (Some t) r
                   = OnSpan (SpanFromContext (Context r))
                       (SetAttributes
                          [attribute.Bool "readiness.ready" (bool_decide (templates ≠ None))])
                       respond).
    { unfold main.readinessHandler.
      destruct (decide (Some t ≠ None)) as [_ | Hn]; [done | by destruct Hn]. }
    rewrite Htel. cbn [exec]. unfold Go.bind, Go.on_snd. cbn [span_call fst snd].
    destruct (SpanFromContext (Context r)) as [| handle sc]; cbn [sdk.SetAttributes sdk.on_span].
    + cbn [Go.ret fst snd]. rewrite app_nil_r.
      split; [done |]. split; [done |]. split; [done |].
      split; [by rewrite Hbare; destruct σ |]. intros room. apply Hsent.
    + unfold sdk.log, Go.modify. cbn [fst snd].
      set (σ1 := sdk.with_calls _ σ).
      rewrite (exec_quiet respond Hq w σ1 σ). cbn [fst snd].
      split; [done |]. split; [done |]. split; [done |]. split; [done |].
      intros room. apply Hsent.
  - rewrite Hnil, app_nil_r.
    split; [done |]. split; [done |]. split; [done |].
    split; [by rewrite Hbare; destruct σ |]. intros room. apply Hsent.
Qed.

Lemma readiness_ignores_telemetry_witness :
  let sent := (exec (main.readinessHandler None (Some sample.tel) (sample.get "/ready"))
                 (main.newConnection None, sample.world sample.calm)).2.1 in
  status sent = 503
  ∧ body sent = main.json "{'status':'not ready','checks':{'templates':'failed'}}".
Proof.
  cbv zeta.
  destruct (readiness_ignores_telemetry None (Some sample.tel) (sample.get "/ready")
              (main.newConnection None) (sample.world sample.calm))
    as (_ & _ & _ & _ & Hs).
  destruct (Hs None) as (_ & _ & H503).
  split; [by apply H503 | reflexivity].
Defined.

(** X13.  With telemetry on, a health check is a traced request like any
    other, for the router as a whole is wrapped: on every response writer
    whose [WriteHeader] and [Write] return, a request to /health counts as
    an active request, opens the request span, stores the trace identifier
    and the JSON content type in the header map, and is finished with
    status 200, with the number of bytes [Write] answered as the response
    size, and with the request metrics of the route /health; the span is
    ended and the gauge taken back.  On the response of the standard server
    the header is sent with status 200, the trace identifier and the
    content type, whatever the method of the request and the state of the
    connection. *)
Theorem health_is_instrumented (lib : pages.Library) (templates : option (list string))
    (tel : telemetry.Telemetry) (g : Registered) (r : Request) (σ : sdk.World) :
  registered tel g →
  URL_Path r = "/health" →
  let text := main.json "{'status':'healthy','service':'sample-web-app'}" in
  (∀ (W : Type) (RW : ResponseWriter W) (w w2 w3 : W) (n : Z) (err : error),
     let w0 := middleware.inner (handler_writer w r σ) in
     let w1 := StoreHeader (Header_Set "Content-Type" "application/json" (Header w0)) w0 in
     WriteHeader 200 w1 = (Ok tt, w2) →
     Write text w2 = (Ok (n, err), w3) →
     let out := pages.handler lib templates (Some tel) W RW r (w, σ) in
     out.1 = Ok tt ∧ out.2.1 = w3
     ∧ new_calls σ out.2.2
       = (opening (active g) (tracer g) r σ
          ++ finishing (requests g) (durations g) (errors g) (request_span r σ)
               (Method r) "/health" 200 (middleware.int64_wrap n)
               (sdk.clock out.2.2 - sdk.clock σ)
          ++ closing (active g) r σ)%list)
  ∧ ∀ room,
      let sent := (main.serve (pages.handler lib templates (Some tel)) room r σ).1 in
      sent.1 = Ok tt ∧ wroteHeader sent.2 = true ∧ status sent.2 = 200
      ∧ Header_Get "X-Trace-ID" (sentHeader sent.2) = request_trace_id r σ
      ∧ Header_Get "Content-Type" (sentHeader sent.2) = "application/json".
Proof.
  intros Hreg Hp text.
  set (σ1 := handler_world (active g) (tracer g) r σ).
  assert (Hrun : ∀ (W : Type) (RW : ResponseWriter W) (w w2 w3 : W) (n : Z) (err : error),
    let w0 := middleware.inner (handler_writer w r σ) in
    let w1 := StoreHeader (Header_Set "Content-Type" "application/json" (Header w0)) w0 in
    WriteHeader 200 w1 = (Ok tt, w2) →
    Write text w2 = (Ok (n, err), w3) →
    pages.handler lib templates (Some tel) W RW r (w, σ)
    = (Ok tt,
       (w3, sdk.with_calls
              (sdk.calls σ1
               ++ finishing (requests g) (durations g) (errors g) (request_span r σ)
                    (Method r) (URL_Path r) 200 (middleware.int64_wrap n)
                    (sdk.clock σ1 - sdk.clock σ)
               ++ closing (active g) r σ) σ1))).
  { intros W RW w w2 w3 n err w0 w1 HWH HW.
    unfold pages.handler, main.handler.
    erewrite (TracingMiddleware_returns tel g _ w r σ
                (middleware.mkResponseWriter w3 200 (middleware.int64_wrap n)) σ1 Hreg);
      [reflexivity |].
    unfold main.mux. cbn [handler_request WithContext URL_Path]. rewrite Hp.
    rewrite decide_False by done. rewrite decide_True by done.
    unfold HandlerFunc. rewrite exec_through_wrapper by done.
    cbv zeta. unfold main.healthHandler. fold text.
    cbn [exec writer_calls]. unfold Go.bind, Go.on_fst, Go.modify. cbn [fst snd].
    fold w0. fold w1. rewrite HWH. cbn [fst snd]. rewrite HW.
    cbn [fst snd Go.ret latest_status bytes_written handler_writer
         middleware.newResponseWriter middleware.written middleware.statusCode].
    by rewrite Z.add_0_l, Z.add_0_r. }
  split.
  - intros W RW w w2 w3 n err w0 w1 HWH HW out. subst out.
    rewrite (Hrun W RW w w2 w3 n err HWH HW). cbn [fst snd]. rewrite Hp.
    split; [done |]. split; [done |].
    unfold new_calls, σ1, handler_world.
    cbn [sdk.calls sdk.clock sdk.with_calls sdk.with_next_span].
    rewrite <- !app_assoc. by rewrite drop_app_length.
  - intros room. cbv zeta. unfold main.serve, main.serve_on.
    set (w0 := middleware.inner (handler_writer (main.connection r room) r σ)).
    set (w1 := StoreHeader (Header_Set "Content-Type" "application/json" (Header w0)) w0).
    set (w2 := mkResponse (handlerHeader w1) true 200 (handlerHeader w1) (body w1)
                 (http.room w1) (isHEAD w1)).
    assert (HWH : WriteHeader 200 w1 = (Ok tt, w2))
      by (apply response_WriteHeader_sends; [done | lia]).
    destruct (response_Write_returns text w2) as (n & err & HW1).
    destruct (response_Write_status text w2) as [Hst _].
    destruct (Hst eq_refl) as [Hwrote Hstatus].
    destruct (response_Write_keeps "X-Trace-Id" text w2) as (_ & Hk1 & _).
    destruct (response_Write_keeps "Content-Type" text w2) as (_ & Hk2 & _).
    destruct (Hk1 eq_refl) as [_ Hid]. destruct (Hk2 eq_refl) as [_ Hct].
    destruct (response_Write text w2) as [res w3] eqn:HW. cbn [fst snd] in *. subst res.
    rewrite (Hrun response _ (main.connection r room) w2 w3 n err HWH HW).
    rewrite Hwrote. cbn [fst snd Go.ret]. rewrite Hstatus.
    split; [done |]. split; [done |]. split; [done |].
    unfold Header_Get.
    change (CanonicalMIMEHeaderKey "X-Trace-ID") with "X-Trace-Id".
    change (CanonicalMIMEHeaderKey "Content-Type") with "Content-Type".
    rewrite Hid, Hct. unfold w2, w1, w0, handler_writer, main.connection.
    cbn [sentHeader handlerHeader StoreHeader Header response_ResponseWriter
         middleware.inner middleware.newResponseWriter].
    unfold Header_Set.
    change (CanonicalMIMEHeaderKey "X-Trace-ID") with "X-Trace-Id".
    change (CanonicalMIMEHeaderKey "Content-Type") with "Content-Type".
    rewrite lookup_insert_eq, lookup_insert_ne by (intros ?; discriminate).
    rewrite lookup_insert_eq. split; reflexivity.
Qed.

Lemma health_is_instrumented_witness :
  let r := mkRequest "HEAD" "/health" "/health" "localhost:8080" "127.0.0.1:50000" false
             ∅ None in
  let σ := sample.world sample.calm in
  let out := main.serve (pages.handler demo.lib (Some ["index.html"; "echo.html"])
                           (Some sample.tel)) (Some 0%nat) r σ in
  status out.1.2 = 200
  ∧ In (sdk.Span_SetAttributes (request_span r σ)
          [ attribute.Int "http.status_code" 200;
            attribute.Int64 "http.response_size" 47;
            attribute.Float64 "http.duration_ms" (float64_of_int64 0) ])
       (new_calls σ out.2).
Proof.
  cbv zeta.
  destruct (health_is_instrumented demo.lib (Some ["index.html"; "echo.html"])
              sample.tel sample.reg
              (mkRequest "HEAD" "/health" "/health" "localhost:8080" "127.0.0.1:50000"
                 false ∅ None)
              (sample.world sample.calm)) as (_ & Hsent).
  - vm_compute. repeat split; reflexivity.
  - reflexivity.
  - destruct (Hsent (Some 0%nat)) as (_ & _ & Hs & _).
    split; [exact Hs |]. vm_compute. tauto.
Defined.

(** ** The rendering handlers *)

Lemma Start_run tr ctx spanName kind attrs σ :
  sdk.Start (Some tr) ctx spanName kind attrs σ
  = (Ok (Some (further.child ctx σ 0), further.child ctx σ 0),
     further.after 1
       [sdk.Tracer_Start tr ctx spanName kind attrs (further.child ctx σ 0)] σ).
Proof. by destruct σ. Qed.

Lemma Start_nil ctx spanName kind attrs σ :
  sdk.Start None ctx spanName kind attrs σ = (Panic sdk.nil_dereference, σ).
Proof. reflexivity. Qed.

Lemma RecordMessageLength_nil t ctx len σ :
  telemetry.MessageLength t = None →
  telemetry.RecordMessageLength t ctx len σ = (Panic sdk.nil_dereference, σ).
Proof. intros E. unfold telemetry.RecordMessageLength. by rewrite E. Qed.

Lemma on_span_run s c σ :
  sdk.on_span s c σ = (Ok tt, further.after 0 (further.on_span s c) σ).
Proof.
  destruct σ, s; unfold further.after; cbn; [by rewrite app_nil_r | done].
Qed.

Lemma SetStatus_run s code description σ :
  sdk.SetStatus s code description σ
  = (Ok tt, further.after 0 (further.on_span s (sdk.Span_SetStatus s code description)) σ).
Proof. apply on_span_run. Qed.

Lemma SetAttributes_run s attrs σ :
  sdk.SetAttributes s attrs σ
  = (Ok tt, further.after 0 (further.on_span s (sdk.Span_SetAttributes s attrs)) σ).
Proof. apply on_span_run. Qed.

Lemma RecordError_run s err σ :
  sdk.RecordError s err σ
  = (Ok tt, further.after 0 (further.on_span s (sdk.Span_RecordError s err)) σ).
Proof. apply on_span_run. Qed.

Lemma End_run s σ :
  sdk.End s σ = (Ok tt, further.after 0 (further.on_span s (sdk.Span_End s)) σ).
Proof. apply on_span_run. Qed.

Lemma RecordMessageLength_run t ml ctx len σ :
  telemetry.MessageLength t = Some ml →
  telemetry.RecordMessageLength t ctx len σ
  = (Ok tt, further.after 0 [sdk.Int64Histogram_Record ml len []] σ).
Proof. intros E. unfold telemetry.RecordMessageLength. rewrite E. by destruct σ. Qed.

Lemma after_after k k' l l' σ :
  further.after k l (further.after k' l' σ) = further.after (k + k') (l' ++ l) σ.
Proof.
  destruct σ. unfold further.after, sdk.with_calls, sdk.with_next_span.
  cbn [sdk.calls sdk.clock sdk.next_span sdk.globals sdk.outside].
  f_equal; [by rewrite app_assoc | lia].
Qed.

Lemma child_after ctx k l σ j :
  further.child ctx (further.after k l σ) j = further.child ctx σ (j + k).
Proof.
  destruct σ. unfold further.child, further.after, sdk.with_calls, sdk.with_next_span.
  cbn [sdk.calls sdk.clock sdk.next_span sdk.globals sdk.outside].
  by replace (j + (k + next_span))%nat with (j + k + next_span)%nat by lia.
Qed.

Lemma SpanFromContext_Some s : SpanFromContext (Some s) = s.
Proof. reflexivity. Qed.

Lemma on_span_child ctx σ k c : further.on_span (further.child ctx σ k) c = [c].
Proof. reflexivity. Qed.

Lemma calls_after k l σ : sdk.calls (further.after k l σ) = (sdk.calls σ ++ l)%list.
Proof. reflexivity. Qed.

#[global] Arguments further.after : simpl never.
#[global] Arguments further.child : simpl never.

(** Case analysis on what a library function does. *)
Ltac lib_case :=
  match goal with
  | |- context [pages.http_NotFound ?l ?W ?i ?r ?w] =>
      destruct (pages.http_NotFound l W i r w) as [[[]|?] ?]
  | |- context [pages.http_Error ?l ?W ?i ?m ?c ?w] =>
      destruct (pages.http_Error l W i m c w) as [[[]|?] ?]
  | |- context [pages.http_Redirect ?l ?W ?i ?r ?u ?c ?w] =>
      destruct (pages.http_Redirect l W i r u c w) as [[[]|?] ?]
  | |- context [pages.ExecuteTemplate ?l ?W ?i ?n ?d ?w] =>
      destruct (pages.ExecuteTemplate l W i n d w) as [[[?|]|?] ?]
  end.

Ltac template_case :=
  match goal with
  | |- context [pages.ExecuteTemplate ?l ?W ?i ?n ?d ?w] =>
      destruct (pages.ExecuteTemplate l W i n d w) as [[[?|]|?] ?]
  end.

(** Run a handler of the package step by step. *)
Ltac run_calls :=
  repeat (progress (
    unfold Go.bind, Go.ret, Go.on_fst, Go.on_snd, Go.panic, Go.defer;
    cbv beta iota; cbn [fst snd];
    rewrite ?Start_run, ?SetStatus_run, ?SetAttributes_run, ?RecordError_run,
      ?End_run, ?SpanFromContext_Some, ?after_after, ?child_after, ?on_span_child,
      ?Start_nil;
    try erewrite RecordMessageLength_run by eassumption;
    try rewrite RecordMessageLength_nil by assumption)).

Ltac run_page :=
  run_calls; repeat (lib_case; run_calls);
  rewrite <- ?app_assoc; cbn [app Nat.add].

(** X14.  The home page with telemetry: the client is answered exactly as
    without telemetry, however the request ends (not found, rendered,
    template error, panic of a library function or of a nil template set).
    Telemetry adds one span render-home-template, child of the span of the
    request context, which is ended on every path; a path other than / and a
    template error are marked on that child span, not on the request span.
    Without telemetry the handler makes no call at all, and with a nil
    tracer it panics before it touches the response. *)
Theorem homeHandler_child_span {W : Type} `{ResponseWriter W} (lib : pages.Library)
    (templates : option (list string)) (t : telemetry.Telemetry)
    (r : Request) (w : W) (σ : sdk.World) :
  let bare := pages.homeHandler lib templates None W _ r (w, σ) in
  let out := pages.homeHandler lib templates (Some t) W _ r (w, σ) in
  let span := further.child (Context r) σ 0 in
  let marks :=
    if decide (URL_Path r ≠ "/")
    then [ sdk.Span_SetStatus span Error "not found";
           sdk.Span_SetAttributes span [attribute.String "error.type" "not_found"] ]
    else match (pages.execute lib templates "index.html" None (w, σ)).1 with
         | Ok (Some e) => [ sdk.Span_RecordError span e;
                            sdk.Span_SetStatus span Error "template execution failed" ]
         | _ => []
         end in
  bare.2.2 = σ
  ∧ (telemetry.Tracer t = None → out = (Panic sdk.nil_dereference, (w, σ)))
  ∧ ∀ tr, telemetry.Tracer t = Some tr →
      out.1 = bare.1 ∧ out.2.1 = bare.2.1
      ∧ out.2.2
        = further.after 1
            ([ sdk.Tracer_Start tr (Context r) "render-home-template" SpanKindInternal
                 [attribute.String "template.name" "index.html"] span ]
             ++ marks ++ [sdk.Span_End span]) σ.
Proof.
  cbv zeta. unfold pages.homeHandler, pages.execute.
  split; [| split].
  - destruct (decide (URL_Path r ≠ "/")); [| destruct templates as [names |]];
      run_page; done.
  - intros ->. reflexivity.
  - intros tr ->.
    destruct (decide (URL_Path r ≠ "/")); [| destruct templates as [names |]];
      run_page; done.
Qed.

Lemma homeHandler_child_span_witness :
  let σ := sample.world sample.calm in
  let out := pages.homeHandler demo.lib (Some ["index.html"]) (Some sample.tel)
               response _ (sample.get "/missing") (main.newConnection None, σ) in
  status out.2.1 = 404
  ∧ opened (new_calls σ out.2.2) = 1%nat ∧ closed (new_calls σ out.2.2) = 1%nat.
Proof.
  cbv zeta.
  destruct (homeHandler_child_span demo.lib (Some ["index.html"]) sample.tel
              (sample.get "/missing") (main.newConnection None)
              (sample.world sample.calm)) as (_ & _ & Hrun).
  destruct (Hrun (tracer sample.reg) eq_refl) as (_ & Hw & Hσ).
  rewrite Hw, Hσ. repeat split.
Defined.

(** X15.  The echo handler with telemetry, when it turns the request away.
    A request that is not a POST is redirected to / with status 303 as
    without telemetry, and the method is noted on the span of the request
    context; no span is started.  A POST whose form does not parse is
    answered 400 Bad Request: the span parse-form is started, given the
    error and ended before the answer is written, and no template is
    rendered. *)
Theorem echoHandler_turns_away {W : Type} `{ResponseWriter W} (lib : pages.Library)
    (templates : option (list string)) (t : telemetry.Telemetry)
    (r : Request) (w : W) (σ : sdk.World) :
  let out := pages.echoHandler lib templates (Some t) W _ r (w, σ) in
  let bare := pages.echoHandler lib templates None W _ r (w, σ) in
  let ctx_span := SpanFromContext (Context r) in
  let parse_span := further.child (Context r) σ 0 in
  (Method r ≠ "POST" →
   let answer := pages.http_Redirect lib W _ r "/" 303 w in
   bare = (answer.1, (answer.2, σ))
   ∧ out = (answer.1,
            (answer.2,
             further.after 0
               (further.on_span ctx_span
                  (sdk.Span_SetAttributes ctx_span
                     [ attribute.String "redirect.reason" "method_not_allowed";
                       attribute.String "http.method" (Method r) ])) σ)))
  ∧ (Method r = "POST" →
     ∀ tr e, telemetry.Tracer t = Some tr → (pages.ParseForm lib r).1 = Some e →
       let answer := pages.http_Error lib W _ "Bad Request" 400 w in
       out = (answer.1,
              (answer.2,
               further.after 1
                 [ sdk.Tracer_Start tr (Context r) "parse-form" SpanKindInternal []
                     parse_span;
                   sdk.Span_RecordError parse_span e;
                   sdk.Span_SetStatus parse_span Error "form parse failed";
                   sdk.Span_End parse_span ] σ))).
Proof.
  cbv zeta. unfold pages.echoHandler, pages.MethodPost, pages.StatusSeeOther,
    pages.StatusBadRequest.
  split.
  - intros Hm. destruct (decide (Method r ≠ "POST")) as [_ | Hn]; [| done].
    split; run_page; done.
  - intros Hm tr e -> He. destruct (decide (Method r ≠ "POST")) as [Hn | _]; [done |].
    run_calls. rewrite He. run_page; done.
Qed.

Lemma echoHandler_turns_away_witness :
  let σ := sample.world sample.calm in
  let out := pages.echoHandler demo.lib (Some ["echo.html"]) (Some sample.tel)
               response _ (demo.post "hi" true) (main.newConnection None, σ) in
  status out.2.1 = 400
  ∧ opened (new_calls σ out.2.2) = 1%nat ∧ closed (new_calls σ out.2.2) = 1%nat.
Proof.
  cbv zeta.
  destruct (echoHandler_turns_away demo.lib (Some ["echo.html"]) sample.tel
              (demo.post "hi" true) (main.newConnection None)
              (sample.world sample.calm)) as (_ & Hpost).
  rewrite (Hpost eq_refl (tracer sample.reg) "invalid URL escape" eq_refl eq_refl).
  repeat split.
Defined.

(** X16.  The echo handler with telemetry on a POST whose form parses, the
    form being the one [FormValue] would build itself.  The client is
    answered exactly as without telemetry.  The calls are, in this order:
    the span parse-form started and ended; the length of the message in
    bytes and whether it is empty, as attributes of the span of the request
    context; that length recorded once in the message length histogram; the
    span render-echo-template, a second child of the request context,
    started with that length, marked when the template fails and ended on
    every path.  With a nil histogram the handler panics before it renders
    anything and leaves no span open. *)
Theorem echoHandler_accepts {W : Type} `{ResponseWriter W} (lib : pages.Library)
    (templates : option (list string)) (t : telemetry.Telemetry) (tr : sdk.Tracer)
    (r : Request) (w : W) (σ : sdk.World) :
  Method r = "POST" →
  telemetry.Tracer t = Some tr →
  (pages.ParseForm lib r).1 = None →
  pages.ParseMultipartForm lib r = (pages.ParseForm lib r).2 →
  let out := pages.echoHandler lib templates (Some t) W _ r (w, σ) in
  let bare := pages.echoHandler lib templates None W _ r (w, σ) in
  let message := pages.Values_Get (pages.ParseForm lib r).2 "message" in
  let len := Z.of_nat (String.length message) in
  let ctx_span := SpanFromContext (Context r) in
  let parse_span := further.child (Context r) σ 0 in
  let render_span := further.child (Context r) σ 1 in
  let parsed :=
    ([ sdk.Tracer_Start tr (Context r) "parse-form" SpanKindInternal [] parse_span;
       sdk.Span_End parse_span ]
     ++ further.on_span ctx_span
          (sdk.Span_SetAttributes ctx_span
             [ attribute.Int "echo.message_length" len;
               attribute.Bool "echo.message_empty" (bool_decide (message = "")) ]))%list in
  let marks :=
    match (pages.execute lib templates "echo.html" (Some message) (w, σ)).1 with
    | Ok (Some e) => [ sdk.Span_RecordError render_span e;
                       sdk.Span_SetStatus render_span Error "template execution failed" ]
    | _ => []
    end in
  bare.2.2 = σ
  ∧ (telemetry.MessageLength t = None →
     out = (Panic sdk.nil_dereference, (w, further.after 1 parsed σ)))
  ∧ ∀ ml, telemetry.MessageLength t = Some ml →
      out.1 = bare.1 ∧ out.2.1 = bare.2.1
      ∧ out.2.2
        = further.after 2
            (parsed
             ++ [ sdk.Int64Histogram_Record ml len [];
                  sdk.Tracer_Start tr (Context r) "render-echo-template" SpanKindInternal
                    [ attribute.String "template.name" "echo.html";
                      attribute.Int "data.message_length" len ] render_span ]
             ++ marks ++ [sdk.Span_End render_span]) σ.
Proof.
  intros Hm Htr Hparse Hform. cbv zeta.
  assert (Hempty : ∀ m : string, (Z.of_nat (String.length m) =? 0)%Z = bool_decide (m = "")).
  { intros [| a m]; [done |]. rewrite bool_decide_false by done.
    apply Z.eqb_neq. cbn [String.length]. lia. }
  unfold pages.echoHandler, pages.MethodPost, pages.FormValue, pages.execute.
  rewrite Htr, Hform.
  destruct (decide (Method r ≠ "POST")) as [Hn | _]; [done |].
  split; [| split].
  - destruct templates; run_page; done.
  - intros Hml. run_calls. rewrite Hparse. run_calls.
    unfold telemetry.RecordMessageLength, sdk.RecordInt64, sdk.on_instrument.
    destruct (telemetry.MessageLength t); [discriminate |].
    run_calls. rewrite Hempty. rewrite <- ?app_assoc. done.
  - intros ml Hml. run_calls. rewrite Hparse. run_calls. rewrite Hempty.
    destruct templates; run_page; done.
Qed.

Lemma echoHandler_accepts_witness :
  let σ := sample.world sample.calm in
  let out := pages.echoHandler demo.lib (Some ["echo.html"]) (Some sample.tel)
               response _ (demo.post "hello" false) (main.newConnection None, σ) in
  body out.2.1 = "<p>hello</p>"
  ∧ opened (new_calls σ out.2.2) = 2%nat ∧ closed (new_calls σ out.2.2) = 2%nat.
Proof.
  cbv zeta.
  destruct (echoHandler_accepts demo.lib (Some ["echo.html"]) sample.tel
              (tracer sample.reg) (demo.post "hello" false) (main.newConnection None)
              (sample.world sample.calm) eq_refl eq_refl eq_refl eq_refl)
    as (_ & _ & Hrun).
  destruct (Hrun (metric.mkInstrument metric.Int64Histogram "echo_message_length"
                    "Length of echo messages" "{character}"
                    ["0"; "10"; "50"; "100"; "500"; "1000"; "5000"]) eq_refl)
    as (_ & Hw & Hσ).
  rewrite Hw, Hσ. repeat split.
Defined.

(** ** Every request leaves the counts as it found them *)

Lemma tidy_nil : further.tidy [].
Proof. split; [constructor | done]. Qed.

(** The goal left by [run_page]: the calls added are written out. *)
Ltac tidy_done :=
  cbn [fst snd];
  first
    [ by (exists []; rewrite app_nil_r; split; [done | apply tidy_nil])
    | eexists; split; [apply calls_after |];
      cbn [further.on_span app]; split; [by repeat constructor | reflexivity] ].

Lemma homeHandler_well_kept lib templates tel :
  further.well_kept (pages.homeHandler lib templates tel).
Proof.
  intros W RW r w σ. unfold pages.homeHandler, pages.execute.
  destruct tel as [t |]; [destruct (telemetry.Tracer t) as [tr |] |];
    (destruct (decide (URL_Path r ≠ "/")); [| destruct templates as [names |]]);
    run_page; tidy_done.
Qed.

Lemma echoHandler_well_kept lib templates tel :
  further.well_kept (pages.echoHandler lib templates tel).
Proof.
  intros W RW r w σ. unfold pages.echoHandler, pages.execute.
  destruct (SpanFromContext (Context r)) as [| handle sc];
    (destruct (decide (Method r ≠ pages.MethodPost));
     [ destruct tel as [t |]; run_page; tidy_done |]);
    (destruct tel as [t |];
     [ destruct (telemetry.Tracer t) as [tr |];
       [ destruct (telemetry.MessageLength t) as [ml |] eqn:Hml;
         run_calls; destruct (pages.ParseForm lib r).1 as [e |] | ] | ]);
    try destruct templates as [names |]; run_page; tidy_done.
Qed.

Lemma quiet_well_kept (f : Request → Script) :
  (∀ r, further.quiet (f r)) → further.well_kept (HandlerFunc f).
Proof.
  intros Hq W RW r w σ. unfold HandlerFunc.
  rewrite (exec_quiet (f r) (Hq r) w σ σ). cbn [fst snd].
  exists []. rewrite app_nil_r. split; [done | apply tidy_nil].
Qed.

Lemma readinessHandler_well_kept templates tel :
  further.well_kept (HandlerFunc (main.readinessHandler templates tel)).
Proof.
  intros W RW r w σ. unfold HandlerFunc, main.readinessHandler.
  set (respond := SetHeader _ _ _).
  assert (Hq : further.quiet respond).
  { subst respond. cbn. by destruct (bool_decide _). }
  destruct (decide (tel ≠ None)).
  - cbn [exec]. unfold Go.bind, Go.on_snd. cbn [span_call fst snd].
    rewrite SetAttributes_run. cbn [fst snd].
    match goal with
    | |- context [exec respond (w, ?s)] => rewrite (exec_quiet respond Hq w s σ)
    end.
    cbn [fst snd]. eexists. split; [apply calls_after |].
    destruct (SpanFromContext (Context r)); cbn [further.on_span];
      [apply tidy_nil | split; [by repeat constructor | reflexivity]].
  - rewrite (exec_quiet respond Hq w σ σ). cbn [fst snd].
    exists []. rewrite app_nil_r. split; [done | apply tidy_nil].
Qed.

Lemma mux_well_kept lib templates tel :
  further.well_kept
    (main.mux templates tel (pages.homeHandler lib templates tel)
       (pages.echoHandler lib templates tel)).
Proof.
  intros W RW r w σ. unfold main.mux.
  destruct (decide (URL_Path r = "/echo")); [apply echoHandler_well_kept |].
  destruct (decide (URL_Path r = "/health")); [by apply quiet_well_kept |].
  destruct (decide (URL_Path r = "/ready")); [apply readinessHandler_well_kept |].
  apply homeHandler_well_kept.
Qed.

(** The middleware around a handler that is well kept: spans opened are
    closed and the gauge is back where it was. *)
Lemma TracingMiddleware_settles {W : Type} `{ResponseWriter W}
    (t : telemetry.Telemetry) (next : Handler) (r : Request) (w : W) (σ : sdk.World) :
  further.well_kept next →
  ∃ l, sdk.calls (middleware.TracingMiddleware t next W _ r (w, σ)).2.2
       = (sdk.calls σ ++ l)%list
       ∧ opened l = closed l ∧ ∀ inst, gauge inst l = 0.
Proof.
  intros Hnext.
  destruct (telemetry.ActiveRequests t) as [act |] eqn:Hact;
    [destruct (telemetry.Tracer t) as [tr |] eqn:Htr |].
  - rewrite (TracingMiddleware_run_any t act tr Hact Htr next w r σ).
    unfold Go.bind.
    destruct (Hnext _ _ (handler_request r σ) (handler_writer w r σ)
                (handler_world act tr r σ)) as (l1 & E1 & F1 & O1).
    destruct (next _ _ _ _) as [[[] | v] [rw σ1]]; cbn [fst snd] in E1.
    + destruct (after_handler_plain t r σ rw σ1) as (_ & l2 & E2 & F2).
      destruct (after_handler t r σ (rw, σ1)) as [res [rw2 σ2]]. cbn [fst snd] in *.
      exists (opening act tr r σ ++ l1 ++ l2 ++ closing act r σ)%list.
      rewrite E2, E1. unfold handler_world. cbn [sdk.calls sdk.with_calls].
      split; [by rewrite <- !app_assoc |]. split.
      * rewrite !opened_app, !closed_app, O1, (plain_opened l2 F2), (plain_closed l2 F2).
        unfold opening, closing, opened, closed. cbn. lia.
      * intros inst. rewrite !gauge_app, (gauge_quiet inst l1 F1).
        rewrite (gauge_quiet inst l2)
          by (eapply Forall_impl; [exact F2 |]; by intros c (_ & _ & Hu)).
        unfold opening, closing. cbn [gauge]. destruct (decide (act = inst)); lia.
    + exists (opening act tr r σ ++ l1 ++ closing act r σ)%list.
      rewrite E1. unfold handler_world. cbn [sdk.calls sdk.with_calls].
      split; [by rewrite <- !app_assoc |]. split.
      * rewrite !opened_app, !closed_app, O1.
        unfold opening, closing, opened, closed. cbn. lia.
      * intros inst. rewrite !gauge_app, (gauge_quiet inst l1 F1).
        unfold opening, closing. cbn [gauge]. destruct (decide (act = inst)); lia.
  - unfold middleware.TracingMiddleware, telemetry.StartRequest, telemetry.EndRequest.
    rewrite Hact, Htr. destruct σ as [c l n g o]. run_sdk.
    eexists. split; [reflexivity |]. split; [reflexivity |].
    intros inst. cbn [gauge]. destruct (decide (act = inst)); lia.
  - unfold middleware.TracingMiddleware, telemetry.StartRequest.
    rewrite Hact. destruct σ as [c l n g o]. run_sdk.
    exists []. rewrite app_nil_r. repeat split.
Qed.

(** X17.  Whatever the request, the handle, the templates and the library
    functions do, and however the request ends, the handler that [main]
    gives to the server only adds calls, closes as many spans as it opens
    and leaves every up-down counter where it was: no span and no active
    request is leaked, with telemetry on, off or half initialised. *)
Theorem request_leaves_nothing_open {W : Type} `{ResponseWriter W}
    (lib : pages.Library) (templates : option (list string))
    (tel : option telemetry.Telemetry) (r : Request) (w : W) (σ : sdk.World) :
  ∃ l, sdk.calls (pages.handler lib templates tel W _ r (w, σ)).2.2
       = (sdk.calls σ ++ l)%list
       ∧ opened l = closed l ∧ ∀ inst, gauge inst l = 0.
Proof.
  unfold pages.handler, main.handler. destruct tel as [t |].
  - apply TracingMiddleware_settles, mux_well_kept.
  - destruct (mux_well_kept lib templates None W _ r w σ) as (l & E & F & O).
    exists l. split; [done |]. split; [done |]. intros inst. by apply gauge_quiet.
Qed.

(** ** The program without telemetry *)

(** X18.  The handlers of the program without telemetry make no call on
    the SDK and answer as the handlers of the instrumented program do with
    telemetry off, except when a template returns an error: the older
    handlers ignore the error and return normally with what the template
    has written, the newer ones go on to answer 500 Internal Server Error
    on the same response.  The older router has no pattern for /ready,
    which it gives to the home handler and so to [http.NotFound]. *)
Theorem plain_handlers_ignore_template_errors {W : Type} `{ResponseWriter W}
    (lib : pages.Library) (templates : option (list string))
    (r : Request) (w : W) (σ : sdk.World) :
  let old_home := plain.homeHandler lib templates W _ r (w, σ) in
  let new_home := pages.homeHandler lib templates None W _ r (w, σ) in
  let old_echo := plain.echoHandler lib templates W _ r (w, σ) in
  let new_echo := pages.echoHandler lib templates None W _ r (w, σ) in
  let home := pages.execute lib templates "index.html" None (w, σ) in
  let echo := pages.execute lib templates "echo.html"
                (Some (pages.FormValue lib r None "message")) (w, σ) in
  let failure (w1 : W) :=
    pages.http_Error lib W _ "Internal Server Error" 500 w1 in
  old_home.2.2 = σ ∧ old_echo.2.2 = σ
  ∧ (URL_Path r ≠ "/" ∨ (∀ e, home.1 ≠ Ok (Some e)) → new_home = old_home)
  ∧ (Method r ≠ "POST" ∨ (∀ e, echo.1 ≠ Ok (Some e)) → new_echo = old_echo)
  ∧ (URL_Path r = "/" → ∀ e, home.1 = Ok (Some e) →
     old_home = (Ok tt, home.2)
     ∧ new_home = ((failure home.2.1).1, ((failure home.2.1).2, σ)))
  ∧ (Method r = "POST" → ∀ e, echo.1 = Ok (Some e) →
     old_echo = (Ok tt, echo.2)
     ∧ new_echo = ((failure echo.2.1).1, ((failure echo.2.1).2, σ)))
  ∧ (URL_Path r = "/ready" →
     plain.mux lib templates W _ r (w, σ)
     = ((pages.http_NotFound lib W _ r w).1, ((pages.http_NotFound lib W _ r w).2, σ))).
Proof.
  cbv zeta.
  unfold plain.mux, plain.homeHandler, plain.echoHandler, pages.homeHandler,
    pages.echoHandler, pages.execute, pages.MethodPost, pages.StatusInternalServerError.
  split; [| split; [| split; [| split; [| split; [| split]]]]].
  - destruct (decide (URL_Path r ≠ "/")); [| destruct templates];
      run_page; done.
  - destruct (decide (Method r ≠ "POST")); [| destruct templates];
      run_page; done.
  - intros Hc. destruct (decide (URL_Path r ≠ "/")) as [Hp | Hp].
    + run_page; done.
    + destruct Hc as [Hc | Hc]; [done |]. revert Hc.
      destruct templates; run_calls; [| done].
      template_case; run_calls; try done. intros Hc. by destruct (Hc _ eq_refl).
  - intros Hc. destruct (decide (Method r ≠ "POST")) as [Hp | Hp].
    + run_page; done.
    + destruct Hc as [Hc | Hc]; [done |]. revert Hc.
      destruct templates; run_calls; [| done].
      template_case; run_calls; try done. intros Hc. by destruct (Hc _ eq_refl).
  - intros Hp e. destruct (decide (URL_Path r ≠ "/")) as [Hn | _]; [done |].
    destruct templates; run_calls; [| done].
    template_case; run_calls; try done. intros _. by lib_case.
  - intros Hp e. destruct (decide (Method r ≠ "POST")) as [Hn | _]; [done |].
    destruct templates; run_calls; [| done].
    template_case; run_calls; try done. intros _. by lib_case.
  - intros Hp. rewrite Hp.
    destruct (decide ("/ready" = "/echo")) as [? | _]; [done |].
    destruct (decide ("/ready" = "/health")) as [? | _]; [done |].
    destruct (decide ("/ready" ≠ "/")) as [_ | Hn]; [| by destruct Hn].
    run_calls. by lib_case.
Qed.

Lemma plain_handlers_ignore_template_errors_witness :
  let σ := sample.world sample.calm in
  let r := sample.get "/" in
  let old_home := plain.homeHandler demo.lib (Some []) response _ r
                    (main.newConnection None, σ) in
  let new_home := pages.homeHandler demo.lib (Some []) None response _ r
                    (main.newConnection None, σ) in
  new_home = old_home ∧ body old_home.2.1 = "<h1>home</h1>".
Proof.
  cbv zeta.
  destruct (plain_handlers_ignore_template_errors demo.lib (Some []) (sample.get "/")
              (main.newConnection None) (sample.world sample.calm))
    as (_ & _ & Hhome & _).
  split; [apply Hhome; right; intros e; discriminate | reflexivity].
Defined.
